(** * Recipe application: search engine, review ledger and bookmark store

    A shallow embedding of the logic of [src/contexts/RecipeContext.tsx]
    (text similarity, search, recipe creation, review aggregates) and of
    the folder context (folders and bookmarks), with the properties the
    specification states about them.

    Conventions.
    - A JavaScript string is a [list ascii]; a character stands for a code
      unit in the range U+0000..U+00FF, so [toLowerCase], [trim] and the
      regular expression [\s] are the Latin-1 restrictions of the
      JavaScript ones.
    - Identifiers, counts and ratings of type [number] that the program
      only ever uses as integers are [Z]; matrix cells and lengths are
      [nat]; [AggregatedRating], a quotient, is an exact rational [Q].
      Where the program adds to a recipe id or to a duration, or prints
      one, the double rounding and [Number::toString] are modelled
      ([Js.plusOne], [Js.plus], [Js.showZ]).
    - React state is threaded explicitly: every operation takes the
      current collections and returns the new ones.  [Date.now()] and
      [new Date().toISOString()] are arguments of the operation. *)

From Stdlib Require Import Ascii String List Bool Arith ZArith QArith Qround Lia.
From Stdlib Require Import DecimalString DecimalPos.
From Stdlib Require Import Sorted Permutation Lqa.
Import ListNotations.
Close Scope Q_scope.

Set Implicit Arguments.

Definition str := list ascii.

(** String literals for examples. *)
Definition lit (x : string) : str := list_ascii_of_string x.

(* ================================================================== *)
(** ** JavaScript string primitives *)
(* ================================================================== *)

Module Js.

(** Code unit of a character. *)
Definition code (c : ascii) : N := N_of_ascii c.

(** [String.prototype.toLowerCase] on one Latin-1 code unit: A-Z and
    the accented capitals U+00C0..U+00DE (without the multiplication
    sign U+00D7) move up by 32. *)
Definition toLowerChar (c : ascii) : ascii :=
  let n := code c in
  if ((65 <=? n) && (n <=? 90) ||
      (192 <=? n) && (n <=? 222) && negb (n =? 215))%N
  then ascii_of_N (n + 32)
  else c.

Definition toLowerCase (x : str) : str := map toLowerChar x.

(** The class [\s] (and the characters [trim] strips): TAB, LF, VT, FF,
    CR, SPACE and NO-BREAK SPACE. *)
Definition isWhitespace (c : ascii) : bool :=
  let n := code c in
  ((9 <=? n) && (n <=? 13) || (n =? 32) || (n =? 160))%N.

(** [s.startsWith(p)] *)
Fixpoint startsWith (x p : str) : bool :=
  match p, x with
  | [], _ => true
  | _ :: _, [] => false
  | c :: p', d :: x' => Ascii.eqb c d && startsWith x' p'
  end.

(** [s.includes(sub)]: [sub] occurs at some position of [s]. *)
Fixpoint includes (x sub : str) : bool :=
  startsWith x sub ||
  match x with
  | [] => false
  | _ :: x' => includes x' sub
  end.

Fixpoint trimStart (x : str) : str :=
  match x with
  | c :: x' => if isWhitespace c then trimStart x' else x
  | [] => []
  end.

Definition trimEnd (x : str) : str := rev (trimStart (rev x)).

(** [s.trim()] *)
Definition trim (x : str) : str := trimEnd (trimStart x).

(** [s.split(/\s+/)]: the pieces between maximal runs of whitespace.
    A leading or trailing run leaves an empty piece at that end, and the
    empty string splits into one empty piece. *)
Fixpoint splitWhitespace (x : str) : list str :=
  match x with
  | [] => [[]]
  | c :: x' =>
      if isWhitespace c then
        match x' with
        | c' :: _ => if isWhitespace c' then splitWhitespace x'
                     else [] :: splitWhitespace x'
        | [] => [] :: splitWhitespace x'
        end
      else
        match splitWhitespace x' with
        | w :: ws => (c :: w) :: ws
        | [] => [[c]]
        end
  end.

(** [s.split(sep)] for a one-character separator. *)
Fixpoint splitChar (sep : ascii) (x : str) : list str :=
  match x with
  | [] => [[]]
  | c :: x' =>
      if Ascii.eqb c sep then [] :: splitChar sep x'
      else match splitChar sep x' with
           | w :: ws => (c :: w) :: ws
           | [] => [[c]]
           end
  end.

(** [x === y] on strings. *)
Fixpoint strEq (x y : str) : bool :=
  match x, y with
  | [], [] => true
  | c :: x', d :: y' => Ascii.eqb c d && strEq x' y'
  | _, _ => false
  end.

(** *** Numbers

    A [number] that holds an integer is a [Z]: an integer-valued finite
    double.  Integers up to 2^53 in magnitude are doubles themselves;
    beyond that a result of arithmetic is rounded to the nearest double,
    and printing uses the shortest digits that read back as the same
    double. *)

(** 2^53, one more than [Number.MAX_SAFE_INTEGER]. *)
Definition twoTo53 : Z := 9007199254740992.

(** The double nearest to the integer [n], ties going to the even
    significand: what an operation whose exact result is [n] returns
    (short of overflow, see [toNumber]). *)
Definition roundToDouble (n : Z) : Z :=
  let a := Z.abs n in
  if (a <? twoTo53)%Z then n
  else
    let ulp := (2 ^ (Z.log2 a - 52))%Z in
    let down := (a / ulp * ulp)%Z in
    let rest := (a - down)%Z in
    let up :=
      if (2 * rest <? ulp)%Z then false
      else if (ulp <? 2 * rest)%Z then true
      else Z.odd (a / ulp) in
    (Z.sgn n * (if up then down + ulp else down))%Z.

(** A result of arithmetic on integers: a finite double or an
    infinity. *)
Inductive number :=
| Finite (z : Z)
| Infinity (negative : bool).

(** The number for the exact result [n]: rounded, and infinite once the
    rounded magnitude reaches 2^1024. *)
Definition toNumber (n : Z) : number :=
  let r := roundToDouble n in
  if (Z.abs r <? 2 ^ 1024)%Z then Finite r else Infinity (n <? 0)%Z.

(** [a + b] on integer-valued doubles. *)
Definition plus (a b : Z) : number := toNumber (a + b).

(** [x + 1] on an integer-valued double; the sum never overflows. *)
Definition plusOne (x : Z) : Z := roundToDouble (x + 1).

(** The decimal numeral of an integer, with a minus sign if negative. *)
Definition decimal (z : Z) : str :=
  list_ascii_of_string (NilZero.string_of_int (Z.to_int z)).

Definition digitCount (a : Z) : Z := Z.of_nat (length (decimal a)).

(** Search of [Number::toString] for the fewest significant digits: with
    [k] digits the two candidates are the multiples of [10^(d-k)] around
    [a]; one that rounds to [a] is taken (the nearer one, the even one
    on a tie), otherwise [k] grows. *)
Fixpoint shortestFrom (fuel : nat) (a d k : Z) : Z :=
  match fuel with
  | O => a
  | S fuel' =>
      let p := (10 ^ (d - k))%Z in
      let lo := (a / p * p)%Z in
      let hi := (lo + p)%Z in
      let okLo := (roundToDouble lo =? a)%Z in
      let okHi := (roundToDouble hi =? a)%Z in
      if okLo && okHi then
        if (a - lo <? hi - a)%Z then lo
        else if (hi - a <? a - lo)%Z then hi
        else if Z.even (a / p) then lo else hi
      else if okLo then lo
      else if okHi then hi
      else shortestFrom fuel' a d (k + 1)
  end.

(** The value whose numeral is printed for the positive double [a]. *)
Definition shortest (a : Z) : Z :=
  shortestFrom (Z.to_nat (digitCount a)) a (digitCount a) 1.

Fixpoint dropZeros (revDigits : str) : str :=
  match revDigits with
  | c :: rest => if Ascii.eqb c "0"%char then dropZeros rest else revDigits
  | [] => []
  end.

(** The exponent form [d.ddde+x] of a positive integer of more than 21
    digits. *)
Definition exponentForm (v : Z) : str :=
  match rev (dropZeros (rev (decimal v))) with
  | [] => []
  | d1 :: more =>
      d1 :: match more with
            | [] => []
            | _ :: _ => "."%char :: more
            end
      ++ "e"%char :: "+"%char :: decimal (digitCount v - 1)
  end.

(** Rendering of a positive double. *)
Definition showPositive (a : Z) : str :=
  let v := shortest a in
  if (digitCount v <=? 21)%Z then decimal v else exponentForm v.

(** Template-literal rendering of an integer-valued double
    ([Number::toString]): the plain numeral up to 2^53, beyond that the
    shortest digits, padded with zeros up to 21 digits and in exponent
    form from 1e21 on. *)
Definition showZ (z : Z) : str :=
  if (Z.abs z <? twoTo53)%Z then decimal z
  else if (z <? 0)%Z then "-"%char :: showPositive (- z)
  else showPositive z.

(** Template-literal rendering of a result of arithmetic. *)
Definition showNumber (n : number) : str :=
  match n with
  | Finite z => showZ z
  | Infinity false =>
      ["I"; "n"; "f"; "i"; "n"; "i"; "t"; "y"]%char
  | Infinity true =>
      ["-"; "I"; "n"; "f"; "i"; "n"; "i"; "t"; "y"]%char
  end.

(** [Math.max(x, ...xs)] on integers. *)
Definition mathMax (x : Z) (xs : list Z) : Z := fold_left Z.max xs x.

(** A string is falsy exactly when it is empty. *)
Definition falsy (x : str) : bool :=
  match x with [] => true | _ => false end.

End Js.

(* ================================================================== *)
(** ** TextSimilarity *)
(* ================================================================== *)

Module TextSimilarity.
Import Js.

(** The first row of the matrix, [matrix[0][i] = i] for [0 <= i <= |a|]. *)
Definition firstRow (a : str) : list nat := seq 0 (S (length a)).

(** The inner loop of [getLevenshteinDistance] for one row [j >= 1]:
    [above] is the suffix of row [j-1] starting at column [i-1], [left]
    is [matrix[j][i-1]], and the characters of [a] from column [i] on
    remain to be read. *)
Fixpoint fillRow (a : str) (bj : ascii) (above : list nat) (left : nat)
  : list nat :=
  match a, above with
  | ai :: a', diag :: ((up :: _) as above') =>
      let indicator := if Ascii.eqb ai bj then 0 else 1 in
      let cell := Nat.min (Nat.min (left + 1) (up + 1)) (diag + indicator) in
      cell :: fillRow a' bj above' cell
  | _, _ => []
  end.

(** Row [j]: column 0 holds [j], the inner loop fills the rest. *)
Definition nextRow (a : str) (bj : ascii) (j : nat) (above : list nat)
  : list nat :=
  j :: fillRow a bj above j.

(** The outer loop: rows [j], [j+1], ... for the characters of [b] left. *)
Fixpoint fillRows (a b : str) (j : nat) (above : list nat)
  : list (list nat) :=
  match b with
  | [] => []
  | bj :: b' =>
      let row := nextRow a bj j above in
      row :: fillRows a b' (S j) row
  end.

(** The whole [(|b|+1) x (|a|+1)] matrix. *)
Definition matrix (a b : str) : list (list nat) :=
  firstRow a :: fillRows a b 1 (firstRow a).

(** [getLevenshteinDistance(a, b) = matrix[b.length][a.length]] *)
Definition getLevenshteinDistance (a b : str) : nat :=
  nth (length a) (nth (length b) (matrix a b) []) 0.

(** [tolerance] is a rational; the default is 0.2.  For every string
    length below 2^50 the double product [n * 0.2] has the same floor as
    the exact product, so [Math.floor] is modelled by [Qfloor]. *)
Definition defaultTolerance : Q := (2 # 10)%Q.

Definition floorTimes (n : nat) (tolerance : Q) : nat :=
  Z.to_nat (Qfloor (inject_Z (Z.of_nat n) * tolerance)%Q).

(** The callback of [some] in [isFuzzyMatch]. *)
Definition sourceWordMatches (word : str) (maxDistance : nat)
  (sourceWord : str) : bool :=
  if length sourceWord <? 3 then false
  else getLevenshteinDistance sourceWord word <=? maxDistance.

(** The [for (const word of words)] loop. *)
Fixpoint fuzzyLoop (sourceLower : str) (maxDistance : nat)
  (words : list str) : bool :=
  match words with
  | [] => false
  | word :: rest =>
      if length word <? 3 then fuzzyLoop sourceLower maxDistance rest
      else if existsb (sourceWordMatches word maxDistance)
                      (splitWhitespace sourceLower)
           then true
           else fuzzyLoop sourceLower maxDistance rest
  end.

Definition isFuzzyMatch (source target : str) (tolerance : Q) : bool :=
  if falsy source || falsy target then false
  else
    let sourceLower := toLowerCase source in
    let targetLower := toLowerCase target in
    if includes sourceLower targetLower || includes targetLower sourceLower
    then true
    else
      let maxDistance := Nat.max (floorTimes (length targetLower) tolerance) 1 in
      fuzzyLoop sourceLower maxDistance (splitWhitespace targetLower).

End TextSimilarity.


(* ================================================================== *)
(** ** RecipeRepository, SearchEngine and ReviewLedger *)
(* ================================================================== *)

Module Review.

Record t := mk {
  ReviewId : Z;
  RecipeId : Z;
  AuthorId : Z;
  AuthorName : str;
  Rating : Z;
  Review : str;
  DateSubmitted : option str;
  DateModified : str
}.

(** [Omit<Review, 'ReviewId' | 'DateSubmitted' | 'DateModified'>] *)
Record data := mkData {
  d_RecipeId : Z;
  d_AuthorId : Z;
  d_AuthorName : str;
  d_Rating : Z;
  d_Review : str
}.

End Review.

Module RecipeContext.
Import Js TextSimilarity.

Record Recipe := mkRecipe {
  RecipeId : Z;
  Name : str;
  AuthorId : str;
  AuthorName : str;
  CookTime : str;
  PrepTime : str;
  TotalTime : str;
  DatePublished : str;
  Description : str;
  Images : list str;
  RecipeCategory : str;
  Keywords : list str;
  RecipeIngredientQuantities : list str;
  RecipeIngredientParts : list str;
  AggregatedRating : Q;
  ReviewCount : Z;
  Calories : Z;
  FatContent : Z;
  SaturatedFatContent : Z;
  CholesterolContent : Z;
  SodiumContent : Z;
  CarbohydrateContent : Z;
  FiberContent : Z;
  SugarContent : Z;
  ProteinContent : Z;
  RecipeServings : Z;
  RecipeYield : str;
  RecipeInstructions : list str
}.

(** [{ ...recipe, AggregatedRating: rating, ReviewCount: count }] *)
Definition withAggregate (recipe : Recipe) (rating : Q) (count : Z) : Recipe :=
  mkRecipe (RecipeId recipe) (Name recipe) (AuthorId recipe)
    (AuthorName recipe) (CookTime recipe) (PrepTime recipe)
    (TotalTime recipe) (DatePublished recipe) (Description recipe)
    (Images recipe) (RecipeCategory recipe) (Keywords recipe)
    (RecipeIngredientQuantities recipe) (RecipeIngredientParts recipe)
    rating count
    (Calories recipe) (FatContent recipe) (SaturatedFatContent recipe)
    (CholesterolContent recipe) (SodiumContent recipe)
    (CarbohydrateContent recipe) (FiberContent recipe) (SugarContent recipe)
    (ProteinContent recipe) (RecipeServings recipe) (RecipeYield recipe)
    (RecipeInstructions recipe).

(** The two pieces of state of the provider. *)
Record State := mkState {
  recipes : list Recipe;
  reviews : list Review.t
}.

(** *** Search *)

(** The predicate of the first [filter] of [searchRecipesWithFuzzy]. *)
Definition exactMatch (queryLower : str) (recipe : Recipe) : bool :=
  let nameMatch := includes (toLowerCase (Name recipe)) queryLower in
  let descriptionMatch :=
    includes (toLowerCase (Description recipe)) queryLower in
  let keywordMatch :=
    existsb (fun k => includes (toLowerCase k) queryLower)
            (Keywords recipe) in
  let ingredientMatch :=
    existsb (fun i => includes (toLowerCase i) queryLower)
            (RecipeIngredientParts recipe) in
  nameMatch || descriptionMatch || keywordMatch || ingredientMatch.

(** The predicate of the second [filter]. *)
Definition fuzzyMatch (queryLower : str) (recipe : Recipe) : bool :=
  if isFuzzyMatch (toLowerCase (Name recipe)) queryLower defaultTolerance
  then true
  else if negb (falsy (Description recipe)) &&
          isFuzzyMatch (toLowerCase (Description recipe)) queryLower
                       defaultTolerance
  then true
  else if existsb (fun ingredient =>
                     isFuzzyMatch (toLowerCase ingredient) queryLower
                                  defaultTolerance)
                  (RecipeIngredientParts recipe)
  then true
  else if existsb (fun keyword =>
                     isFuzzyMatch (toLowerCase keyword) queryLower
                                  defaultTolerance)
                  (Keywords recipe)
  then true
  else false.

Definition searchRecipesWithFuzzy (query : str) (recipesToSearch : list Recipe)
  : list Recipe :=
  let queryLower := trim (toLowerCase query) in
  if falsy queryLower then firstn 20 recipesToSearch
  else
    let exactMatches := filter (exactMatch queryLower) recipesToSearch in
    if 0 <? length exactMatches then exactMatches
    else filter (fuzzyMatch queryLower) recipesToSearch.

(** *** Recipe creation *)

Record RecipeInput := mkInput {
  name : str;
  description : str;
  instructions : str;
  category : str;
  authorId : str;
  authorName : str;
  prepTime : Z;
  cookTime : Z;
  servings : Z;
  keywords : option str;
  imageUrl : option str;
  recipeYield : option str;
  ingredientQuantities : list str;
  ingredientParts : list str
}.

(** [const maxId = recipes.length > 0 ? Math.max(...ids) : 0]; the
    greatest of some doubles is one of them, no rounding. *)
Definition maxId (rs : list Recipe) : Z :=
  match map RecipeId rs with
  | [] => 0
  | x :: xs => mathMax x xs
  end.

Definition nonEmpty (x : str) : bool := negb (falsy x).

Definition pt (minutes : Z) : str := lit "PT" ++ showZ minutes ++ lit "M".

(** [`PT${a + b}M`] *)
Definition ptSum (a b : Z) : str :=
  lit "PT" ++ showNumber (plus a b) ++ lit "M".

Definition newRecipe (rs : list Recipe) (data : RecipeInput) (isoNow : str)
  : Recipe :=
  let newId := plusOne (maxId rs) in
  let instructionSteps :=
    filter (fun l => 0 <? length l)
           (map trim (splitChar "010"%char (instructions data))) in
  let kws :=
    match keywords data with
    | Some k => if falsy k then []
                else filter nonEmpty (map trim (splitChar ","%char k))
    | None => []
    end in
  {| RecipeId := newId;
     Name := name data;
     AuthorId := authorId data;
     AuthorName := authorName data;
     CookTime := pt (cookTime data);
     PrepTime := pt (prepTime data);
     TotalTime := ptSum (prepTime data) (cookTime data);
     DatePublished := isoNow;
     Description := description data;
     Images := match imageUrl data with
               | Some u => if falsy u then [] else [u]
               | None => []
               end;
     RecipeCategory := category data;
     Keywords := kws;
     RecipeIngredientQuantities := ingredientQuantities data;
     RecipeIngredientParts := ingredientParts data;
     AggregatedRating := 0%Q;
     ReviewCount := 0;
     Calories := 0;
     FatContent := 0;
     SaturatedFatContent := 0;
     CholesterolContent := 0;
     SodiumContent := 0;
     CarbohydrateContent := 0;
     FiberContent := 0;
     SugarContent := 0;
     ProteinContent := 0;
     RecipeServings := servings data;
     RecipeYield := match recipeYield data with
                    | Some y => y
                    | None => []
                    end;
     RecipeInstructions := instructionSteps |}.

(** [addRecipe]: the new state and the resolved [{ newId }]. *)
Definition addRecipe (data : RecipeInput) (isoNow : str) (st : State)
  : State * Z :=
  let r := newRecipe (recipes st) data isoNow in
  (mkState (r :: recipes st) (reviews st), RecipeId r).

(** *** Review aggregates *)

(** [list.filter(r => r.RecipeId === id)] *)
Definition reviewsFor (id : Z) (rvs : list Review.t) : list Review.t :=
  filter (fun r => Z.eqb (Review.RecipeId r) id) rvs.

(** [list.reduce((sum, r) => sum + r.Rating, 0)] *)
Definition sumRatings (rvs : list Review.t) : Z :=
  fold_left (fun sum r => (sum + Review.Rating r)%Z) rvs 0%Z.

(** The callback of [prevRecipes.map] in [loadData]. *)
Definition recompute (reviewsData : list Review.t) (recipe : Recipe) : Recipe :=
  let recipeReviews := reviewsFor (RecipeId recipe) reviewsData in
  let reviewCount := length recipeReviews in
  let aggregatedRating :=
    if 0 <? reviewCount
    then (inject_Z (sumRatings recipeReviews) /
          inject_Z (Z.of_nat reviewCount))%Q
    else AggregatedRating recipe in
  withAggregate recipe aggregatedRating (Z.of_nat reviewCount).

(** [loadData] after [processRecipes]: the reviews are installed and the
    aggregates recomputed only when the bundled review data is a
    non-empty array. *)
Definition loadData (processedRecipes : list Recipe)
  (reviewsData : list Review.t) : State :=
  if 0 <? length reviewsData
  then mkState (map (recompute reviewsData) processedRecipes) reviewsData
  else mkState processedRecipes [].

Definition newReview (reviewData : Review.data) (now : Z) (isoNow : str)
  : Review.t :=
  {| Review.ReviewId := now;
     Review.RecipeId := Review.d_RecipeId reviewData;
     Review.AuthorId := Review.d_AuthorId reviewData;
     Review.AuthorName := Review.d_AuthorName reviewData;
     Review.Rating := Review.d_Rating reviewData;
     Review.Review := Review.d_Review reviewData;
     Review.DateSubmitted := Some isoNow;
     Review.DateModified := isoNow |}.

Definition addReview (reviewData : Review.data) (now : Z) (isoNow : str)
  (st : State) : State :=
  let currentReviews := reviewsFor (Review.d_RecipeId reviewData) (reviews st) in
  let totalRatings := (sumRatings currentReviews + Review.d_Rating reviewData)%Z in
  let newRating :=
    (inject_Z totalRatings /
     inject_Z (Z.of_nat (length currentReviews + 1)))%Q in
  mkState
    (map (fun recipe =>
            if Z.eqb (RecipeId recipe) (Review.d_RecipeId reviewData)
            then withAggregate recipe newRating (ReviewCount recipe + 1)
            else recipe)
         (recipes st))
    (newReview reviewData now isoNow :: reviews st).

(** A call of [addReview] together with the clock it reads. *)
Record ReviewCall := mkCall {
  callData : Review.data;
  callNow : Z;
  callIso : str
}.

Definition addReviews (calls : list ReviewCall) (st : State) : State :=
  fold_left (fun acc c => addReview (callData c) (callNow c) (callIso c) acc)
            calls st.

End RecipeContext.

(* ================================================================== *)
(** ** BookmarkStore: the folder context *)
(* ================================================================== *)

Module User.

Record t := mk {
  id : str;
  username : str;
  email : str;
  name : str;
  password : option str;
  avatar : option str
}.

End User.

Module Bookmark.

Record t := mk {
  id : str;
  recipeId : Z;
  userId : str;
  folderId : str;
  rating : Z;
  createdAt : str
}.

(** [Partial<Pick<Bookmark, 'folderId' | 'rating'>>] *)
Record patch := mkPatch {
  p_folderId : option str;
  p_rating : option Z
}.

Definition orElse {A : Type} (o : option A) (d : A) : A :=
  match o with Some x => x | None => d end.

(** [{ ...bookmark, ...data }] *)
Definition merge (bookmark : t) (data : patch) : t :=
  {| id := id bookmark;
     recipeId := recipeId bookmark;
     userId := userId bookmark;
     folderId := orElse (p_folderId data) (folderId bookmark);
     rating := orElse (p_rating data) (rating bookmark);
     createdAt := createdAt bookmark |}.

End Bookmark.

Module Folder.

Record t := mk {
  id : str;
  name : str;
  userId : str;
  color : str;
  icon : str;
  createdAt : str
}.

(** [Partial<Omit<Folder, 'id' | 'userId' | 'createdAt'>>] *)
Record patch := mkPatch {
  p_name : option str;
  p_color : option str;
  p_icon : option str
}.

(** [{ ...folder, ...data }] *)
Definition merge (folder : t) (data : patch) : t :=
  {| id := id folder;
     name := Bookmark.orElse (p_name data) (name folder);
     userId := userId folder;
     color := Bookmark.orElse (p_color data) (color folder);
     icon := Bookmark.orElse (p_icon data) (icon folder);
     createdAt := createdAt folder |}.

End Folder.

Module FolderContext.
Import Js.

Record State := mkState {
  folders : list Folder.t;
  bookmarks : list Bookmark.t
}.

(** [user] is [useAuth().user]: [None] when nobody is signed in.
    [now] is [Date.now()], [isoNow] is [new Date().toISOString()]. *)

Definition createFolder (user : option User.t) (now : Z) (isoNow : str)
  (name : str) (color icon : option str) (st : State) : State :=
  match user with
  | None => st
  | Some u =>
      let newFolder :=
        {| Folder.id := lit "folder_" ++ showZ now;
           Folder.name := name;
           Folder.userId := User.id u;
           Folder.color := Bookmark.orElse color (lit "#ff9f7f");
           Folder.icon := Bookmark.orElse icon (lit "bookmark");
           Folder.createdAt := isoNow |} in
      mkState (folders st ++ [newFolder]) (bookmarks st)
  end.

Definition updateFolder (user : option User.t) (folderId : str)
  (data : Folder.patch) (st : State) : State :=
  match user with
  | None => st
  | Some _ =>
      mkState
        (map (fun folder =>
                if strEq (Folder.id folder) folderId
                then Folder.merge folder data else folder)
             (folders st))
        (bookmarks st)
  end.

Definition deleteFolder (user : option User.t) (folderId : str) (st : State)
  : State :=
  match user with
  | None => st
  | Some _ =>
      mkState
        (filter (fun folder => negb (strEq (Folder.id folder) folderId))
                (folders st))
        (filter (fun bookmark =>
                   negb (strEq (Bookmark.folderId bookmark) folderId))
                (bookmarks st))
  end.

Definition updateBookmark (user : option User.t) (bookmarkId : str)
  (data : Bookmark.patch) (st : State) : State :=
  match user with
  | None => st
  | Some _ =>
      mkState (folders st)
        (map (fun bookmark =>
                if strEq (Bookmark.id bookmark) bookmarkId
                then Bookmark.merge bookmark data else bookmark)
             (bookmarks st))
  end.

Definition addBookmark (user : option User.t) (now : Z) (isoNow : str)
  (recipeId : Z) (folderId : str) (rating : Z) (st : State) : State :=
  match user with
  | None => st
  | Some u =>
      let existingBookmark :=
        find (fun b => Z.eqb (Bookmark.recipeId b) recipeId &&
                       strEq (Bookmark.userId b) (User.id u))
             (bookmarks st) in
      match existingBookmark with
      | Some existing =>
          updateBookmark user (Bookmark.id existing)
            (Bookmark.mkPatch (Some folderId) (Some rating)) st
      | None =>
          let newBookmark :=
            {| Bookmark.id := lit "bookmark_" ++ showZ now;
               Bookmark.recipeId := recipeId;
               Bookmark.userId := User.id u;
               Bookmark.folderId := folderId;
               Bookmark.rating := rating;
               Bookmark.createdAt := isoNow |} in
          mkState (folders st) (bookmarks st ++ [newBookmark])
      end
  end.

Definition removeBookmark (user : option User.t) (bookmarkId : str)
  (st : State) : State :=
  match user with
  | None => st
  | Some _ =>
      mkState (folders st)
        (filter (fun bookmark => negb (strEq (Bookmark.id bookmark) bookmarkId))
                (bookmarks st))
  end.

Definition getBookmarksByFolder (user : option User.t) (folderId : str)
  (st : State) : list Bookmark.t :=
  match user with
  | None => []
  | Some u =>
      filter (fun bookmark =>
                strEq (Bookmark.userId bookmark) (User.id u) &&
                strEq (Bookmark.folderId bookmark) folderId)
             (bookmarks st)
  end.

Definition getBookmarkByRecipeId (user : option User.t) (recipeId : Z)
  (st : State) : option Bookmark.t :=
  match user with
  | None => None
  | Some u =>
      find (fun bookmark =>
              strEq (Bookmark.userId bookmark) (User.id u) &&
              Z.eqb (Bookmark.recipeId bookmark) recipeId)
           (bookmarks st)
  end.

Definition getUserFolders (user : option User.t) (st : State)
  : list Folder.t :=
  match user with
  | None => []
  | Some u =>
      filter (fun folder => strEq (Folder.userId folder) (User.id u))
             (folders st)
  end.

Definition getFolderById (folderId : str) (st : State) : option Folder.t :=
  find (fun folder => strEq (Folder.id folder) folderId) (folders st).

(** The mutating operations as data, to speak about call sequences. *)
Inductive Call :=
| CreateFolder (name : str) (color icon : option str)
| UpdateFolder (folderId : str) (data : Folder.patch)
| DeleteFolder (folderId : str)
| AddBookmark (recipeId : Z) (folderId : str) (rating : Z)
| RemoveBookmark (bookmarkId : str)
| UpdateBookmark (bookmarkId : str) (data : Bookmark.patch).

(** One call with the signed-in user and the clock at that moment. *)
Record Event := mkEvent {
  evUser : option User.t;
  evNow : Z;
  evIso : str;
  evCall : Call
}.

Definition step (st : State) (e : Event) : State :=
  match evCall e with
  | CreateFolder name color icon =>
      createFolder (evUser e) (evNow e) (evIso e) name color icon st
  | UpdateFolder folderId data => updateFolder (evUser e) folderId data st
  | DeleteFolder folderId => deleteFolder (evUser e) folderId st
  | AddBookmark recipeId folderId rating =>
      addBookmark (evUser e) (evNow e) (evIso e) recipeId folderId rating st
  | RemoveBookmark bookmarkId => removeBookmark (evUser e) bookmarkId st
  | UpdateBookmark bookmarkId data =>
      updateBookmark (evUser e) bookmarkId data st
  end.

Definition run (events : list Event) (st : State) : State :=
  fold_left step events st.

End FolderContext.

(* ================================================================== *)
(** ** The rest of the recipe context: ingestion and queries *)
(* ================================================================== *)

Module Ingestion.
Import Js.

(** The class [\w]: letters, digits and the underscore. *)
Definition isWordChar (c : ascii) : bool :=
  let n := code c in
  ((48 <=? n) && (n <=? 57) || (65 <=? n) && (n <=? 90) ||
   (97 <=? n) && (n <=? 122) || (n =? 95))%N.

(** A character outside the class [[^\w\s,.-]], that is, one the first
    [replace] of [sanitizeText] leaves alone. *)
Definition isKept (c : ascii) : bool :=
  let n := code c in
  (isWordChar c || isWhitespace c || (n =? 44) || (n =? 46) || (n =? 45))%N.

(** [x.replace(/[^\w\s,.-]/g, ' ')] *)
Definition replaceOthers (x : str) : str :=
  map (fun c => if isKept c then c else " "%char) x.

(** [x.replace(/\s+/g, ' ')]: every maximal run of whitespace becomes
    one space (written when the last character of the run is read). *)
Fixpoint collapseWhitespace (x : str) : str :=
  match x with
  | [] => []
  | c :: x' =>
      if isWhitespace c then
        match x' with
        | c' :: _ => if isWhitespace c' then collapseWhitespace x'
                     else " "%char :: collapseWhitespace x'
        | [] => [" "%char]
        end
      else c :: collapseWhitespace x'
  end.

Definition sanitizeText (text : str) : str :=
  if falsy text then []
  else collapseWhitespace (replaceOthers (trim text)).

End Ingestion.

Module RecipeQueries.
Import Js TextSimilarity RecipeContext.

(** [arr.slice(0, end)]: a negative [end] counts from the back, and
    both ends are clamped to the array. *)
Definition slice0 {A : Type} (end_ : Z) (l : list A) : list A :=
  if (end_ <? 0)%Z
  then firstn (Z.to_nat (Z.of_nat (length l) + end_)) l
  else firstn (Z.to_nat end_) l.

(** [Array.prototype.sort] is stable.  [before x y] says that the
    comparator does not put [y] in front of [x] ([comparefn(x, y) <= 0]);
    for a consistent comparator the stable order is unique, and it is
    the one insertion from the right builds. *)
Fixpoint insertBy {A : Type} (before : A -> A -> bool) (x : A) (l : list A)
  : list A :=
  match l with
  | [] => [x]
  | y :: l' => if before x y then x :: y :: l' else y :: insertBy before x l'
  end.

Definition sortBy {A : Type} (before : A -> A -> bool) (l : list A) : list A :=
  fold_right (insertBy before) [] l.

(** [recipes.find(recipe => recipe.RecipeId === id)] *)
Definition getRecipeById (id : Z) (st : State) : option Recipe :=
  find (fun recipe => Z.eqb (RecipeId recipe) id) (recipes st).

(** [reviews.filter(review => review.RecipeId === recipeId)] *)
Definition getReviewsForRecipe (recipeId : Z) (st : State) : list Review.t :=
  filter (fun review => Z.eqb (Review.RecipeId review) recipeId) (reviews st).

(** [(a, b) => b.AggregatedRating - a.AggregatedRating] is at most 0. *)
Definition byRatingDesc (a b : Recipe) : bool :=
  Qle_bool (AggregatedRating b - AggregatedRating a)%Q 0%Q.

Definition getTopRatedRecipes (count : Z) (st : State) : list Recipe :=
  slice0 count
    (sortBy byRatingDesc
       (filter (fun recipe => negb (Qle_bool (AggregatedRating recipe) 0%Q))
               (recipes st))).

Definition getRecentRecipes (count : Z) (st : State) : list Recipe :=
  slice0 count (recipes st).

(** [(a, b) => b.ReviewCount - a.ReviewCount] is at most 0. *)
Definition byReviewCountDesc (a b : Recipe) : bool :=
  (ReviewCount b - ReviewCount a <=? 0)%Z.

Definition getTrendingRecipes (count : Z) (st : State) : list Recipe :=
  slice0 count (sortBy byReviewCountDesc (recipes st)).

(** The predicate of [getCategoryRecipes]; both fields are strings. *)
Definition inCategory (category : str) (recipe : Recipe) : bool :=
  includes (toLowerCase (RecipeCategory recipe)) (toLowerCase category) ||
  existsb (fun keyword =>
             includes (toLowerCase keyword) (toLowerCase category))
          (Keywords recipe).

(** [.slice(0, count || recipes.length)] *)
Definition getCategoryRecipes (category : str) (count : Z) (st : State)
  : list Recipe :=
  slice0 (if (count =? 0)%Z then Z.of_nat (length (recipes st)) else count)
         (filter (inCategory category) (recipes st)).

(** [set.add(x)] on a [Set] kept in insertion order. *)
Definition setAdd (x : str) (set : list str) : list str :=
  if existsb (strEq x) set then set else set ++ [x].

(** The words of one string that [findSimilarTerms] collects. *)
Definition longWords (x : str) : list str :=
  map toLowerCase (filter (fun word => 3 <? length word) (splitWhitespace x)).

(** The terms one recipe contributes, in the order they are added. *)
Definition termsOfRecipe (recipe : Recipe) : list str :=
  longWords (Name recipe) ++
  flat_map longWords (RecipeIngredientParts recipe) ++
  map toLowerCase (Keywords recipe).

Definition allTerms (rs : list Recipe) : list str :=
  fold_left (fun set term => setAdd term set) (flat_map termsOfRecipe rs) [].

(** [Math.min(2, Math.floor(term.length * 0.3))]; the double product
    has the floor of the exact one wherever that floor is below 3. *)
Definition similarityThreshold (term : str) : nat :=
  Nat.min 2 (floorTimes (length term) (3 # 10)%Q).

(** [(a, b) => distance(a) - distance(b)] is at most 0. *)
Definition byDistance (queryLower : str) (a b : str) : bool :=
  (Z.of_nat (getLevenshteinDistance a queryLower) -
   Z.of_nat (getLevenshteinDistance b queryLower) <=? 0)%Z.

Definition findSimilarTerms (query : str) (rs : list Recipe) : list str :=
  let queryLower := toLowerCase query in
  let similarTerms :=
    filter (fun term =>
              getLevenshteinDistance term queryLower <=?
              similarityThreshold term)
           (allTerms rs) in
  slice0 5 (sortBy (byDistance queryLower) similarTerms).

(** [searchRecipes], without the logging. *)
Definition searchRecipes (query : str) (st : State) : list Recipe :=
  let fuzzyResults := searchRecipesWithFuzzy query (recipes st) in
  if 0 <? length fuzzyResults then fuzzyResults else [].

End RecipeQueries.

(* ================================================================== *)
(** ** Callers: recommendations, bookmark button, the two pages *)
(* ================================================================== *)

Module FolderQueries.
Import Js RecipeContext FolderContext.

(** [recipes.find(r => r.RecipeId === id)] *)
Definition recipeWithId (rs : list Recipe) (id : Z) : option Recipe :=
  find (fun r => Z.eqb (RecipeId r) id) rs.

(** [recipe.RecipeCategory === recipes.find(...)?.RecipeCategory]: false
    when the bookmarked recipe is not in the collection. *)
Definition sameCategory (rs : list Recipe) (recipe : Recipe)
  (bookmark : Bookmark.t) : bool :=
  match recipeWithId rs (Bookmark.recipeId bookmark) with
  | Some r => strEq (RecipeCategory recipe) (RecipeCategory r)
  | None => false
  end.

(** [recipe.Keywords.some(kw => (recipes.find(...)?.Keywords || []).includes(kw))] *)
Definition sharesKeyword (rs : list Recipe) (recipe : Recipe)
  (bookmark : Bookmark.t) : bool :=
  let theirs :=
    match recipeWithId rs (Bookmark.recipeId bookmark) with
    | Some r => Keywords r
    | None => []
    end in
  existsb (fun kw => existsb (strEq kw) theirs) (Keywords recipe).

(** [ids.includes(id)] *)
Definition includesId (ids : list Z) (id : Z) : bool :=
  existsb (Z.eqb id) ids.

Definition getRecommendationsForFolder (user : option User.t)
  (rs : list Recipe) (folderId : str) (st : FolderContext.State)
  : list Recipe :=
  match user, rs with
  | None, _ => []
  | _, [] => []
  | Some _, _ :: _ =>
      let folderBookmarks := getBookmarksByFolder user folderId st in
      let bookmarkedRecipeIds := map Bookmark.recipeId folderBookmarks in
      firstn 5
        (filter (fun recipe =>
                   negb (includesId bookmarkedRecipeIds (RecipeId recipe)) &&
                   existsb (fun bookmark =>
                              sameCategory rs recipe bookmark ||
                              sharesKeyword rs recipe bookmark)
                           folderBookmarks)
                rs)
  end.

Definition getRecommendationsForUser (user : option User.t)
  (rs : list Recipe) (st : FolderContext.State) : list Recipe :=
  match user, rs with
  | None, _ => []
  | _, [] => []
  | Some _, _ :: _ =>
      let allBookmarkedIds := map Bookmark.recipeId (bookmarks st) in
      firstn 5
        (filter (fun recipe =>
                   negb (includesId allBookmarkedIds (RecipeId recipe)) &&
                   existsb (fun bookmark => sameCategory rs recipe bookmark)
                           (bookmarks st))
                rs)
  end.

End FolderQueries.

Module BookmarkButton.
Import Js FolderContext.

(** [handleBookmark(folderId)] of the button shown for [recipeId];
    [rating] is the rating chosen in the button (5 until changed). *)
Definition handleBookmark (user : option User.t) (now : Z) (isoNow : str)
  (recipeId : Z) (rating : Z) (folderId : str) (st : FolderContext.State)
  : FolderContext.State :=
  match getBookmarkByRecipeId user recipeId st with
  | Some existingBookmark =>
      if strEq (Bookmark.folderId existingBookmark) folderId
      then removeBookmark user (Bookmark.id existingBookmark) st
      else updateBookmark user (Bookmark.id existingBookmark)
             (Bookmark.mkPatch (Some folderId) (Some rating)) st
  | None => addBookmark user now isoNow recipeId folderId rating st
  end.

End BookmarkButton.

Module CreateRecipePage.
Import Js.

Record Ingredient := mkIngredient {
  ing_id : str;
  quantity : str;
  part : str
}.

Record Instruction := mkInstruction {
  inst_id : str;
  value : str
}.

(** [ing.part.trim()] used as a condition. *)
Definition hasPart (ing : Ingredient) : bool := negb (falsy (trim (part ing))).

Definition ingredientQuantities (ingredients : list Ingredient) : list str :=
  map (fun ing => trim (quantity ing)) (filter hasPart ingredients).

Definition ingredientParts (ingredients : list Ingredient) : list str :=
  map (fun ing => trim (part ing)) (filter hasPart ingredients).

Definition instructionsList (instructions : list Instruction) : list str :=
  map (fun inst => trim (value inst))
      (filter (fun inst => negb (falsy (trim (value inst)))) instructions).

(** [lines.join('\n')] *)
Fixpoint joinLines (lines : list str) : str :=
  match lines with
  | [] => []
  | [l] => l
  | l :: rest => l ++ "010"%char :: joinLines rest
  end.

End CreateRecipePage.

Module SearchPage.
Import Js RecipeContext.

Definition isDigit (c : ascii) : bool :=
  let n := code c in ((48 <=? n) && (n <=? 57))%N.

(** The longest run of digits at the front, and what follows it. *)
Fixpoint spanDigits (x : str) : str * str :=
  match x with
  | c :: x' =>
      if isDigit c then let (ds, rest) := spanDigits x' in (c :: ds, rest)
      else ([], x)
  | [] => ([], [])
  end.

(** [x.match(/(\d+)L/)] for a letter [L]: the capture of the leftmost
    match.  At a start position the greedy digits must be followed by
    [L]; giving digits back cannot help, the next character would be a
    digit. *)
Fixpoint matchDigitsThen (letter : ascii) (x : str) : option str :=
  match x with
  | [] => None
  | c :: x' =>
      if isDigit c then
        match spanDigits x with
        | (ds, d :: _) =>
            if Ascii.eqb d letter then Some ds
            else matchDigitsThen letter x'
        | (_, []) => matchDigitsThen letter x'
        end
      else matchDigitsThen letter x'
  end.

(** [parseInt(ds)] on a string of digits. *)
Definition parseDigits (ds : str) : Z :=
  fold_left (fun acc c => (acc * 10 + Z.of_N (code c - 48))%Z) ds 0%Z.

(** The minutes the time filter reads off [TotalTime]. *)
Definition totalMinutes (totalTime : str) : Z :=
  let hours :=
    match matchDigitsThen "H"%char totalTime with
    | Some ds => (parseDigits ds * 60)%Z
    | None => 0%Z
    end in
  let minutes :=
    match matchDigitsThen "M"%char totalTime with
    | Some ds => parseDigits ds
    | None => 0%Z
    end in
  (hours + minutes)%Z.

(** [selectedTimes.includes(label)] *)
Definition selected (selectedTimes : list str) (label : str) : bool :=
  existsb (strEq label) selectedTimes.

(** The callback of the cooking-time [filter]. *)
Definition passesTime (selectedTimes : list str) (recipe : Recipe) : bool :=
  let total := totalMinutes (TotalTime recipe) in
  if selected selectedTimes (lit "quick") && (total <? 30)%Z then true
  else if selected selectedTimes (lit "medium") &&
          (30 <=? total)%Z && (total <=? 60)%Z then true
  else if selected selectedTimes (lit "long") && (60 <? total)%Z then true
  else false.

(** The cooking-time step of the query function. *)
Definition filterByTime (selectedTimes : list str) (results : list Recipe)
  : list Recipe :=
  if 0 <? length selectedTimes
  then filter (passesTime selectedTimes) results
  else results.

End SearchPage.

(* ================================================================== *)
(** ** Reference notions used to state and prove the properties *)
(* ================================================================== *)

Module EditScripts.

(** Cost of aligning two characters. *)
Definition subst_cost (x y : ascii) : nat :=
  if Ascii.eqb x y then 0 else 1.

(** [script a b n]: some sequence of single-character deletions,
    insertions and substitutions of total cost [n] turns [a] into [b]. *)
Inductive script : str -> str -> nat -> Prop :=
| script_nil : script [] [] 0
| script_del x a b n : script a b n -> script (x :: a) b (S n)
| script_ins y a b n : script a b n -> script a (y :: b) (S n)
| script_sub x y a b n :
    script a b n -> script (x :: a) (y :: b) (n + subst_cost x y).

(** The textbook recurrence, by recursion on both strings. *)
Fixpoint lev (a : str) : str -> nat :=
  match a with
  | [] => fun b => length b
  | x :: a' =>
      fix lev_a (b : str) : nat :=
        match b with
        | [] => S (length a')
        | y :: b' =>
            Nat.min (Nat.min (lev a' b + 1) (lev_a b' + 1))
                    (lev a' b' + subst_cost x y)
        end
  end.

(** Row of the matrix for the prefix [q] (reversed) of [b]: the
    distances from every prefix of [a] that extends [pa] (reversed). *)
Fixpoint rowOf (pa a q : str) : list nat :=
  lev pa q ::
  match a with
  | [] => []
  | x :: a' => rowOf (x :: pa) a' q
  end.

End EditScripts.

Module Reference.
Import Js TextSimilarity.

(** [sub] occurs in [x] as a contiguous substring. *)
Definition contains (x sub : str) : Prop :=
  exists pre post, x = pre ++ sub ++ post.

(** [sub] occurs in [x] when the case of letters is ignored. *)
Definition containsIgnoringCase (x sub : str) : Prop :=
  contains (toLowerCase x) (toLowerCase sub).

(** Some word of the target and some word of the source, both of at
    least three characters, are within the threshold that [threshold]
    assigns to the target word. *)
Definition closeWordPair (threshold : str -> nat) (sourceLower targetLower : str)
  : Prop :=
  exists w v,
    In w (splitWhitespace targetLower) /\ 3 <= length w /\
    In v (splitWhitespace sourceLower) /\ 3 <= length v /\
    getLevenshteinDistance v w <= threshold w.

(** The threshold of the specification: from the length of each target
    word. *)
Definition perWordThreshold (tolerance : Q) (w : str) : nat :=
  Nat.max (floorTimes (length w) tolerance) 1.

(** The threshold of the program: from the length of the whole target,
    the same for every word. *)
Definition wholeTargetThreshold (tolerance : Q) (targetLower : str) (w : str)
  : nat :=
  Nat.max (floorTimes (length targetLower) tolerance) 1.

(** A recipe mentions [q]: its name, its description, one of its
    keywords or one of its ingredient parts contains [q], ignoring case. *)
Definition recipeMentions (q : str) (r : RecipeContext.Recipe) : Prop :=
  containsIgnoringCase (RecipeContext.Name r) q \/
  containsIgnoringCase (RecipeContext.Description r) q \/
  Exists (fun k => containsIgnoringCase k q) (RecipeContext.Keywords r) \/
  Exists (fun i => containsIgnoringCase i q)
         (RecipeContext.RecipeIngredientParts r).

(** [result] is exactly the recipes of [collection] that satisfy [P], in
    collection order. *)
Definition exactlyThoseIn (P : RecipeContext.Recipe -> Prop)
  (collection result : list RecipeContext.Recipe) : Prop :=
  exists f : RecipeContext.Recipe -> bool,
    result = filter f collection /\ forall r, f r = true <-> P r.

Definition whitespaceOnly (q : str) : Prop :=
  Forall (fun c => isWhitespace c = true) q.

(** A recipe with the given id and name and nothing else, for examples. *)
Definition plainRecipe (id : Z) (name : str) : RecipeContext.Recipe :=
  RecipeContext.mkRecipe id name [] [] [] [] [] [] [] [] [] [] [] []
    0%Q 0 0 0 0 0 0 0 0 0 0 0 [] [].

(** A safe integer ([Number.isSafeInteger]): below 2^53 in magnitude. *)
Definition safeInteger (z : Z) : Prop := (- twoTo53 < z < twoTo53)%Z.

(** Every recipe of the collection has a safe integer as its id. *)
Definition safeIds (rs : list RecipeContext.Recipe) : Prop :=
  Forall (fun r => safeInteger (RecipeContext.RecipeId r)) rs.

(** [max(ids, 0)]: the greatest among the ids and 0. *)
Definition maxWithZero (ids : list Z) : Z := fold_right Z.max 0%Z ids.

(** [m] is the greatest element of [ids]. *)
Definition greatestOf (ids : list Z) (m : Z) : Prop :=
  In m ids /\ Forall (fun x => (x <= m)%Z) ids.

(** Ratings of the stored reviews of recipe [id], in ledger order. *)
Fixpoint ratingsOf (id : Z) (rvs : list Review.t) : list Z :=
  match rvs with
  | [] => []
  | r :: rest =>
      if Z.eq_dec (Review.RecipeId r) id
      then Review.Rating r :: ratingsOf id rest
      else ratingsOf id rest
  end.

Definition total (xs : list Z) : Z := fold_right Z.add 0%Z xs.

(** Arithmetic mean, as an exact rational. *)
Definition mean (xs : list Z) : Q :=
  (inject_Z (total xs) / inject_Z (Z.of_nat (length xs)))%Q.

(** The aggregates of [now] agree with the ledger [rvs]; [before] is the
    same recipe as ingested, before any recomputation. *)
Definition aggregatesAgree (rvs : list Review.t)
  (before now : RecipeContext.Recipe) : Prop :=
  let ratings := ratingsOf (RecipeContext.RecipeId before) rvs in
  RecipeContext.RecipeId now = RecipeContext.RecipeId before /\
  RecipeContext.ReviewCount now = Z.of_nat (length ratings) /\
  RecipeContext.AggregatedRating now =
    match ratings with
    | [] => RecipeContext.AggregatedRating before
    | _ :: _ => mean ratings
    end.

Definition str_eq_dec : forall x y : str, {x = y} + {x <> y} :=
  list_eq_dec ascii_dec.

(** The bookmark belongs to user [u] and recipe [r]. *)
Definition isFor (u : str) (r : Z) (b : Bookmark.t) : bool :=
  if str_eq_dec (Bookmark.userId b) u
  then if Z.eq_dec (Bookmark.recipeId b) r then true else false
  else false.

(** The bookmarks of the pair [(u, r)], in store order. *)
Definition bookmarksOf (u : str) (r : Z) (bs : list Bookmark.t)
  : list Bookmark.t :=
  filter (isFor u r) bs.

Definition atMostOne (u : str) (r : Z) (bs : list Bookmark.t) : Prop :=
  length (bookmarksOf u r bs) <= 1.

(** Two records are the same bookmark: id, owner, recipe and creation
    time agree. *)
Definition sameIdentity (b b' : Bookmark.t) : Prop :=
  Bookmark.id b' = Bookmark.id b /\
  Bookmark.userId b' = Bookmark.userId b /\
  Bookmark.recipeId b' = Bookmark.recipeId b /\
  Bookmark.createdAt b' = Bookmark.createdAt b.

(** [b] with its folder and rating overwritten and nothing else. *)
Definition moved (b : Bookmark.t) (folderId : str) (rating : Z) : Bookmark.t :=
  Bookmark.mk (Bookmark.id b) (Bookmark.recipeId b) (Bookmark.userId b)
              folderId rating (Bookmark.createdAt b).

(** The callback of the [map] in [updateBookmark]. *)
Definition patched (bookmarkId : str) (data : Bookmark.patch)
  (b : Bookmark.t) : Bookmark.t :=
  if strEq (Bookmark.id b) bookmarkId then Bookmark.merge b data else b.

(** What the specification promises right after [deleteFolder(f)], as
    seen by [user]. *)
Definition folderGone (user : option User.t) (f : str)
  (st : FolderContext.State) : Prop :=
  Forall (fun folder => Folder.id folder <> f) (FolderContext.folders st) /\
  FolderContext.getBookmarksByFolder user f st = [] /\
  Forall (fun b => Bookmark.folderId b <> f) (FolderContext.bookmarks st).

(** Sample users, folders and bookmarks for the examples. *)
Definition alice : User.t :=
  User.mk (lit "u1") (lit "alice") (lit "alice@example.org") (lit "Alice")
          None None.

Definition bob : User.t :=
  User.mk (lit "u2") (lit "bob") (lit "bob@example.org") (lit "Bob")
          None None.

Definition aliceFolder : Folder.t :=
  Folder.mk (lit "folder_1") (lit "Favorites") (lit "u1") (lit "#ff9f7f")
            (lit "heart") (lit "2024-01-01T00:00:00.000Z").

Definition aliceBookmark : Bookmark.t :=
  Bookmark.mk (lit "bookmark_2") 5 (lit "u1") (lit "folder_1") 4
              (lit "2024-01-02T00:00:00.000Z").

Definition aliceStore : FolderContext.State :=
  FolderContext.mkState [aliceFolder] [aliceBookmark].

End Reference.

Module Notions.
Import Js TextSimilarity.

(** [l1] is [l2] with some elements left out: same elements, same
    order, nothing new. *)
Inductive inOrder {A : Type} : list A -> list A -> Prop :=
| inOrder_nil : inOrder [] []
| inOrder_keep x l1 l2 : inOrder l1 l2 -> inOrder (x :: l1) (x :: l2)
| inOrder_skip x l1 l2 : inOrder l1 l2 -> inOrder l1 (x :: l2).

(** Every whitespace-delimited word of [x] has fewer than 3 characters. *)
Definition onlyShortWords (x : str) : Prop :=
  Forall (fun w => length w < 3) (splitWhitespace x).

(** Some field of the recipe fuzzy-matches [q]. *)
Definition recipeFuzzyMentions (q : str) (r : RecipeContext.Recipe) : Prop :=
  isFuzzyMatch (RecipeContext.Name r) q defaultTolerance = true \/
  isFuzzyMatch (RecipeContext.Description r) q defaultTolerance = true \/
  Exists (fun i => isFuzzyMatch i q defaultTolerance = true)
         (RecipeContext.RecipeIngredientParts r) \/
  Exists (fun k => isFuzzyMatch k q defaultTolerance = true)
         (RecipeContext.Keywords r).

(** The recipe is filed under [category]: its RecipeCategory or one of
    its keywords contains [category], ignoring case. *)
Definition filedUnder (category : str) (r : RecipeContext.Recipe) : Prop :=
  Reference.containsIgnoringCase (RecipeContext.RecipeCategory r) category \/
  Exists (fun k => Reference.containsIgnoringCase k category)
         (RecipeContext.Keywords r).

(** [top] is a best slice of [all] for the order [R] ("at least as good
    as"): it is sorted, and together with some [rest], none of which
    beats any element of [top], it makes up [all]. *)
Definition bestSlice {A : Type} (R : A -> A -> Prop) (all top : list A)
  : Prop :=
  StronglySorted R top /\
  exists rest,
    Permutation (top ++ rest) all /\
    Forall (fun y => Forall (fun x => R x y) top) rest.

Definition ratingAtLeast (a b : RecipeContext.Recipe) : Prop :=
  (RecipeContext.AggregatedRating b <= RecipeContext.AggregatedRating a)%Q.

Definition reviewCountAtLeast (a b : RecipeContext.Recipe) : Prop :=
  (RecipeContext.ReviewCount b <= RecipeContext.ReviewCount a)%Z.

Definition rated (r : RecipeContext.Recipe) : Prop :=
  (0 < RecipeContext.AggregatedRating r)%Q.

(** [a] is at least as close to [queryLower] as [b]. *)
Definition closerTo (queryLower : str) (a b : str) : Prop :=
  getLevenshteinDistance a queryLower <= getLevenshteinDistance b queryLower.

(** A stored line of text: not empty, nothing to trim, and free of the
    separator it was split at. *)
Definition cleanPiece (sep : ascii) (x : str) : Prop :=
  x <> [] /\ trim x = x /\ ~ In sep x.

(** [now] is [before] except possibly for its two aggregate fields. *)
Definition sameButAggregates (before now : RecipeContext.Recipe) : Prop :=
  now = RecipeContext.withAggregate before
          (RecipeContext.AggregatedRating now) (RecipeContext.ReviewCount now).

(** A character [sanitizeText] lets through: a letter, digit or
    underscore, a plain space, a comma, a full stop or a hyphen. *)
Definition plainChar (c : ascii) : Prop :=
  Ingestion.isWordChar c = true \/
  c = " "%char \/ c = ","%char \/ c = "."%char \/ c = "-"%char.

(** No two whitespace characters in a row. *)
Fixpoint singleSpaced (x : str) : Prop :=
  match x with
  | c :: ((d :: _) as x') =>
      ~ (isWhitespace c = true /\ isWhitespace d = true) /\ singleSpaced x'
  | _ => True
  end.

(** The folder [createFolder] makes. *)
Definition createdFolder (u : User.t) (now : Z) (isoNow name : str)
  (color icon : option str) : Folder.t :=
  Folder.mk (lit "folder_" ++ showZ now) name (User.id u)
            (Bookmark.orElse color (lit "#ff9f7f"))
            (Bookmark.orElse icon (lit "bookmark")) isoNow.

(** The store has no folder and no bookmark with id [x], and no
    bookmark filed in a folder [x]. *)
Definition unknownId (x : str) (st : FolderContext.State) : Prop :=
  Forall (fun folder => Folder.id folder <> x) (FolderContext.folders st) /\
  Forall (fun b => Bookmark.id b <> x /\ Bookmark.folderId b <> x)
         (FolderContext.bookmarks st).

(** [r] resembles the recipe that [b] bookmarks: that recipe is in the
    collection and has the same category or, if [byKeyword] is set, a
    keyword in common. *)
Definition resembles (byKeyword : bool) (rs : list RecipeContext.Recipe)
  (r : RecipeContext.Recipe) (b : Bookmark.t) : Prop :=
  exists r0,
    In r0 rs /\ RecipeContext.RecipeId r0 = Bookmark.recipeId b /\
    (RecipeContext.RecipeCategory r = RecipeContext.RecipeCategory r0 \/
     (byKeyword = true /\
      exists kw, In kw (RecipeContext.Keywords r) /\
                 In kw (RecipeContext.Keywords r0))).

(** The characters of a decimal numeral. *)
Definition digitsOf (d : Decimal.uint) : str :=
  list_ascii_of_string (NilEmpty.string_of_uint d).

End Notions.

(* ================================================================== *)
(** * Properties *)
(* ================================================================== *)

Import Js TextSimilarity RecipeContext FolderContext.

Example lev_kitten : getLevenshteinDistance (lit "kitten") (lit "sitting") = 3.
Proof. reflexivity. Qed.

Example split_ex : splitWhitespace (lit " a  bc ") = [[]; lit "a"; lit "bc"; []].
Proof. reflexivity. Qed.

Example fuzzy_ex : isFuzzyMatch (lit "chocolate cake") (lit "choclate") defaultTolerance = true.
Proof. vm_compute. reflexivity. Qed.

Example fuzzy_ex2 : isFuzzyMatch (lit "amble") (lit "apple banana") defaultTolerance = true.
Proof. vm_compute. reflexivity. Qed.

(* ------------------------------------------------------------------ *)
(** ** Edit distance *)
(* ------------------------------------------------------------------ *)

Section Levenshtein.
Import EditScripts.

Lemma subst_cost_refl x : subst_cost x x = 0.
Proof. unfold subst_cost. now rewrite Ascii.eqb_refl. Qed.

Lemma subst_cost_sym x y : subst_cost x y = subst_cost y x.
Proof. unfold subst_cost. now rewrite Ascii.eqb_sym. Qed.

Lemma subst_cost_triangle x y z :
  subst_cost x z <= subst_cost x y + subst_cost y z.
Proof.
  unfold subst_cost.
  destruct (Ascii.eqb_spec x y), (Ascii.eqb_spec y z), (Ascii.eqb_spec x z);
    subst; try lia; congruence.
Qed.

Lemma lev_nil_r a : lev a [] = length a.
Proof. destruct a; reflexivity. Qed.

Lemma lev_cons x a y b :
  lev (x :: a) (y :: b) =
  Nat.min (Nat.min (lev a (y :: b) + 1) (lev (x :: a) b + 1))
          (lev a b + subst_cost x y).
Proof. reflexivity. Qed.

Lemma script_nil_l b : script [] b (length b).
Proof. induction b; simpl; constructor; assumption. Qed.

Lemma script_nil_r a : script a [] (length a).
Proof. induction a; simpl; constructor; assumption. Qed.

(** The recurrence is realised by a script ... *)
Lemma lev_script a : forall b, script a b (lev a b).
Proof.
  induction a as [|x a IHa]; intro b.
  - apply script_nil_l.
  - induction b as [|y b IHb].
    + rewrite lev_nil_r. apply script_nil_r.
    + rewrite lev_cons.
      destruct (Nat.min_spec (lev a (y :: b) + 1) (lev (x :: a) b + 1))
        as [[_ E1]|[_ E1]];
      destruct (Nat.min_spec (Nat.min (lev a (y :: b) + 1) (lev (x :: a) b + 1))
                             (lev a b + subst_cost x y))
        as [[_ E2]|[_ E2]]; rewrite E2; try rewrite E1;
      try (apply script_sub; apply IHa).
      * rewrite Nat.add_1_r. apply script_del, IHa.
      * rewrite Nat.add_1_r. apply script_ins, IHb.
Qed.

(** ... and no script is cheaper. *)
Lemma script_lev a b n : script a b n -> lev a b <= n.
Proof.
  induction 1 as [|x a b n _ IH|y a b n _ IH|x y a b n _ IH].
  - reflexivity.
  - destruct b as [|y b].
    + rewrite lev_nil_r in *. simpl. lia.
    + rewrite lev_cons. lia.
  - destruct a as [|x a].
    + simpl in *. lia.
    + rewrite lev_cons. lia.
  - rewrite lev_cons. lia.
Qed.

Lemma script_sym a b n : script a b n -> script b a n.
Proof.
  induction 1; try (constructor; assumption).
  rewrite subst_cost_sym. constructor. assumption.
Qed.

Lemma script_refl a : script a a 0.
Proof.
  induction a as [|x a IH]; [constructor|].
  replace 0 with (0 + subst_cost x x) by (rewrite subst_cost_refl; lia).
  constructor. assumption.
Qed.

(** Scripts compose, at no more than the sum of their costs. *)
Lemma script_trans a c n :
  script a c n ->
  forall b m, script c b m -> exists k, k <= n + m /\ script a b k.
Proof.
  induction 1 as [|x a c n _ IH|y a c n _ IH|x y a c n _ IH]; intros b m Hcb.
  - exists m. split; [lia|assumption].
  - destruct (IH _ _ Hcb) as (k & Hk & Hs).
    exists (S k). split; [lia|]. apply script_del. assumption.
  - remember (y :: c) as yc eqn:Eyc.
    induction Hcb as [|y' c' b m Hcb _|z c' b m Hcb IHcb|y' z c' b m Hcb _].
    + discriminate.
    + injection Eyc as -> ->.
      destruct (IH _ _ Hcb) as (k & Hk & Hs).
      exists k. split; [lia|assumption].
    + destruct (IHcb Eyc) as (k & Hk & Hs).
      exists (S k). split; [lia|]. apply script_ins. assumption.
    + injection Eyc as -> ->.
      destruct (IH _ _ Hcb) as (k & Hk & Hs).
      exists (S k). split; [lia|]. apply script_ins. assumption.
  - remember (y :: c) as yc eqn:Eyc.
    induction Hcb as [|y' c' b m Hcb _|z c' b m Hcb IHcb|y' z c' b m Hcb _].
    + discriminate.
    + injection Eyc as -> ->.
      destruct (IH _ _ Hcb) as (k & Hk & Hs).
      exists (S k). split; [lia|]. apply script_del. assumption.
    + destruct (IHcb Eyc) as (k & Hk & Hs).
      exists (S k). split; [lia|]. apply script_ins. assumption.
    + injection Eyc as -> ->.
      destruct (IH _ _ Hcb) as (k & Hk & Hs).
      exists (k + subst_cost x z). split.
      * pose proof (subst_cost_triangle x y z). lia.
      * apply script_sub. assumption.
Qed.

Lemma lev_sym a b : lev a b = lev b a.
Proof.
  apply Nat.le_antisymm; apply script_lev, script_sym, lev_script.
Qed.

Lemma lev_refl a : lev a a = 0.
Proof. pose proof (script_lev (script_refl a)). lia. Qed.

Lemma lev_triangle a b c : lev a b <= lev a c + lev c b.
Proof.
  destruct (script_trans (lev_script a c) (lev_script c b)) as (k & Hk & Hs).
  apply script_lev in Hs. lia.
Qed.

(** *** The matrix computes the recurrence *)

Lemma rowOf_cons pa a q : exists tl, rowOf pa a q = lev pa q :: tl.
Proof. destruct a; simpl; eauto. Qed.

Lemma fillRow_rowOf a : forall pa q bj,
  fillRow a bj (rowOf pa a q) (lev pa (bj :: q)) = tl (rowOf pa a (bj :: q)).
Proof.
  induction a as [|x a IH]; intros pa q bj.
  - reflexivity.
  - cbn [rowOf tl].
    destruct (rowOf_cons (x :: pa) a q) as (t1 & E1).
    destruct (rowOf_cons (x :: pa) a (bj :: q)) as (t2 & E2).
    specialize (IH (x :: pa) q bj).
    rewrite E2 in IH |- *. cbn [tl] in IH.
    cbn [fillRow]. rewrite E1. rewrite <- E1.
    fold (subst_cost x bj). rewrite <- lev_cons.
    f_equal. exact IH.
Qed.

Lemma firstRow_rowOf a : firstRow a = rowOf [] a [].
Proof.
  unfold firstRow.
  enough (H : forall pa, seq (length pa) (S (length a)) = rowOf pa a [])
    by apply (H []).
  induction a as [|x a IH]; intro pa.
  - simpl. now rewrite lev_nil_r.
  - cbn [rowOf]. rewrite <- IH. simpl. now rewrite lev_nil_r.
Qed.

Lemma nextRow_rowOf a bj q :
  nextRow a bj (S (length q)) (rowOf [] a q) = rowOf [] a (bj :: q).
Proof.
  unfold nextRow.
  change (S (length q)) with (lev [] (bj :: q)).
  rewrite fillRow_rowOf.
  destruct (rowOf_cons [] a (bj :: q)) as (t & E). now rewrite E.
Qed.

Lemma fillRows_last a : forall b q,
  nth (length b)
      (rowOf [] a q :: fillRows a b (S (length q)) (rowOf [] a q)) [] =
  rowOf [] a (rev b ++ q).
Proof.
  induction b as [|bj b IH]; intro q.
  - reflexivity.
  - cbn [fillRows length].
    match goal with
    | |- nth (S ?n) (_ :: ?l) ?d = _ => change (nth n l d = rowOf [] a (rev (bj :: b) ++ q))
    end.
    rewrite nextRow_rowOf.
    change (S (length q)) with (length (bj :: q)).
    rewrite IH. simpl. now rewrite <- app_assoc.
Qed.

Lemma rowOf_last a : forall pa q,
  nth (length a) (rowOf pa a q) 0 = lev (rev a ++ pa) q.
Proof.
  induction a as [|x a IH]; intros pa q.
  - reflexivity.
  - cbn [rowOf length].
    match goal with
    | |- nth (S ?n) (_ :: ?l) ?d = ?r => change (nth n l d = r)
    end.
    rewrite IH. simpl. now rewrite <- app_assoc.
Qed.

(** The value read off the matrix is the edit distance of the two
    strings (read from their ends, which is how the prefixes grow). *)
Lemma getLevenshteinDistance_lev a b :
  getLevenshteinDistance a b = lev (rev a) (rev b).
Proof.
  unfold getLevenshteinDistance, matrix.
  rewrite firstRow_rowOf.
  change 1 with (S (@length ascii [])).
  rewrite fillRows_last, rowOf_last. now rewrite !app_nil_r.
Qed.

End Levenshtein.

(** C9. [editDistance] is a metric on strings: it is symmetric, it is 0
    between a string and itself, and it satisfies the triangle
    inequality. *)
Theorem C9_editDistance_metric : forall a b c : str,
  getLevenshteinDistance a b = getLevenshteinDistance b a /\
  getLevenshteinDistance a a = 0 /\
  getLevenshteinDistance a b <=
    getLevenshteinDistance a c + getLevenshteinDistance c b.
Proof.
  intros a b c. rewrite !getLevenshteinDistance_lev.
  split; [apply lev_sym|].
  split; [apply lev_refl|apply lev_triangle].
Qed.

(* ------------------------------------------------------------------ *)
(** ** Substrings *)
(* ------------------------------------------------------------------ *)

Section Substrings.
Import Reference.

Lemma startsWith_spec x : forall p,
  startsWith x p = true <-> exists post, x = p ++ post.
Proof.
  induction x as [|d x IH]; intros [|c p]; simpl.
  - split; [exists []; reflexivity|reflexivity].
  - split; [discriminate|intros (post & H); discriminate].
  - split; [exists (d :: x); reflexivity|reflexivity].
  - rewrite andb_true_iff, Ascii.eqb_eq, IH. split.
    + intros (-> & post & ->). exists post. reflexivity.
    + intros (post & H). injection H as -> ->. split; eauto.
Qed.

Lemma includes_spec x sub : includes x sub = true <-> contains x sub.
Proof.
  unfold contains. induction x as [|d x IH]; cbn [includes].
  - rewrite orb_false_r, startsWith_spec. split.
    + intros (post & H). exists [], post. exact H.
    + intros (pre & post & H). destruct pre; [eauto|discriminate].
  - rewrite orb_true_iff, startsWith_spec, IH. split.
    + intros [(post & H)|(pre & post & H)].
      * exists [], post. exact H.
      * exists (d :: pre), post. simpl. now rewrite H.
    + intros ([|e pre] & post & H).
      * left. exists post. exact H.
      * right. injection H as -> ->. eauto.
Qed.

Lemma includes_false x sub : includes x sub = false <-> ~ contains x sub.
Proof.
  rewrite <- includes_spec. destruct (includes x sub); split; congruence.
Qed.

Lemma contains_nil x : contains x [].
Proof. exists [], x. reflexivity. Qed.

End Substrings.

(* ------------------------------------------------------------------ *)
(** ** Fuzzy match *)
(* ------------------------------------------------------------------ *)

Section FuzzyMatch.
Import Reference.

Lemma sourceWordMatches_spec word maxDistance v :
  sourceWordMatches word maxDistance v = true <->
  3 <= length v /\ getLevenshteinDistance v word <= maxDistance.
Proof.
  unfold sourceWordMatches.
  destruct (Nat.ltb_spec (length v) 3).
  - split; [discriminate|lia].
  - rewrite Nat.leb_le. split; [auto|tauto].
Qed.

Lemma fuzzyLoop_spec sourceLower maxDistance words :
  fuzzyLoop sourceLower maxDistance words = true <->
  exists w v,
    In w words /\ 3 <= length w /\
    In v (splitWhitespace sourceLower) /\ 3 <= length v /\
    getLevenshteinDistance v w <= maxDistance.
Proof.
  induction words as [|word rest IH]; cbn [fuzzyLoop].
  - split; [discriminate|intros (w & v & [] & _)].
  - destruct (Nat.ltb_spec (length word) 3) as [Hshort|Hlong].
    + rewrite IH. split.
      * intros (w & v & Hw & H). exists w, v. split; [now right|exact H].
      * intros (w & v & [<-|Hw] & Hl & H); [lia|].
        exists w, v. tauto.
    + destruct (existsb _ _) eqn:E.
      * split; [intros _|reflexivity].
        apply existsb_exists in E. destruct E as (v & Hv & Hm).
        apply sourceWordMatches_spec in Hm.
        exists word, v. split; [now left|tauto].
      * rewrite IH. split.
        -- intros (w & v & Hw & H). exists w, v. split; [now right|exact H].
        -- intros (w & v & [<-|Hw] & Hl & Hv & Hlv & Hd).
           ++ exfalso.
              assert (Hex : existsb (sourceWordMatches word maxDistance)
                                    (splitWhitespace sourceLower) = true).
              { apply existsb_exists. exists v. split; [exact Hv|].
                apply sourceWordMatches_spec. tauto. }
              congruence.
           ++ exists w, v. tauto.
Qed.

Lemma isFuzzyMatch_words source target tolerance :
  ~ contains (toLowerCase source) (toLowerCase target) ->
  ~ contains (toLowerCase target) (toLowerCase source) ->
  isFuzzyMatch source target tolerance =
  fuzzyLoop (toLowerCase source)
            (Nat.max (floorTimes (length (toLowerCase target)) tolerance) 1)
            (splitWhitespace (toLowerCase target)).
Proof.
  intros Hst Hts. unfold isFuzzyMatch.
  destruct source as [|c source].
  { exfalso. apply Hts. apply contains_nil. }
  destruct target as [|d target].
  { exfalso. apply Hst. apply contains_nil. }
  cbn [falsy orb].
  apply includes_false in Hst, Hts. now rewrite Hst, Hts.
Qed.

End FuzzyMatch.

(** C2 (as stated, refuted).  With the default tolerance, source
    ["amble"] and target ["apple banana"]: neither contains the other,
    [isFuzzyMatch] answers true, yet no pair of words is within the
    threshold taken from the target word's own length. *)
Lemma C2_per_word_threshold_fails :
  ~ Reference.contains (toLowerCase (lit "amble"))
                       (toLowerCase (lit "apple banana")) /\
  ~ Reference.contains (toLowerCase (lit "apple banana"))
                       (toLowerCase (lit "amble")) /\
  ~ (isFuzzyMatch (lit "amble") (lit "apple banana") defaultTolerance = true <->
     Reference.closeWordPair (Reference.perWordThreshold defaultTolerance)
       (toLowerCase (lit "amble")) (toLowerCase (lit "apple banana"))).
Proof.
  split; [apply includes_false; vm_compute; reflexivity|].
  split; [apply includes_false; vm_compute; reflexivity|].
  intros [H _].
  assert (E : isFuzzyMatch (lit "amble") (lit "apple banana") defaultTolerance
              = true) by (vm_compute; reflexivity).
  destruct (H E) as (w & v & Hw & _ & Hv & _ & Hd).
  change (In w [lit "apple"; lit "banana"]) in Hw.
  change (In v [lit "amble"]) in Hv.
  destruct Hv as [<-|[]].
  destruct Hw as [<-|[<-|[]]]; vm_compute in Hd; lia.
Qed.

(** C2 (amended).  In [fuzzyMatch(source, target, tolerance)], when
    after case-folding neither string contains the other, the result is
    true iff a word [w] of the target and a word [v] of the source, both
    of length at least 3, have edit distance at most
    [max(floor(len(target) * tolerance), 1)]: the threshold comes from
    the length of the whole case-folded target, one value for all its
    words. *)
Theorem C2_fuzzyMatch_whole_target_threshold :
  forall (source target : str) (tolerance : Q),
    ~ Reference.contains (toLowerCase source) (toLowerCase target) ->
    ~ Reference.contains (toLowerCase target) (toLowerCase source) ->
    (isFuzzyMatch source target tolerance = true <->
     Reference.closeWordPair
       (Reference.wholeTargetThreshold tolerance (toLowerCase target))
       (toLowerCase source) (toLowerCase target)).
Proof.
  intros source target tolerance Hst Hts.
  rewrite isFuzzyMatch_words by assumption.
  apply fuzzyLoop_spec.
Qed.

Lemma C2_fuzzyMatch_witness :
  isFuzzyMatch (lit "amble") (lit "apple banana") defaultTolerance = true <->
  Reference.closeWordPair
    (Reference.wholeTargetThreshold defaultTolerance
       (toLowerCase (lit "apple banana")))
    (toLowerCase (lit "amble")) (toLowerCase (lit "apple banana")).
Proof.
  apply C2_fuzzyMatch_whole_target_threshold;
    apply includes_false; vm_compute; reflexivity.
Defined.

(* ------------------------------------------------------------------ *)
(** ** Search *)
(* ------------------------------------------------------------------ *)

Section Search.
Import Reference.

Lemma isWhitespace_toLowerChar c :
  isWhitespace (toLowerChar c) = isWhitespace c.
Proof.
  destruct c as [[] [] [] [] [] [] [] []]; reflexivity.
Qed.

Lemma trimStart_toLowerCase x :
  trimStart (toLowerCase x) = toLowerCase (trimStart x).
Proof.
  induction x as [|c x IH]; [reflexivity|].
  simpl. rewrite isWhitespace_toLowerChar.
  destruct (isWhitespace c); [exact IH|reflexivity].
Qed.

Lemma rev_toLowerCase x : rev (toLowerCase x) = toLowerCase (rev x).
Proof. unfold toLowerCase. symmetry. apply map_rev. Qed.

Lemma trim_toLowerCase x : trim (toLowerCase x) = toLowerCase (trim x).
Proof.
  unfold trim, trimEnd.
  now rewrite trimStart_toLowerCase, rev_toLowerCase, trimStart_toLowerCase,
    rev_toLowerCase.
Qed.

Lemma trimStart_whitespaceOnly q : whitespaceOnly q -> trimStart q = [].
Proof.
  induction 1 as [|c q Hc _ IH]; [reflexivity|].
  simpl. now rewrite Hc.
Qed.

Lemma existsb_includes ql fields :
  existsb (fun k => includes (toLowerCase k) ql) fields = true <->
  Exists (fun k => contains (toLowerCase k) ql) fields.
Proof.
  rewrite existsb_exists, Exists_exists.
  split; intros (k & Hk & H); exists k; (split; [exact Hk|]);
    now apply includes_spec.
Qed.

Lemma exactMatch_spec q r :
  RecipeContext.exactMatch (toLowerCase q) r = true <-> recipeMentions q r.
Proof.
  unfold RecipeContext.exactMatch, recipeMentions, containsIgnoringCase.
  cbv zeta.
  rewrite !orb_true_iff, !includes_spec, !existsb_includes. tauto.
Qed.

Lemma filter_nonempty {A} (f : A -> bool) l x :
  In x l -> f x = true -> 0 < length (filter f l).
Proof.
  intros Hin Hf.
  assert (H : In x (filter f l)) by (apply filter_In; auto).
  destruct (filter f l); [destruct H|simpl; lia].
Qed.

Lemma search_exact_pass q rs :
  trim q <> [] ->
  Exists (recipeMentions (trim q)) rs ->
  searchRecipesWithFuzzy q rs =
  filter (RecipeContext.exactMatch (toLowerCase (trim q))) rs.
Proof.
  intros Hne Hex. unfold searchRecipesWithFuzzy. cbv zeta.
  rewrite trim_toLowerCase.
  destruct (trim q) as [|c q'] eqn:Eq; [congruence|].
  cbn [toLowerCase map falsy].
  apply Exists_exists in Hex. destruct Hex as (r & Hin & Hm).
  apply exactMatch_spec in Hm.
  pose proof (filter_nonempty _ _ _ Hin Hm) as Hlen.
  apply Nat.ltb_lt in Hlen.
  cbn [toLowerCase map] in Hlen. now rewrite Hlen.
Qed.

End Search.

(** C3 (as stated, refuted).  Query [" cake"] is non-empty after
    trimming and the recipe named ["a cake"] contains it literally, but
    [search] looks for the trimmed ["cake"] and also returns the recipe
    named ["cake"], which does not contain [" cake"]. *)
Lemma C3_untrimmed_query_fails :
  trim (lit " cake") <> [] /\
  Exists (Reference.recipeMentions (lit " cake"))
    [Reference.plainRecipe 1 (lit "a cake");
     Reference.plainRecipe 2 (lit "cake")] /\
  ~ Reference.exactlyThoseIn (Reference.recipeMentions (lit " cake"))
      [Reference.plainRecipe 1 (lit "a cake");
       Reference.plainRecipe 2 (lit "cake")]
      (searchRecipesWithFuzzy (lit " cake")
         [Reference.plainRecipe 1 (lit "a cake");
          Reference.plainRecipe 2 (lit "cake")]).
Proof.
  split; [vm_compute; discriminate|].
  split.
  - apply Exists_cons_hd. apply exactMatch_spec. vm_compute. reflexivity.
  - intros (f & Hres & Hf).
    assert (Hin : In (Reference.plainRecipe 2 (lit "cake"))
                     (searchRecipesWithFuzzy (lit " cake")
                        [Reference.plainRecipe 1 (lit "a cake");
                         Reference.plainRecipe 2 (lit "cake")])).
    { vm_compute. right. left. reflexivity. }
    rewrite Hres in Hin. apply filter_In in Hin. destruct Hin as [_ Hin].
    apply Hf in Hin. apply exactMatch_spec in Hin.
    vm_compute in Hin. discriminate.
Qed.

(** C3 (amended).  For every query [q] that is non-empty after trimming
    and every recipe collection: if at least one recipe's Name,
    Description, any Keywords entry or any RecipeIngredientParts entry
    contains the trimmed [q] as a case-insensitive substring, then
    [search q] returns exactly the recipes with such a match, in
    collection order; in particular every returned recipe has such a
    match, none is there by the fuzzy pass alone. *)
Theorem C3_search_exact_pass_wins :
  forall (q : str) (collection : list Recipe),
    trim q <> [] ->
    Exists (Reference.recipeMentions (trim q)) collection ->
    Reference.exactlyThoseIn (Reference.recipeMentions (trim q)) collection
      (searchRecipesWithFuzzy q collection) /\
    Forall (Reference.recipeMentions (trim q))
      (searchRecipesWithFuzzy q collection).
Proof.
  intros q collection Hne Hex.
  rewrite search_exact_pass by assumption. split.
  - exists (RecipeContext.exactMatch (toLowerCase (trim q))).
    split; [reflexivity|]. intro r. apply exactMatch_spec.
  - apply Forall_forall. intros r Hr. apply filter_In in Hr.
    apply exactMatch_spec. tauto.
Qed.

Lemma C3_search_witness :
  Reference.exactlyThoseIn (Reference.recipeMentions (trim (lit " Cake ")))
    [Reference.plainRecipe 1 (lit "Chocolate Cake");
     Reference.plainRecipe 2 (lit "Bread")]
    (searchRecipesWithFuzzy (lit " Cake ")
       [Reference.plainRecipe 1 (lit "Chocolate Cake");
        Reference.plainRecipe 2 (lit "Bread")]) /\
  Forall (Reference.recipeMentions (trim (lit " Cake ")))
    (searchRecipesWithFuzzy (lit " Cake ")
       [Reference.plainRecipe 1 (lit "Chocolate Cake");
        Reference.plainRecipe 2 (lit "Bread")]).
Proof.
  apply C3_search_exact_pass_wins.
  - vm_compute. discriminate.
  - apply Exists_cons_hd. apply exactMatch_spec. vm_compute. reflexivity.
Defined.

(** C8.  For the empty query, and for any query made of whitespace
    only, [search] returns the first 20 recipes of the collection as
    they are, in collection order. *)
Theorem C8_search_empty_query :
  forall (q : str) (collection : list Recipe),
    Reference.whitespaceOnly q ->
    searchRecipesWithFuzzy q collection = firstn 20 collection.
Proof.
  intros q collection Hq. unfold searchRecipesWithFuzzy. cbv zeta.
  rewrite trim_toLowerCase. unfold trim.
  rewrite (trimStart_whitespaceOnly Hq). reflexivity.
Qed.

Lemma C8_search_empty_witness :
  searchRecipesWithFuzzy (lit "  ")
    [Reference.plainRecipe 1 (lit "Chocolate Cake")] =
  firstn 20 [Reference.plainRecipe 1 (lit "Chocolate Cake")].
Proof.
  apply C8_search_empty_query.
  repeat constructor.
Defined.

(* ------------------------------------------------------------------ *)
(** ** Recipe creation *)
(* ------------------------------------------------------------------ *)

Section Creation.
Import Reference.

Lemma mathMax_greatest xs : forall x, greatestOf (x :: xs) (mathMax x xs).
Proof.
  unfold mathMax, greatestOf.
  induction xs as [|y xs IH]; intro x; simpl.
  - split; [now left|]. constructor; [lia|constructor].
  - destruct (IH (Z.max x y)) as [Hin Hall]. split.
    + destruct Hin as [Hin|Hin]; [|now right; right].
      rewrite <- Hin.
      destruct (Z.max_spec x y) as [[_ E]|[_ E]]; rewrite E; auto.
    + inversion Hall as [|? ? Hm Hrest]; subst.
      constructor; [lia|]. constructor; [lia|exact Hrest].
Qed.

Lemma maxId_greatest r rs :
  greatestOf (map RecipeId (r :: rs)) (maxId (r :: rs)).
Proof. unfold maxId. simpl. apply mathMax_greatest. Qed.

Lemma maxWithZero_greatest ids m :
  greatestOf ids m -> (0 <= m)%Z -> maxWithZero ids = m.
Proof.
  unfold greatestOf, maxWithZero. intros [Hin Hall] Hm.
  induction ids as [|x ids IH]; [destruct Hin|].
  inversion Hall as [|? ? Hx Hrest]; subst. simpl.
  assert (Hb : (0 <= fold_right Z.max 0 ids <= m)%Z).
  { clear -Hrest Hm. induction Hrest; simpl; lia. }
  destruct Hin as [->|Hin]; [lia|].
  rewrite IH by assumption. lia.
Qed.

Lemma roundToDouble_exact n :
  (Z.abs n <= twoTo53)%Z -> roundToDouble n = n.
Proof.
  intro H. unfold roundToDouble. cbv zeta.
  destruct (Z.ltb_spec (Z.abs n) twoTo53) as [_|Hge]; [reflexivity|].
  assert (E : n = twoTo53 \/ n = (- twoTo53)%Z) by lia.
  destruct E as [-> | ->]; vm_compute; reflexivity.
Qed.

Lemma plusOne_safe x : safeInteger x -> plusOne x = (x + 1)%Z.
Proof.
  unfold safeInteger, plusOne. intro H. apply roundToDouble_exact. lia.
Qed.

Lemma maxId_safe rs : safeIds rs -> safeInteger (maxId rs).
Proof.
  intro H. destruct rs as [|r rs].
  - unfold safeInteger. vm_compute. split; reflexivity.
  - destruct (maxId_greatest r rs) as [Hin _].
    apply in_map_iff in Hin. destruct Hin as (r' & <- & Hr').
    unfold safeIds in H. rewrite Forall_forall in H. now apply H.
Qed.

(** With safe ids the addition in [addRecipe] is exact. *)
Lemma newId_exact rs data isoNow :
  safeIds rs -> RecipeId (newRecipe rs data isoNow) = (maxId rs + 1)%Z.
Proof.
  intro H. cbn [newRecipe RecipeId]. apply plusOne_safe. now apply maxId_safe.
Qed.

(** When the ids are safe integers and none is negative the id assigned
    is [max(ids, 0) + 1]. *)
Lemma addRecipe_nonnegative_ids data isoNow st :
  safeIds (recipes st) ->
  Forall (fun r => (0 <= RecipeId r)%Z) (recipes st) ->
  snd (addRecipe data isoNow st) =
  (maxWithZero (map RecipeId (recipes st)) + 1)%Z.
Proof.
  intros Hsafe Hpos. cbn [addRecipe snd]. rewrite newId_exact by assumption.
  destruct (recipes st) as [|r rs]; [reflexivity|].
  f_equal. symmetry. apply maxWithZero_greatest.
  - apply maxId_greatest.
  - destruct (maxId_greatest r rs) as [_ Hall].
    inversion Hall; subst. inversion Hpos; subst. lia.
Qed.

End Creation.

(** C7 (as stated, refuted).  On a collection whose only recipe has id
    -5 the id assigned is -4, not [max(-5, 0) + 1 = 1].  And on a
    collection whose only recipe has id 2^53 the sum [maxId + 1] rounds
    back to 2^53: the id assigned is the existing one, not a greater
    one. *)
Lemma C7_negative_ids_fail :
  snd (addRecipe (mkInput [] [] [] [] [] [] 0 0 0 None None None [] []) []
         (RecipeContext.mkState [Reference.plainRecipe (-5) (lit "x")] []))
  <> (Reference.maxWithZero
        (map RecipeId [Reference.plainRecipe (-5) (lit "x")]) + 1)%Z /\
  ~ Forall
      (fun r =>
         (RecipeId r <
          snd (addRecipe
                 (mkInput [] [] [] [] [] [] 0 0 0 None None None [] []) []
                 (RecipeContext.mkState
                    [Reference.plainRecipe twoTo53 (lit "x")] [])))%Z)
      [Reference.plainRecipe twoTo53 (lit "x")].
Proof.
  split.
  - vm_compute. discriminate.
  - intro H. inversion H as [|r l Hlt _]; subst.
    vm_compute in Hlt. discriminate.
Qed.

(** C7 (amended).  For every recipe collection state whose RecipeIds
    are safe integers (below 2^53 in magnitude), [create] puts the new
    recipe first and assigns it, on a non-empty collection, the greatest
    existing RecipeId plus 1 and, on an empty collection, 1; the
    assigned id is strictly greater than every pre-existing RecipeId. *)
Theorem C7_create_assigns_fresh_id :
  forall (data : RecipeInput) (isoNow : str) (st : RecipeContext.State),
    Reference.safeIds (recipes st) ->
    let st' := fst (addRecipe data isoNow st) in
    let newId := snd (addRecipe data isoNow st) in
    match recipes st with
    | [] => newId = 1%Z
    | _ :: _ =>
        Reference.greatestOf (map RecipeId (recipes st)) (newId - 1)%Z
    end /\
    Forall (fun r => (RecipeId r < newId)%Z) (recipes st) /\
    map RecipeId (recipes st') = newId :: map RecipeId (recipes st).
Proof.
  intros data isoNow st Hsafe. cbv zeta.
  cbn [addRecipe fst snd recipes map].
  rewrite newId_exact by assumption.
  split; [|split; [|reflexivity]].
  - destruct (recipes st) as [|r rs]; [reflexivity|].
    replace (maxId (r :: rs) + 1 - 1)%Z with (maxId (r :: rs)) by lia.
    apply maxId_greatest.
  - destruct (recipes st) as [|r rs]; [constructor|].
    destruct (maxId_greatest r rs) as [_ Hall].
    rewrite Forall_map in Hall.
    eapply Forall_impl; [|exact Hall]. simpl. intros; lia.
Qed.

Lemma C7_create_witness :
  match recipes (RecipeContext.mkState
                   [Reference.plainRecipe 7 (lit "Bread")] []) with
  | [] =>
      snd (addRecipe (mkInput (lit "Soup") [] [] [] [] [] 5 10 2 None None
                              None [] [])
             (lit "t")
             (RecipeContext.mkState
                [Reference.plainRecipe 7 (lit "Bread")] [])) = 1%Z
  | _ :: _ =>
      Reference.greatestOf
        (map RecipeId
           (recipes (RecipeContext.mkState
                       [Reference.plainRecipe 7 (lit "Bread")] [])))
        (snd (addRecipe (mkInput (lit "Soup") [] [] [] [] [] 5 10 2 None
                                 None None [] [])
                (lit "t")
                (RecipeContext.mkState
                   [Reference.plainRecipe 7 (lit "Bread")] [])) - 1)%Z
  end /\
  Forall (fun r =>
            (RecipeId r <
             snd (addRecipe (mkInput (lit "Soup") [] [] [] [] [] 5 10 2 None
                                     None None [] [])
                    (lit "t")
                    (RecipeContext.mkState
                       [Reference.plainRecipe 7 (lit "Bread")] [])))%Z)
         (recipes (RecipeContext.mkState
                     [Reference.plainRecipe 7 (lit "Bread")] [])) /\
  map RecipeId
    (recipes
       (fst (addRecipe (mkInput (lit "Soup") [] [] [] [] [] 5 10 2 None None
                                None [] [])
               (lit "t")
               (RecipeContext.mkState
                  [Reference.plainRecipe 7 (lit "Bread")] [])))) =
  snd (addRecipe (mkInput (lit "Soup") [] [] [] [] [] 5 10 2 None None
                          None [] [])
         (lit "t")
         (RecipeContext.mkState [Reference.plainRecipe 7 (lit "Bread")] []))
  :: map RecipeId
       (recipes (RecipeContext.mkState
                   [Reference.plainRecipe 7 (lit "Bread")] [])).
Proof.
  apply (@C7_create_assigns_fresh_id
           (mkInput (lit "Soup") [] [] [] [] [] 5 10 2 None None None [] [])
           (lit "t")
           (RecipeContext.mkState [Reference.plainRecipe 7 (lit "Bread")] [])).
  repeat constructor; vm_compute; reflexivity.
Defined.

(* ------------------------------------------------------------------ *)
(** ** Review aggregates *)
(* ------------------------------------------------------------------ *)

Section Aggregates.
Import Reference.

Lemma fold_left_ratings l : forall acc,
  fold_left (fun sum r => (sum + Review.Rating r)%Z) l acc =
  (acc + fold_left (fun sum r => (sum + Review.Rating r)%Z) l 0)%Z.
Proof.
  induction l as [|r l IH]; intro acc; simpl; [lia|].
  rewrite IH, (IH (Review.Rating r)). lia.
Qed.

Lemma reviewsFor_ratingsOf id rvs :
  map Review.Rating (reviewsFor id rvs) = ratingsOf id rvs.
Proof.
  unfold reviewsFor. induction rvs as [|r rvs IH]; [reflexivity|].
  simpl. destruct (Z.eqb_spec (Review.RecipeId r) id);
    destruct (Z.eq_dec (Review.RecipeId r) id); try contradiction.
  - simpl. now rewrite IH.
  - exact IH.
Qed.

Lemma sumRatings_total l : sumRatings l = total (map Review.Rating l).
Proof.
  unfold sumRatings, total. induction l as [|r l IH]; [reflexivity|].
  simpl. rewrite fold_left_ratings, IH. lia.
Qed.

Lemma length_reviewsFor id rvs :
  length (reviewsFor id rvs) = length (ratingsOf id rvs).
Proof. now rewrite <- reviewsFor_ratingsOf, length_map. Qed.

Lemma recompute_agrees rvs r : aggregatesAgree rvs r (recompute rvs r).
Proof.
  unfold aggregatesAgree, recompute. cbv zeta.
  cbn [withAggregate RecipeId ReviewCount AggregatedRating].
  rewrite length_reviewsFor, sumRatings_total, reviewsFor_ratingsOf.
  split; [reflexivity|]. split; [reflexivity|].
  destruct (ratingsOf (RecipeId r) rvs); reflexivity.
Qed.

Lemma addReview_agrees d now isoNow st before r :
  aggregatesAgree (reviews st) before r ->
  aggregatesAgree (newReview d now isoNow :: reviews st) before
    (if Z.eqb (RecipeId r) (Review.d_RecipeId d)
     then withAggregate r
            (inject_Z (sumRatings (reviewsFor (Review.d_RecipeId d) (reviews st))
                       + Review.d_Rating d) /
             inject_Z (Z.of_nat
               (length (reviewsFor (Review.d_RecipeId d) (reviews st)) + 1)))%Q
            (ReviewCount r + 1)
     else r).
Proof.
  unfold aggregatesAgree. cbv zeta. intros (Hid & Hcount & Hrating).
  cbn [ratingsOf newReview Review.RecipeId Review.Rating].
  destruct (Z.eqb_spec (RecipeId r) (Review.d_RecipeId d)) as [E|E];
    destruct (Z.eq_dec (Review.d_RecipeId d) (RecipeId before)) as [E'|E'];
    try congruence.
  - cbn [withAggregate RecipeId ReviewCount AggregatedRating length].
    split; [exact Hid|]. split; [rewrite Hcount, Nat2Z.inj_succ; lia|].
    rewrite E', length_reviewsFor, sumRatings_total, reviewsFor_ratingsOf.
    unfold mean. cbn [total fold_right length].
    rewrite Z.add_comm, Nat.add_1_r. reflexivity.
  - auto.
Qed.

Lemma addReview_preserves d now isoNow st processed :
  Forall2 (aggregatesAgree (reviews st)) processed (recipes st) ->
  Forall2 (aggregatesAgree (reviews (addReview d now isoNow st))) processed
          (recipes (addReview d now isoNow st)).
Proof.
  unfold addReview. cbv zeta. cbn [reviews recipes].
  induction 1 as [|before r bs rs Hr _ IH]; simpl; constructor.
  - apply addReview_agrees. exact Hr.
  - exact IH.
Qed.

Lemma loadData_agrees processed reviewsData :
  reviewsData <> [] ->
  Forall2 (aggregatesAgree (reviews (loadData processed reviewsData)))
          processed (recipes (loadData processed reviewsData)).
Proof.
  intro Hne. unfold loadData.
  destruct reviewsData as [|rv rvs]; [congruence|].
  cbn [length Nat.ltb Nat.leb reviews recipes].
  induction processed as [|r rs IH]; simpl; constructor.
  - apply recompute_agrees.
  - exact IH.
Qed.

End Aggregates.

(** C4.  After the load-time recomputation (which runs when the bundled
    review data is non-empty) and any sequence of [addReview] calls, for
    every recipe of the collection: ReviewCount is the number of stored
    reviews with its RecipeId; when that number is positive the
    AggregatedRating is the mean of their ratings; when it is zero the
    AggregatedRating is still the one the recipe was ingested with.
    (Ratings are integers and the mean an exact rational, the value the
    double division approximates.) *)
Theorem C4_aggregates_consistent :
  forall (processed : list Recipe) (reviewsData : list Review.t)
         (calls : list ReviewCall),
    reviewsData <> [] ->
    let st := addReviews calls (loadData processed reviewsData) in
    Forall2 (Reference.aggregatesAgree (reviews st)) processed (recipes st).
Proof.
  intros processed reviewsData calls Hne. cbv zeta. unfold addReviews.
  pose proof (loadData_agrees processed Hne) as Hinit.
  revert Hinit. generalize (loadData processed reviewsData).
  induction calls as [|c calls IH]; intros st Hst; simpl.
  - exact Hst.
  - apply IH. apply addReview_preserves. exact Hst.
Qed.

Lemma C4_aggregates_witness :
  Forall2
    (Reference.aggregatesAgree
       (reviews
          (addReviews
             [mkCall (Review.mkData 1 7 (lit "ann") 4 (lit "good")) 1000 (lit "t1");
              mkCall (Review.mkData 1 8 (lit "ben") 2 (lit "meh")) 2000 (lit "t2")]
             (loadData [Reference.plainRecipe 1 (lit "Chocolate Cake")]
                [Review.mk 1 1 3 (lit "cy") 3 (lit "fine") None (lit "t0")]))))
    [Reference.plainRecipe 1 (lit "Chocolate Cake")]
    (recipes
       (addReviews
          [mkCall (Review.mkData 1 7 (lit "ann") 4 (lit "good")) 1000 (lit "t1");
           mkCall (Review.mkData 1 8 (lit "ben") 2 (lit "meh")) 2000 (lit "t2")]
          (loadData [Reference.plainRecipe 1 (lit "Chocolate Cake")]
             [Review.mk 1 1 3 (lit "cy") 3 (lit "fine") None (lit "t0")]))).
Proof.
  apply C4_aggregates_consistent. discriminate.
Defined.

(* ------------------------------------------------------------------ *)
(** ** Bookmark store *)
(* ------------------------------------------------------------------ *)

Section BookmarkStore.
Import Reference.

Lemma strEq_spec x : forall y, strEq x y = true <-> x = y.
Proof.
  induction x as [|c x IH]; intros [|d y]; simpl;
    try (split; [discriminate|congruence]); [tauto|].
  rewrite andb_true_iff, Ascii.eqb_eq, IH.
  split; [intros [-> ->]; reflexivity|intros [= -> ->]; auto].
Qed.

Lemma strEq_refl x : strEq x x = true.
Proof. now apply strEq_spec. Qed.

Lemma strEq_neq x y : x <> y -> strEq x y = false.
Proof.
  intro H. destruct (strEq x y) eqn:E; [|reflexivity].
  apply strEq_spec in E. contradiction.
Qed.

Lemma isFor_spec u r b :
  isFor u r b = true <-> Bookmark.userId b = u /\ Bookmark.recipeId b = r.
Proof.
  unfold isFor.
  destruct (str_eq_dec (Bookmark.userId b) u);
    destruct (Z.eq_dec (Bookmark.recipeId b) r);
    split; try discriminate; tauto.
Qed.

(** The test of [addBookmark]'s [find] and the one of
    [getBookmarkByRecipeId] both decide [isFor]. *)
Lemma addBookmark_test u r b :
  Z.eqb (Bookmark.recipeId b) r && strEq (Bookmark.userId b) u = isFor u r b.
Proof.
  apply eq_true_iff_eq.
  rewrite andb_true_iff, Z.eqb_eq, strEq_spec, isFor_spec. tauto.
Qed.

Lemma lookup_test u r b :
  strEq (Bookmark.userId b) u && Z.eqb (Bookmark.recipeId b) r = isFor u r b.
Proof. rewrite andb_comm. apply addBookmark_test. Qed.

Lemma find_ext {A} (f g : A -> bool) l :
  (forall x, f x = g x) -> find f l = find g l.
Proof.
  intro H. induction l as [|x l IH]; [reflexivity|].
  simpl. now rewrite H, IH.
Qed.

Lemma find_filter_none {A} (f : A -> bool) l :
  find f l = None -> filter f l = [].
Proof.
  induction l as [|x l IH]; [reflexivity|].
  simpl. destruct (f x); [discriminate|exact IH].
Qed.

Lemma find_filter_head {A} (f : A -> bool) l x :
  find f l = Some x -> exists rest, filter f l = x :: rest.
Proof.
  induction l as [|y l IH]; [discriminate|].
  simpl. destruct (f y).
  - intros [= ->]. eauto.
  - exact IH.
Qed.

Lemma length_filter_filter {A} (f g : A -> bool) l :
  length (filter f (filter g l)) <= length (filter f l).
Proof.
  induction l as [|x l IH]; [reflexivity|].
  simpl. destruct (g x); simpl; destruct (f x); simpl; lia.
Qed.

Lemma filter_map_stable {A} (f : A -> bool) (g : A -> A) l :
  (forall x, f (g x) = f x) -> filter f (map g l) = map g (filter f l).
Proof.
  intro H. induction l as [|x l IH]; [reflexivity|].
  simpl. rewrite H. destruct (f x); simpl; now rewrite IH.
Qed.

Lemma isFor_merge u r b data : isFor u r (Bookmark.merge b data) = isFor u r b.
Proof. reflexivity. Qed.

Lemma isFor_patched u r bookmarkId data b :
  isFor u r (patched bookmarkId data b) = isFor u r b.
Proof. unfold patched. destruct (strEq _ _); reflexivity. Qed.

Lemma sameIdentity_patched bookmarkId data b :
  sameIdentity b (patched bookmarkId data b).
Proof.
  unfold patched, sameIdentity. destruct (strEq _ _); simpl; auto.
Qed.

Lemma updateBookmark_bookmarks u bookmarkId data st :
  bookmarks (updateBookmark (Some u) bookmarkId data st) =
  map (patched bookmarkId data) (bookmarks st).
Proof. reflexivity. Qed.

Lemma atMostOne_updateBookmark user u r bookmarkId data st :
  atMostOne u r (bookmarks st) ->
  atMostOne u r (bookmarks (updateBookmark user bookmarkId data st)).
Proof.
  destruct user as [w|]; [|auto].
  unfold atMostOne, bookmarksOf. rewrite updateBookmark_bookmarks.
  rewrite filter_map_stable by (intro; apply isFor_patched).
  now rewrite length_map.
Qed.

Lemma atMostOne_addBookmark user now isoNow r' folderId rating u r st :
  atMostOne u r (bookmarks st) ->
  atMostOne u r
    (bookmarks (addBookmark user now isoNow r' folderId rating st)).
Proof.
  intro H. destruct user as [w|]; [|exact H].
  unfold addBookmark.
  rewrite (find_ext _ (isFor (User.id w) r'))
    by (intro; apply addBookmark_test).
  destruct (find _ _) as [existing|] eqn:E.
  - now apply atMostOne_updateBookmark.
  - unfold atMostOne, bookmarksOf in *. cbn [bookmarks].
    rewrite filter_app, length_app. cbn [filter].
    destruct (isFor u r _) eqn:K; [|simpl; lia].
    apply isFor_spec in K. cbn in K. destruct K as [<- <-].
    rewrite (find_filter_none _ _ E). simpl. lia.
Qed.

Lemma atMostOne_step u r st e :
  atMostOne u r (bookmarks st) -> atMostOne u r (bookmarks (step st e)).
Proof.
  intro H. unfold step.
  destruct (evCall e) as [n c i|f d|f|r' f g|bid|bid d].
  - unfold createFolder. destruct (evUser e); exact H.
  - unfold updateFolder. destruct (evUser e); exact H.
  - unfold deleteFolder. destruct (evUser e); [|exact H].
    unfold atMostOne, bookmarksOf in *. cbn [bookmarks].
    pose proof (length_filter_filter (isFor u r)
      (fun b => negb (strEq (Bookmark.folderId b) f)) (bookmarks st)). lia.
  - now apply atMostOne_addBookmark.
  - unfold removeBookmark. destruct (evUser e); [|exact H].
    unfold atMostOne, bookmarksOf in *. cbn [bookmarks].
    pose proof (length_filter_filter (isFor u r)
      (fun b => negb (strEq (Bookmark.id b) bid)) (bookmarks st)). lia.
  - now apply atMostOne_updateBookmark.
Qed.

Lemma atMostOne_run u r events : forall st,
  atMostOne u r (bookmarks st) -> atMostOne u r (bookmarks (run events st)).
Proof.
  unfold run. induction events as [|e events IH]; intros st H; simpl.
  - exact H.
  - apply IH. now apply atMostOne_step.
Qed.

(** After [addBookmark] the pair has exactly one bookmark, with the
    folder and rating of the call. *)
Lemma addBookmark_last_wins u now isoNow r folderId rating st :
  atMostOne (User.id u) r (bookmarks st) ->
  exists b,
    bookmarksOf (User.id u) r
      (bookmarks (addBookmark (Some u) now isoNow r folderId rating st)) = [b] /\
    Bookmark.folderId b = folderId /\ Bookmark.rating b = rating.
Proof.
  intro H. unfold addBookmark.
  rewrite (find_ext _ (isFor (User.id u) r))
    by (intro; apply addBookmark_test).
  destruct (find _ _) as [existing|] eqn:E.
  - rewrite updateBookmark_bookmarks. unfold bookmarksOf, atMostOne in *.
    rewrite filter_map_stable by (intro; apply isFor_patched).
    destruct (find_filter_head _ _ E) as (rest & Hf).
    unfold bookmarksOf in H. rewrite Hf in H |- *.
    destruct rest; [|simpl in H; lia].
    exists (patched (Bookmark.id existing)
              (Bookmark.mkPatch (Some folderId) (Some rating)) existing).
    split; [reflexivity|].
    unfold patched. rewrite strEq_refl. split; reflexivity.
  - unfold bookmarksOf. cbn [bookmarks].
    rewrite filter_app, (find_filter_none _ _ E). cbn [filter app].
    match goal with |- context [isFor ?a ?b ?c] =>
      assert (K : isFor a b c = true) by (apply isFor_spec; split; reflexivity)
    end.
    rewrite K. eexists. split; [reflexivity|]. split; reflexivity.
Qed.

End BookmarkStore.

(** C1.  For every user and recipe: if the bookmark collection holds at
    most one bookmark of the pair, then after any sequence of store
    calls (addBookmark, updateBookmark, removeBookmark, deleteFolder,
    and the folder calls too, made by whoever is signed in) it still
    holds at most one; and after one more [addBookmark(recipeId,
    folderId, rating)] by that user there is exactly one, carrying that
    call's folderId and rating. *)
Theorem C1_bookmark_uniqueness :
  forall (st : FolderContext.State) (events : list Event) (u : User.t) (r : Z),
    Reference.atMostOne (User.id u) r (bookmarks st) ->
    Reference.atMostOne (User.id u) r (bookmarks (run events st)) /\
    forall (now : Z) (isoNow folderId : str) (rating : Z),
    exists b,
      Reference.bookmarksOf (User.id u) r
        (bookmarks (addBookmark (Some u) now isoNow r folderId rating
                      (run events st))) = [b] /\
      Bookmark.folderId b = folderId /\ Bookmark.rating b = rating.
Proof.
  intros st events u r H.
  assert (Hrun : Reference.atMostOne (User.id u) r (bookmarks (run events st)))
    by (apply atMostOne_run; exact H).
  split; [exact Hrun|].
  intros now isoNow folderId rating.
  now apply addBookmark_last_wins.
Qed.

Lemma C1_bookmark_uniqueness_witness :
  Reference.atMostOne (User.id Reference.alice) 5
    (bookmarks
       (run [mkEvent (Some Reference.alice) 10 (lit "t")
               (AddBookmark 5 (lit "A") 4);
             mkEvent (Some Reference.alice) 11 (lit "t")
               (AddBookmark 5 (lit "B") 2)]
            Reference.aliceStore)) /\
  forall (now : Z) (isoNow folderId : str) (rating : Z),
  exists b,
    Reference.bookmarksOf (User.id Reference.alice) 5
      (bookmarks
         (addBookmark (Some Reference.alice) now isoNow 5 folderId rating
            (run [mkEvent (Some Reference.alice) 10 (lit "t")
                    (AddBookmark 5 (lit "A") 4);
                  mkEvent (Some Reference.alice) 11 (lit "t")
                    (AddBookmark 5 (lit "B") 2)]
                 Reference.aliceStore))) = [b] /\
    Bookmark.folderId b = folderId /\ Bookmark.rating b = rating.
Proof.
  apply C1_bookmark_uniqueness.
  unfold Reference.atMostOne. vm_compute. lia.
Defined.

Section Upsert.
Import Reference.

Lemma nth_error_patched bookmarkId data bs i :
  nth_error (map (patched bookmarkId data) bs) i =
  option_map (patched bookmarkId data) (nth_error bs i).
Proof. apply nth_error_map. Qed.

Lemma addBookmark_existing u now isoNow r folderId rating st existing :
  getBookmarkByRecipeId (Some u) r st = Some existing ->
  addBookmark (Some u) now isoNow r folderId rating st =
  mkState (folders st)
    (map (patched (Bookmark.id existing)
            (Bookmark.mkPatch (Some folderId) (Some rating)))
         (bookmarks st)).
Proof.
  unfold getBookmarkByRecipeId, addBookmark. intro H.
  rewrite (find_ext _ (isFor (User.id u) r)) in H
    by (intro; apply lookup_test).
  rewrite (find_ext _ (isFor (User.id u) r))
    by (intro; apply addBookmark_test).
  rewrite H. reflexivity.
Qed.

End Upsert.

(** C10.  When [addBookmark(recipeId, folderId, rating)] is called and
    the store already has a bookmark of the current user for that recipe
    (the one [getBookmarkByRecipeId] returns), the collection keeps its
    length and order and every record keeps its id, userId, recipeId and
    createdAt; the existing record stays at its position with only
    folderId and rating overwritten; records with another id, and the
    folders, are untouched. *)
Theorem C10_upsert_in_place :
  forall (u : User.t) (now : Z) (isoNow : str) (r : Z) (folderId : str)
         (rating : Z) (st : FolderContext.State) (existing : Bookmark.t),
    getBookmarkByRecipeId (Some u) r st = Some existing ->
    let st' := addBookmark (Some u) now isoNow r folderId rating st in
    folders st' = folders st /\
    length (bookmarks st') = length (bookmarks st) /\
    Forall2 Reference.sameIdentity (bookmarks st) (bookmarks st') /\
    (exists i,
        nth_error (bookmarks st) i = Some existing /\
        nth_error (bookmarks st') i =
          Some (Reference.moved existing folderId rating)) /\
    (forall i b,
        nth_error (bookmarks st) i = Some b ->
        Bookmark.id b <> Bookmark.id existing ->
        nth_error (bookmarks st') i = Some b).
Proof.
  intros u now isoNow r folderId rating st existing H. cbv zeta.
  rewrite addBookmark_existing with (existing := existing) by exact H.
  cbn [folders bookmarks].
  split; [reflexivity|]. split; [apply length_map|]. split; [|split].
  - induction (bookmarks st) as [|b bs IH]; simpl; constructor.
    + apply sameIdentity_patched.
    + exact IH.
  - unfold getBookmarkByRecipeId in H. apply find_some in H.
    destruct H as [Hin _]. apply In_nth_error in Hin.
    destruct Hin as (i & Hi). exists i. split; [exact Hi|].
    rewrite nth_error_patched, Hi. simpl.
    unfold Reference.patched. now rewrite strEq_refl.
  - intros i b Hi Hne.
    rewrite nth_error_patched, Hi. simpl.
    unfold Reference.patched. now rewrite strEq_neq.
Qed.

Lemma C10_upsert_witness :
  folders (addBookmark (Some Reference.alice) 99 (lit "t") 5 (lit "B") 2
             Reference.aliceStore) = folders Reference.aliceStore /\
  length (bookmarks (addBookmark (Some Reference.alice) 99 (lit "t") 5
                       (lit "B") 2 Reference.aliceStore)) =
    length (bookmarks Reference.aliceStore) /\
  Forall2 Reference.sameIdentity (bookmarks Reference.aliceStore)
    (bookmarks (addBookmark (Some Reference.alice) 99 (lit "t") 5 (lit "B") 2
                  Reference.aliceStore)) /\
  (exists i,
      nth_error (bookmarks Reference.aliceStore) i =
        Some Reference.aliceBookmark /\
      nth_error (bookmarks (addBookmark (Some Reference.alice) 99 (lit "t") 5
                              (lit "B") 2 Reference.aliceStore)) i =
        Some (Reference.moved Reference.aliceBookmark (lit "B") 2)) /\
  (forall i b,
      nth_error (bookmarks Reference.aliceStore) i = Some b ->
      Bookmark.id b <> Bookmark.id Reference.aliceBookmark ->
      nth_error (bookmarks (addBookmark (Some Reference.alice) 99 (lit "t") 5
                              (lit "B") 2 Reference.aliceStore)) i = Some b).
Proof.
  apply (@C10_upsert_in_place Reference.alice 99 (lit "t") 5 (lit "B") 2
           Reference.aliceStore Reference.aliceBookmark).
  reflexivity.
Defined.

Section Cascade.
Import Reference.

Lemma Forall_filter_negb {A} (f : A -> bool) l :
  Forall (fun x => f x = false) (filter (fun x => negb (f x)) l).
Proof.
  apply Forall_forall. intros x Hx. apply filter_In in Hx.
  destruct Hx as [_ Hx]. now destruct (f x).
Qed.

Lemma strEq_false x y : strEq x y = false -> x <> y.
Proof. intros E ->. rewrite strEq_refl in E. discriminate. Qed.

End Cascade.

(** C5 (as stated, refuted).  With nobody signed in [deleteFolder] does
    nothing: the folder and the bookmark filed in it are still in the
    store afterwards. *)
Lemma C5_signed_out_delete_fails :
  ~ Reference.folderGone None (lit "folder_1")
      (deleteFolder None (lit "folder_1") Reference.aliceStore).
Proof.
  intros (Hf & _ & _). inversion Hf as [|x l Hx _]; subst.
  apply Hx. reflexivity.
Qed.

(** C5 (amended).  For every folder id [f], when a user is signed in,
    immediately after [deleteFolder(f)]: no folder of the collection has
    id [f], [getBookmarksByFolder(f)] is empty, and no bookmark left in
    the store has folderId [f]. *)
Theorem C5_deleteFolder_cascades :
  forall (u : User.t) (f : str) (st : FolderContext.State),
    Reference.folderGone (Some u) f (deleteFolder (Some u) f st).
Proof.
  intros u f st. unfold Reference.folderGone, deleteFolder.
  cbn [folders bookmarks getBookmarksByFolder].
  assert (Hb : Forall (fun b => Bookmark.folderId b <> f)
                 (filter (fun b => negb (strEq (Bookmark.folderId b) f))
                         (bookmarks st))).
  { eapply Forall_impl;
      [|apply (Forall_filter_negb (fun b => strEq (Bookmark.folderId b) f))].
    intros b. apply strEq_false. }
  split; [|split; [|exact Hb]].
  - eapply Forall_impl;
      [|apply (Forall_filter_negb (fun x => strEq (Folder.id x) f))].
    intros x. apply strEq_false.
  - induction Hb as [|b bs Hne _ IH]; [reflexivity|].
    simpl. rewrite (strEq_neq Hne), andb_false_r. exact IH.
Qed.

(** C6 (the program departs from the claim).  Bob is signed in and the
    store holds a folder and a bookmark of Alice's.  [getFolderById]
    hands Bob Alice's folder; Bob's [updateFolder] renames it, his
    [updateBookmark] re-rates her bookmark, his [removeBookmark] deletes
    it and his [deleteFolder] deletes both. *)
Lemma C6_cross_user_access :
  Folder.userId Reference.aliceFolder <> User.id Reference.bob /\
  Bookmark.userId Reference.aliceBookmark <> User.id Reference.bob /\
  getFolderById (lit "folder_1") Reference.aliceStore =
    Some Reference.aliceFolder /\
  map Folder.name
    (folders (updateFolder (Some Reference.bob) (lit "folder_1")
                (Folder.mkPatch (Some (lit "Mine")) None None)
                Reference.aliceStore)) = [lit "Mine"] /\
  map Bookmark.rating
    (bookmarks (updateBookmark (Some Reference.bob) (lit "bookmark_2")
                  (Bookmark.mkPatch None (Some 1%Z)) Reference.aliceStore))
    = [1%Z] /\
  bookmarks (removeBookmark (Some Reference.bob) (lit "bookmark_2")
               Reference.aliceStore) = [] /\
  deleteFolder (Some Reference.bob) (lit "folder_1") Reference.aliceStore =
    mkState [] [].
Proof.
  repeat split; try reflexivity; vm_compute; discriminate.
Qed.

(* ------------------------------------------------------------------ *)
(** ** The scenarios of the specification, run on the model *)
(* ------------------------------------------------------------------ *)

(** Scenario 1: the exact pass finds ["chocolate"] in the name. *)
Example scenario_exact_pass :
  searchRecipesWithFuzzy (lit "chocolate")
    [Reference.plainRecipe 1 (lit "Chocolate Cake")] =
  [Reference.plainRecipe 1 (lit "Chocolate Cake")].
Proof. vm_compute. reflexivity. Qed.

(** Scenario 2: the typo ["choclate"] is caught by the fuzzy pass. *)
Example scenario_fuzzy_pass :
  filter (RecipeContext.exactMatch (lit "choclate"))
    [Reference.plainRecipe 1 (lit "Chocolate Cake")] = [] /\
  searchRecipesWithFuzzy (lit "choclate")
    [Reference.plainRecipe 1 (lit "Chocolate Cake")] =
  [Reference.plainRecipe 1 (lit "Chocolate Cake")].
Proof. split; vm_compute; reflexivity. Qed.

(** Scenario 3: ratings 4 and 2 give two reviews and the mean 3. *)
Example scenario_two_reviews :
  map (fun r => (ReviewCount r, Qred (AggregatedRating r)))
    (recipes
       (addReviews
          [mkCall (Review.mkData 1 7 (lit "ann") 4 (lit "good")) 1000 (lit "t1");
           mkCall (Review.mkData 1 8 (lit "ben") 2 (lit "meh")) 2000 (lit "t2")]
          (RecipeContext.mkState
             [Reference.plainRecipe 1 (lit "Chocolate Cake")] []))) =
  [(2%Z, 3%Q)].
Proof. vm_compute. reflexivity. Qed.

(** Scenario 4: bookmarking recipe 5 into "A" and then into "B" leaves
    one bookmark, in "B" with rating 2. *)
Example scenario_rebookmark :
  map (fun b => (Bookmark.recipeId b, Bookmark.folderId b, Bookmark.rating b))
    (bookmarks
       (run [mkEvent (Some Reference.alice) 10 (lit "t")
               (AddBookmark 5 (lit "A") 4);
             mkEvent (Some Reference.alice) 11 (lit "t")
               (AddBookmark 5 (lit "B") 2)]
            (FolderContext.mkState [] []))) =
  [(5%Z, lit "B", 2%Z)].
Proof. vm_compute. reflexivity. Qed.

(** Scenario 5: deleting the folder takes its two bookmarks along. *)
Example scenario_delete_folder :
  run [mkEvent (Some Reference.alice) 10 (lit "t")
         (AddBookmark 5 (lit "folder_1") 4);
       mkEvent (Some Reference.alice) 11 (lit "t")
         (AddBookmark 6 (lit "folder_1") 3);
       mkEvent (Some Reference.alice) 12 (lit "t")
         (DeleteFolder (lit "folder_1"))]
      (FolderContext.mkState [Reference.aliceFolder] []) =
  FolderContext.mkState [] [].
Proof. vm_compute. reflexivity. Qed.

(** When the bundled review data is empty [loadData] skips the
    recomputation, and a ReviewCount ingested with the recipe is then
    only incremented: the count need not be the number of stored
    reviews.  This is why the statement on aggregates starts from the
    recomputed state. *)
Example ingested_count_without_recomputation :
  map ReviewCount
    (recipes
       (addReviews
          [mkCall (Review.mkData 1 7 (lit "ann") 4 (lit "good")) 1000 (lit "t1")]
          (loadData
             [withAggregate (Reference.plainRecipe 1 (lit "Chocolate Cake"))
                            (9 # 2)%Q 7]
             []))) = [8%Z].
Proof. vm_compute. reflexivity. Qed.

(* ================================================================== *)
(** * Further properties of the code *)
(* ================================================================== *)

(* ------------------------------------------------------------------ *)
(** ** More on the edit distance *)
(* ------------------------------------------------------------------ *)

Section LevenshteinMore.
Import EditScripts.

Lemma script_zero a b n : script a b n -> n = 0 -> a = b.
Proof.
  induction 1 as [|x a b n _ IH|y a b n _ IH|x y a b n _ IH]; intro E;
    try discriminate; [reflexivity|].
  assert (n = 0 /\ subst_cost x y = 0) as [En Ec] by lia.
  unfold subst_cost in Ec.
  destruct (Ascii.eqb_spec x y); [|discriminate].
  subst. f_equal. now apply IH.
Qed.

Lemma script_lengths a b n :
  script a b n -> length a <= length b + n /\ length b <= length a + n.
Proof. induction 1; simpl; lia. Qed.

Lemma subst_cost_le x y : subst_cost x y <= 1.
Proof. unfold subst_cost. destruct (Ascii.eqb x y); lia. Qed.

Lemma script_max a : forall b,
  exists n, n <= Nat.max (length a) (length b) /\ script a b n.
Proof.
  induction a as [|x a IH]; intro b.
  - exists (length b). split; [simpl; lia|apply script_nil_l].
  - destruct b as [|y b].
    + exists (length (x :: a)). split; [simpl; lia|apply script_nil_r].
    + destruct (IH b) as (n & Hn & Hs).
      exists (n + subst_cost x y). split.
      * pose proof (subst_cost_le x y). simpl. lia.
      * now apply script_sub.
Qed.

Lemma rev_eq {A} (x y : list A) : rev x = rev y -> x = y.
Proof.
  intro H. rewrite <- (rev_involutive x), <- (rev_involutive y).
  now rewrite H.
Qed.

Lemma fillRow_length a : forall bj above left,
  length above = S (length a) -> length (fillRow a bj above left) = length a.
Proof.
  induction a as [|x a IH]; intros bj above left H; [reflexivity|].
  destruct above as [|diag [|up above]]; try discriminate.
  cbn [fillRow length]. f_equal. apply IH. simpl in *. lia.
Qed.

Lemma fillRows_shape a : forall b j above,
  length above = S (length a) ->
  length (fillRows a b j above) = length b /\
  Forall (fun row => length row = S (length a)) (fillRows a b j above).
Proof.
  induction b as [|bj b IH]; intros j above H; simpl.
  - split; [reflexivity|constructor].
  - assert (Hrow : length (nextRow a bj j above) = S (length a)).
    { unfold nextRow. simpl. now rewrite fillRow_length. }
    destruct (IH (S j) (nextRow a bj j above) Hrow) as [Hl Hf].
    split; [now rewrite Hl|]. constructor; assumption.
Qed.

End LevenshteinMore.

(** X1.  More metric facts: the edit distance is 0 exactly when the
    two strings are equal; it is at least the difference of the two
    lengths and at most the greater length; against the empty string it
    is the length of the other string. *)
Theorem X1_distance_facts : forall a b : str,
  (getLevenshteinDistance a b = 0 <-> a = b) /\
  length a - length b <= getLevenshteinDistance a b /\
  length b - length a <= getLevenshteinDistance a b /\
  getLevenshteinDistance a b <= Nat.max (length a) (length b) /\
  getLevenshteinDistance a [] = length a /\
  getLevenshteinDistance [] b = length b.
Proof.
  assert (B : forall a b : str,
    length a - length b <= getLevenshteinDistance a b /\
    length b - length a <= getLevenshteinDistance a b /\
    getLevenshteinDistance a b <= Nat.max (length a) (length b)).
  { intros a b. rewrite getLevenshteinDistance_lev.
    pose proof (script_lengths (lev_script (rev a) (rev b))) as HL.
    destruct (script_max (rev a) (rev b)) as (n & Hn & Hs).
    apply script_lev in Hs. rewrite !length_rev in *. lia. }
  intros a b. split.
  { rewrite getLevenshteinDistance_lev. split.
    - intro H. apply rev_eq.
      apply (script_zero (lev_script (rev a) (rev b)) H).
    - intros ->. apply lev_refl. }
  destruct (B a b) as (H1 & H2 & H3).
  split; [exact H1|]. split; [exact H2|]. split; [exact H3|].
  pose proof (B a []) as Ha. pose proof (B [] b) as Hb.
  simpl in Ha, Hb. lia.
Qed.

(** X2.  The matrix has [|b| + 1] rows of [|a| + 1] cells each, so the
    cell [matrix[b.length][a.length]] that is returned exists. *)
Theorem X2_matrix_shape : forall a b : str,
  length (matrix a b) = S (length b) /\
  Forall (fun row => length row = S (length a)) (matrix a b).
Proof.
  intros a b. unfold matrix.
  assert (H0 : length (firstRow a) = S (length a))
    by (unfold firstRow; apply length_seq).
  destruct (fillRows_shape a b 1 (firstRow a) H0) as [Hl Hf].
  split; [simpl; now rewrite Hl|]. constructor; assumption.
Qed.

(* ------------------------------------------------------------------ *)
(** ** More on the fuzzy match *)
(* ------------------------------------------------------------------ *)

Section FuzzyMore.
Import Reference Notions.

Lemma toLowerChar_idempotent c : toLowerChar (toLowerChar c) = toLowerChar c.
Proof. destruct c as [[] [] [] [] [] [] [] []]; reflexivity. Qed.

Lemma toLowerCase_idempotent x : toLowerCase (toLowerCase x) = toLowerCase x.
Proof.
  unfold toLowerCase. rewrite map_map.
  apply map_ext. intro c. apply toLowerChar_idempotent.
Qed.

Lemma falsy_toLowerCase x : falsy (toLowerCase x) = falsy x.
Proof. destruct x; reflexivity. Qed.

Lemma isFuzzyMatch_toLowerCase source target tolerance :
  isFuzzyMatch (toLowerCase source) (toLowerCase target) tolerance =
  isFuzzyMatch source target tolerance.
Proof.
  unfold isFuzzyMatch.
  now rewrite !falsy_toLowerCase, !toLowerCase_idempotent.
Qed.

Lemma isFuzzyMatch_nil_r source tolerance :
  isFuzzyMatch source [] tolerance = false.
Proof. unfold isFuzzyMatch. now rewrite orb_true_r. Qed.

Lemma fuzzyLoop_short sourceLower maxDistance words :
  Forall (fun w => length w < 3) words ->
  fuzzyLoop sourceLower maxDistance words = false.
Proof.
  induction 1 as [|w ws Hw _ IH]; [reflexivity|].
  cbn [fuzzyLoop]. apply Nat.ltb_lt in Hw. now rewrite Hw.
Qed.

Lemma existsb_false {A} (f : A -> bool) l :
  Forall (fun x => f x = false) l -> existsb f l = false.
Proof.
  induction 1 as [|x l Hx _ IH]; [reflexivity|].
  simpl. now rewrite Hx, IH.
Qed.

Lemma fuzzyLoop_short_source sourceLower maxDistance words :
  Forall (fun v => length v < 3) (splitWhitespace sourceLower) ->
  fuzzyLoop sourceLower maxDistance words = false.
Proof.
  intro Hs. induction words as [|w ws IH]; [reflexivity|].
  cbn [fuzzyLoop]. rewrite IH.
  rewrite existsb_false; [now destruct (length w <? 3)|].
  eapply Forall_impl; [|exact Hs]. intros v Hv.
  unfold sourceWordMatches. apply Nat.ltb_lt in Hv. now rewrite Hv.
Qed.

End FuzzyMore.

(** X3.  [fuzzyMatch] accepts containment: for non-empty source and
    target, if either contains the other when case is ignored the answer
    is true, whatever the tolerance; in particular [fuzzyMatch(s, s)]
    for every non-empty [s]. *)
Theorem X3_fuzzyMatch_containment :
  forall (source target : str) (tolerance : Q),
    source <> [] -> target <> [] ->
    Reference.containsIgnoringCase source target \/
    Reference.containsIgnoringCase target source ->
    isFuzzyMatch source target tolerance = true.
Proof.
  intros source target tolerance Hs Ht H. unfold isFuzzyMatch.
  destruct source; [congruence|]. destruct target; [congruence|].
  cbn [falsy orb].
  unfold Reference.containsIgnoringCase in H.
  rewrite <- !includes_spec in H. apply orb_true_iff in H. now rewrite H.
Qed.

Lemma X3_fuzzyMatch_containment_witness :
  isFuzzyMatch (lit "Cake") (lit "Cake") defaultTolerance = true.
Proof.
  apply X3_fuzzyMatch_containment.
  - discriminate.
  - discriminate.
  - left. apply includes_spec. vm_compute. reflexivity.
Defined.

(** X4.  [fuzzyMatch] ignores letter case in both arguments: folding
    the case of source and target beforehand does not change the
    answer. *)
Theorem X4_fuzzyMatch_ignores_case :
  forall (source target : str) (tolerance : Q),
    isFuzzyMatch (toLowerCase source) (toLowerCase target) tolerance =
    isFuzzyMatch source target tolerance.
Proof.
  intros source target tolerance. unfold isFuzzyMatch.
  rewrite !falsy_toLowerCase, !toLowerCase_idempotent. reflexivity.
Qed.

(** X5.  Words of fewer than 3 characters never take part in the fuzzy
    comparison: when neither string contains the other (ignoring case)
    and all words of the target, or all words of the source, are shorter
    than 3, [fuzzyMatch] answers false. *)
Theorem X5_fuzzyMatch_short_words :
  forall (source target : str) (tolerance : Q),
    ~ Reference.containsIgnoringCase source target ->
    ~ Reference.containsIgnoringCase target source ->
    Notions.onlyShortWords (toLowerCase target) \/
    Notions.onlyShortWords (toLowerCase source) ->
    isFuzzyMatch source target tolerance = false.
Proof.
  intros source target tolerance Hst Hts H.
  rewrite isFuzzyMatch_words by assumption.
  destruct H as [H|H].
  - now apply fuzzyLoop_short.
  - now apply fuzzyLoop_short_source.
Qed.

Lemma X5_fuzzyMatch_short_words_witness :
  isFuzzyMatch (lit "pie") (lit "an ox") defaultTolerance = false.
Proof.
  apply X5_fuzzyMatch_short_words.
  - apply includes_false. vm_compute. reflexivity.
  - apply includes_false. vm_compute. reflexivity.
  - left. unfold Notions.onlyShortWords. vm_compute. repeat constructor.
Defined.

(* ------------------------------------------------------------------ *)
(** ** More on search *)
(* ------------------------------------------------------------------ *)

Section Trimming.

Lemma trimStart_head x :
  trimStart x = [] \/
  exists c y, trimStart x = c :: y /\ isWhitespace c = false.
Proof.
  induction x as [|c x IH]; [now left|].
  simpl. destruct (isWhitespace c) eqn:E; [exact IH|].
  right. exists c, x. auto.
Qed.

Lemma trimStart_idempotent x : trimStart (trimStart x) = trimStart x.
Proof.
  destruct (trimStart_head x) as [E|(c & y & E & Hc)]; rewrite E.
  - reflexivity.
  - simpl. now rewrite Hc.
Qed.

Lemma trimStart_snoc l c :
  isWhitespace c = false -> trimStart (l ++ [c]) = trimStart l ++ [c].
Proof.
  intro Hc. induction l as [|d l IH]; simpl.
  - now rewrite Hc.
  - destruct (isWhitespace d); [exact IH|reflexivity].
Qed.

Lemma trimEnd_cons c y :
  isWhitespace c = false -> trimEnd (c :: y) = c :: trimEnd y.
Proof.
  intro Hc. unfold trimEnd. simpl.
  rewrite trimStart_snoc by assumption.
  now rewrite rev_app_distr.
Qed.

Lemma trimEnd_idempotent x : trimEnd (trimEnd x) = trimEnd x.
Proof.
  unfold trimEnd. now rewrite rev_involutive, trimStart_idempotent.
Qed.

Lemma trimStart_trim x : trimStart (trim x) = trim x.
Proof.
  unfold trim.
  destruct (trimStart_head x) as [E|(c & y & E & Hc)]; rewrite E.
  - reflexivity.
  - rewrite trimEnd_cons by assumption. simpl. now rewrite Hc.
Qed.

Lemma trim_idempotent x : trim (trim x) = trim x.
Proof.
  unfold trim at 1. rewrite trimStart_trim.
  unfold trim. apply trimEnd_idempotent.
Qed.

End Trimming.

Section SearchMore.
Import Reference Notions.

Lemma inOrder_refl {A} (l : list A) : inOrder l l.
Proof. induction l; constructor; assumption. Qed.

Lemma inOrder_filter {A} (f : A -> bool) l : inOrder (filter f l) l.
Proof.
  induction l as [|x l IH]; simpl; [constructor|].
  destruct (f x); constructor; assumption.
Qed.

Lemma inOrder_nil_l {A} (l : list A) : inOrder [] l.
Proof. induction l; constructor; assumption. Qed.

Lemma inOrder_firstn {A} n : forall l : list A, inOrder (firstn n l) l.
Proof.
  induction n as [|n IH]; intro l; simpl; [apply inOrder_nil_l|].
  destruct l; constructor. apply IH.
Qed.

Lemma inOrder_trans {A} (l1 l2 l3 : list A) :
  inOrder l1 l2 -> inOrder l2 l3 -> inOrder l1 l3.
Proof.
  intros H12 H23. revert l1 H12.
  induction H23 as [|x l2 l3 _ IH|x l2 l3 _ IH]; intros l1 H12.
  - exact H12.
  - inversion H12; subst; constructor; auto.
  - constructor. auto.
Qed.

Lemma inOrder_In {A} (l1 l2 : list A) x :
  inOrder l1 l2 -> In x l1 -> In x l2.
Proof.
  induction 1; simpl; intuition.
Qed.

Lemma inOrder_length {A} (l1 l2 : list A) :
  inOrder l1 l2 -> length l1 <= length l2.
Proof. induction 1; simpl; lia. Qed.

Lemma existsb_isFuzzyMatch ql fields :
  existsb (fun k => isFuzzyMatch (toLowerCase k) (toLowerCase ql)
                      defaultTolerance) fields = true <->
  Exists (fun k => isFuzzyMatch k ql defaultTolerance = true) fields.
Proof.
  rewrite existsb_exists, Exists_exists.
  split; intros (k & Hk & H); exists k; (split; [exact Hk|]);
    now rewrite isFuzzyMatch_toLowerCase in *.
Qed.

Lemma isFuzzyMatch_nil_l target tolerance :
  isFuzzyMatch [] target tolerance = false.
Proof. reflexivity. Qed.

Lemma fuzzyMatch_spec q r :
  RecipeContext.fuzzyMatch (toLowerCase q) r = true <->
  recipeFuzzyMentions q r.
Proof.
  unfold RecipeContext.fuzzyMatch, recipeFuzzyMentions.
  rewrite !isFuzzyMatch_toLowerCase.
  rewrite <- !existsb_isFuzzyMatch.
  destruct (isFuzzyMatch (Name r) q defaultTolerance); [tauto|].
  assert (E : negb (falsy (Description r)) &&
              isFuzzyMatch (Description r) q defaultTolerance =
              isFuzzyMatch (Description r) q defaultTolerance).
  { destruct (Description r); reflexivity. }
  rewrite E.
  destruct (isFuzzyMatch (Description r) q defaultTolerance); [tauto|].
  destruct (existsb _ (RecipeIngredientParts r)); [tauto|].
  destruct (existsb _ (Keywords r)); [tauto|].
  split; [discriminate|]. intros [H|[H|[H|H]]]; discriminate.
Qed.

Lemma filter_none {A} (f : A -> bool) l :
  ~ Exists (fun x => f x = true) l -> filter f l = [].
Proof.
  intro H. induction l as [|x l IH]; [reflexivity|].
  simpl. destruct (f x) eqn:E.
  - exfalso. apply H. now constructor.
  - apply IH. intro H'. apply H. now constructor.
Qed.

Lemma search_fuzzy_pass q rs :
  trim q <> [] ->
  ~ Exists (recipeMentions (trim q)) rs ->
  searchRecipesWithFuzzy q rs =
  filter (RecipeContext.fuzzyMatch (toLowerCase (trim q))) rs.
Proof.
  intros Hne Hno. unfold searchRecipesWithFuzzy. cbv zeta.
  rewrite trim_toLowerCase.
  destruct (toLowerCase (trim q)) as [|c ql] eqn:Eq.
  { destruct (trim q); [congruence|discriminate]. }
  cbn [falsy]. rewrite <- Eq.
  rewrite (@filter_none _ (RecipeContext.exactMatch (toLowerCase (trim q)))).
  - reflexivity.
  - intro H. apply Hno. eapply Exists_impl; [|exact H].
    intros r. apply exactMatch_spec.
Qed.

End SearchMore.

(** X6.  Whatever the query, [search] returns recipes of the collection
    in collection order: nothing is invented, repeated or reordered; and
    the public [searchRecipes] returns the very list the two-pass search
    computes. *)
Theorem X6_search_result_in_order :
  forall (q : str) (st : RecipeContext.State),
    Notions.inOrder (searchRecipesWithFuzzy q (recipes st)) (recipes st) /\
    RecipeQueries.searchRecipes q st =
      searchRecipesWithFuzzy q (recipes st).
Proof.
  intros q st. split.
  - unfold searchRecipesWithFuzzy. cbv zeta.
    destruct (falsy _); [apply inOrder_firstn|].
    destruct (0 <? _); apply inOrder_filter.
  - unfold RecipeQueries.searchRecipes. cbv zeta.
    now destruct (searchRecipesWithFuzzy q (recipes st)).
Qed.

(** X7.  When the trimmed query is non-empty and no recipe contains it
    (ignoring case) in its name, description, keywords or ingredient
    parts, [search] returns exactly the recipes one of whose fields
    fuzzy-matches the trimmed query, in collection order. *)
Theorem X7_search_fuzzy_fallback :
  forall (q : str) (collection : list Recipe),
    trim q <> [] ->
    ~ Exists (Reference.recipeMentions (trim q)) collection ->
    Reference.exactlyThoseIn (Notions.recipeFuzzyMentions (trim q)) collection
      (searchRecipesWithFuzzy q collection).
Proof.
  intros q collection Hne Hno.
  rewrite search_fuzzy_pass by assumption.
  exists (RecipeContext.fuzzyMatch (toLowerCase (trim q))).
  split; [reflexivity|]. intro r. apply fuzzyMatch_spec.
Qed.

Lemma X7_search_fuzzy_fallback_witness :
  Reference.exactlyThoseIn
    (Notions.recipeFuzzyMentions (trim (lit "choclate")))
    [Reference.plainRecipe 1 (lit "Chocolate Cake");
     Reference.plainRecipe 2 (lit "Bread")]
    (searchRecipesWithFuzzy (lit "choclate")
       [Reference.plainRecipe 1 (lit "Chocolate Cake");
        Reference.plainRecipe 2 (lit "Bread")]).
Proof.
  apply X7_search_fuzzy_fallback.
  - vm_compute. discriminate.
  - intro H. apply Exists_exists in H. destruct H as (r & Hin & Hm).
    apply exactMatch_spec in Hm.
    destruct Hin as [<-|[<-|[]]]; vm_compute in Hm; discriminate.
Defined.

(** X8.  [search] depends on the query only up to letter case and
    surrounding whitespace: the lower-cased query and the trimmed query
    give the same result as the query itself. *)
Theorem X8_search_normalises_query :
  forall (q : str) (collection : list Recipe),
    searchRecipesWithFuzzy (toLowerCase q) collection =
      searchRecipesWithFuzzy q collection /\
    searchRecipesWithFuzzy (trim q) collection =
      searchRecipesWithFuzzy q collection.
Proof.
  intros q collection. unfold searchRecipesWithFuzzy. cbv zeta.
  rewrite toLowerCase_idempotent.
  rewrite (trim_toLowerCase (trim q)), trim_idempotent, <- trim_toLowerCase.
  split; reflexivity.
Qed.

(* ------------------------------------------------------------------ *)
(** ** Sorting and slicing *)
(* ------------------------------------------------------------------ *)

Section Sorting.
Import Notions RecipeQueries.

Context {A : Type} (before : A -> A -> bool).

Lemma insertBy_perm x l : Permutation (insertBy before x l) (x :: l).
Proof.
  induction l as [|y l IH]; simpl; [reflexivity|].
  destruct (before x y); [reflexivity|].
  rewrite IH. apply perm_swap.
Qed.

Lemma sortBy_perm l : Permutation (sortBy before l) l.
Proof.
  induction l as [|x l IH]; simpl; [reflexivity|].
  rewrite insertBy_perm. now constructor.
Qed.

Hypothesis before_total : forall x y, before x y = false -> before y x = true.
Hypothesis before_trans : forall x y z,
  before x y = true -> before y z = true -> before x z = true.

Lemma insertBy_sorted x l :
  StronglySorted (fun a b => before a b = true) l ->
  StronglySorted (fun a b => before a b = true) (insertBy before x l).
Proof.
  induction 1 as [|y l Hs IH Hy]; simpl.
  - constructor; constructor.
  - destruct (before x y) eqn:E.
    + constructor; [constructor; assumption|].
      constructor; [exact E|].
      eapply Forall_impl; [|exact Hy]. intros z Hz. eauto.
    + constructor; [exact IH|].
      eapply Permutation_Forall.
      * symmetry. apply insertBy_perm.
      * constructor; [auto|exact Hy].
Qed.

Lemma sortBy_sorted l :
  StronglySorted (fun a b => before a b = true) (sortBy before l).
Proof.
  induction l as [|x l IH]; simpl; [constructor|].
  now apply insertBy_sorted.
Qed.

End Sorting.

Section Slicing.
Import Notions RecipeQueries.

Lemma slice0_prefix {A} (n : Z) (l : list A) :
  exists rest, l = slice0 n l ++ rest.
Proof.
  unfold slice0. destruct (n <? 0)%Z;
    eexists; symmetry; apply firstn_skipn.
Qed.

Lemma slice0_inOrder {A} (n : Z) (l : list A) : inOrder (slice0 n l) l.
Proof. unfold slice0. destruct (n <? 0)%Z; apply inOrder_firstn. Qed.

Lemma slice0_length {A} (n : Z) (l : list A) :
  (0 <= n)%Z -> length (slice0 n l) <= Z.to_nat n.
Proof.
  intro H. unfold slice0.
  destruct (Z.ltb_spec n 0); [lia|]. apply firstn_le_length.
Qed.

Lemma slice0_all {A} (n : Z) (l : list A) :
  (Z.of_nat (length l) <= n)%Z -> slice0 n l = l.
Proof.
  intro H. unfold slice0.
  destruct (Z.ltb_spec n 0); [lia|]. apply firstn_all2. lia.
Qed.

Lemma inOrder_Forall {A} (P : A -> Prop) l1 l2 :
  inOrder l1 l2 -> Forall P l2 -> Forall P l1.
Proof.
  induction 1 as [|x l1 l2 _ IH|x l1 l2 _ IH]; intro HP.
  - constructor.
  - inversion HP; subst. constructor; auto.
  - inversion HP; subst. auto.
Qed.

Lemma inOrder_sorted {A} (R : A -> A -> Prop) l1 l2 :
  inOrder l1 l2 -> StronglySorted R l2 -> StronglySorted R l1.
Proof.
  induction 1 as [|x l1 l2 H IH|x l1 l2 H IH]; intro Hs.
  - constructor.
  - inversion Hs; subst. constructor; [auto|].
    eapply inOrder_Forall; eassumption.
  - inversion Hs; subst. auto.
Qed.

Lemma inOrder_NoDup {A} (l1 l2 : list A) :
  inOrder l1 l2 -> NoDup l2 -> NoDup l1.
Proof.
  induction 1 as [|x l1 l2 H IH|x l1 l2 H IH]; intro Hn.
  - constructor.
  - inversion Hn; subst. constructor; [|auto].
    intro Hin. eapply inOrder_In in Hin; eauto.
  - inversion Hn; subst. auto.
Qed.

Lemma sorted_app_split {A} (R : A -> A -> Prop) (p s : list A) :
  StronglySorted R (p ++ s) ->
  StronglySorted R p /\ Forall (fun y => Forall (fun x => R x y) p) s.
Proof.
  induction p as [|x p IH]; simpl; intro H.
  - split; [constructor|]. apply Forall_forall. intros; constructor.
  - inversion H as [|? ? Hs Hx]; subst.
    destruct (IH Hs) as [Hp Hrest].
    apply Forall_app in Hx. destruct Hx as [Hxp Hxs].
    split; [constructor; assumption|].
    rewrite Forall_forall in *. intros y Hy.
    constructor; [now apply Hxs|now apply Hrest].
Qed.

(** A slice of a sorted arrangement of [l] is a best slice of [l]. *)
Lemma slice0_bestSlice {A} (R : A -> A -> Prop) (n : Z) (sorted all : list A) :
  StronglySorted R sorted -> Permutation sorted all ->
  bestSlice R all (slice0 n sorted).
Proof.
  intros Hs Hp. destruct (slice0_prefix n sorted) as (rest & E).
  rewrite E in Hs. apply sorted_app_split in Hs. destruct Hs as [Htop Hrest].
  split; [exact Htop|]. exists rest. split; [|exact Hrest].
  now rewrite <- E.
Qed.

End Slicing.

(* ------------------------------------------------------------------ *)
(** ** Repository queries *)
(* ------------------------------------------------------------------ *)

Section Queries.
Import Reference Notions RecipeQueries.

Lemma byRatingDesc_spec a b : byRatingDesc a b = true <-> ratingAtLeast a b.
Proof.
  unfold byRatingDesc, ratingAtLeast. rewrite Qle_bool_iff. split; lra.
Qed.

Lemma byRatingDesc_total a b :
  byRatingDesc a b = false -> byRatingDesc b a = true.
Proof.
  intro H. apply byRatingDesc_spec.
  destruct (byRatingDesc a b) eqn:E; [discriminate|].
  assert (N : ~ ratingAtLeast a b)
    by (intro K; apply byRatingDesc_spec in K; congruence).
  unfold ratingAtLeast in *. lra.
Qed.

Lemma byRatingDesc_trans a b c :
  byRatingDesc a b = true -> byRatingDesc b c = true ->
  byRatingDesc a c = true.
Proof.
  rewrite !byRatingDesc_spec. unfold ratingAtLeast. lra.
Qed.

Lemma byReviewCountDesc_spec a b :
  byReviewCountDesc a b = true <-> reviewCountAtLeast a b.
Proof.
  unfold byReviewCountDesc, reviewCountAtLeast. rewrite Z.leb_le. lia.
Qed.

Lemma byDistance_spec ql a b : byDistance ql a b = true <-> closerTo ql a b.
Proof. unfold byDistance, closerTo. rewrite Z.leb_le. lia. Qed.

Lemma sorted_ext {A} (R R' : A -> A -> Prop) l :
  (forall x y, R x y -> R' x y) -> StronglySorted R l -> StronglySorted R' l.
Proof.
  intros H. induction 1; constructor; auto.
  eapply Forall_impl; [|eassumption]. auto.
Qed.

Lemma sortBy_byRatingDesc l :
  StronglySorted ratingAtLeast (sortBy byRatingDesc l).
Proof.
  eapply sorted_ext; [|apply sortBy_sorted].
  - intros x y. apply byRatingDesc_spec.
  - apply byRatingDesc_total.
  - apply byRatingDesc_trans.
Qed.

Lemma sortBy_byReviewCountDesc l :
  StronglySorted reviewCountAtLeast (sortBy byReviewCountDesc l).
Proof.
  eapply sorted_ext; [|apply sortBy_sorted].
  - intros x y. apply byReviewCountDesc_spec.
  - unfold byReviewCountDesc. intros x y H.
    apply Z.leb_gt in H. apply Z.leb_le. lia.
  - unfold byReviewCountDesc. intros x y z H1 H2.
    apply Z.leb_le in H1, H2. apply Z.leb_le. lia.
Qed.

Lemma sortBy_byDistance ql l :
  StronglySorted (closerTo ql) (sortBy (byDistance ql) l).
Proof.
  eapply sorted_ext; [|apply sortBy_sorted].
  - intros x y. apply byDistance_spec.
  - unfold byDistance. intros x y H.
    apply Z.leb_gt in H. apply Z.leb_le. lia.
  - unfold byDistance. intros x y z H1 H2.
    apply Z.leb_le in H1, H2. apply Z.leb_le. lia.
Qed.

Lemma inCategory_spec category r :
  inCategory category r = true <-> filedUnder category r.
Proof.
  unfold inCategory, filedUnder, containsIgnoringCase.
  rewrite orb_true_iff, includes_spec, existsb_exists, Exists_exists.
  split; (intros [H|(k & Hk & H)]; [now left|right; exists k; split; auto]);
    now apply includes_spec.
Qed.

Lemma length_filter_le {A} (f : A -> bool) l :
  length (filter f l) <= length l.
Proof. apply inOrder_length, inOrder_filter. Qed.

End Queries.

(** X9.  [getTopRatedRecipes(count)] with [count >= 0] returns at most
    [count] recipes, all with a positive rating, sorted by rating from
    high to low; they are a best slice of the rated recipes: every rated
    recipe left out has a rating no higher than each one returned. *)
Theorem X9_top_rated :
  forall (count : Z) (st : RecipeContext.State),
    (0 <= count)%Z ->
    length (RecipeQueries.getTopRatedRecipes count st) <= Z.to_nat count /\
    Forall Notions.rated (RecipeQueries.getTopRatedRecipes count st) /\
    Notions.bestSlice Notions.ratingAtLeast
      (filter (fun r => negb (Qle_bool (AggregatedRating r) 0)) (recipes st))
      (RecipeQueries.getTopRatedRecipes count st) /\
    Reference.exactlyThoseIn Notions.rated (recipes st)
      (filter (fun r => negb (Qle_bool (AggregatedRating r) 0)) (recipes st)).
Proof.
  intros count st Hc. unfold RecipeQueries.getTopRatedRecipes.
  assert (Hrated : forall r,
            negb (Qle_bool (AggregatedRating r) 0) = true <-> Notions.rated r).
  { intro r. unfold Notions.rated. rewrite negb_true_iff.
    destruct (Qle_bool (AggregatedRating r) 0) eqn:E.
    - apply Qle_bool_iff in E. split; [discriminate|lra].
    - split; [intros _|reflexivity].
      assert (N : ~ (AggregatedRating r <= 0)%Q)
        by (intro K; apply Qle_bool_iff in K; congruence).
      lra. }
  split; [now apply slice0_length|]. split; [|split].
  - eapply inOrder_Forall; [apply slice0_inOrder|].
    eapply Permutation_Forall; [symmetry; apply sortBy_perm|].
    apply Forall_forall. intros r Hr. apply filter_In in Hr.
    apply Hrated. tauto.
  - apply slice0_bestSlice; [apply sortBy_byRatingDesc|apply sortBy_perm].
  - eexists. split; [reflexivity|exact Hrated].
Qed.

Lemma X9_top_rated_witness :
  length (RecipeQueries.getTopRatedRecipes 1
            (RecipeContext.mkState
               [withAggregate (Reference.plainRecipe 1 (lit "a")) (3 # 1) 2;
                withAggregate (Reference.plainRecipe 2 (lit "b")) (9 # 2) 4]
               [])) <= Z.to_nat 1 /\
  Forall Notions.rated
    (RecipeQueries.getTopRatedRecipes 1
       (RecipeContext.mkState
          [withAggregate (Reference.plainRecipe 1 (lit "a")) (3 # 1) 2;
           withAggregate (Reference.plainRecipe 2 (lit "b")) (9 # 2) 4]
          [])) /\
  Notions.bestSlice Notions.ratingAtLeast
    (filter (fun r => negb (Qle_bool (AggregatedRating r) 0))
       (recipes
          (RecipeContext.mkState
             [withAggregate (Reference.plainRecipe 1 (lit "a")) (3 # 1) 2;
              withAggregate (Reference.plainRecipe 2 (lit "b")) (9 # 2) 4]
             [])))
    (RecipeQueries.getTopRatedRecipes 1
       (RecipeContext.mkState
          [withAggregate (Reference.plainRecipe 1 (lit "a")) (3 # 1) 2;
           withAggregate (Reference.plainRecipe 2 (lit "b")) (9 # 2) 4]
          [])) /\
  Reference.exactlyThoseIn Notions.rated
    (recipes
       (RecipeContext.mkState
          [withAggregate (Reference.plainRecipe 1 (lit "a")) (3 # 1) 2;
           withAggregate (Reference.plainRecipe 2 (lit "b")) (9 # 2) 4]
          []))
    (filter (fun r => negb (Qle_bool (AggregatedRating r) 0))
       (recipes
          (RecipeContext.mkState
             [withAggregate (Reference.plainRecipe 1 (lit "a")) (3 # 1) 2;
              withAggregate (Reference.plainRecipe 2 (lit "b")) (9 # 2) 4]
             []))).
Proof.
  apply X9_top_rated. lia.
Defined.

(** X10.  [getTrendingRecipes(count)] returns a best slice of the whole
    collection by ReviewCount, sorted from most to least reviewed: no
    recipe left out has more reviews than one returned. *)
Theorem X10_trending :
  forall (count : Z) (st : RecipeContext.State),
    Notions.bestSlice Notions.reviewCountAtLeast (recipes st)
      (RecipeQueries.getTrendingRecipes count st).
Proof.
  intros count st. unfold RecipeQueries.getTrendingRecipes.
  apply slice0_bestSlice;
    [apply sortBy_byReviewCountDesc|apply sortBy_perm].
Qed.

(** X11.  [getRecentRecipes(count)] and [getCategoryRecipes(category,
    count)] return recipes of the collection in collection order, and
    every recipe the latter returns is filed under the category (its
    RecipeCategory or a keyword contains it, ignoring case).  With
    [count = 0] the category query returns all such recipes, and for the
    empty category that is the whole collection. *)
Theorem X11_recent_and_category :
  forall (category : str) (count : Z) (st : RecipeContext.State),
    Notions.inOrder (RecipeQueries.getRecentRecipes count st) (recipes st) /\
    Notions.inOrder (RecipeQueries.getCategoryRecipes category count st)
                    (recipes st) /\
    Forall (Notions.filedUnder category)
           (RecipeQueries.getCategoryRecipes category count st) /\
    Reference.exactlyThoseIn (Notions.filedUnder category) (recipes st)
      (RecipeQueries.getCategoryRecipes category 0 st) /\
    RecipeQueries.getCategoryRecipes [] 0 st = recipes st.
Proof.
  intros category count st.
  unfold RecipeQueries.getRecentRecipes, RecipeQueries.getCategoryRecipes.
  assert (Hall : forall c,
    RecipeQueries.slice0 (Z.of_nat (length (recipes st)))
      (filter (RecipeQueries.inCategory c) (recipes st)) =
    filter (RecipeQueries.inCategory c) (recipes st)).
  { intro c. apply slice0_all.
    pose proof (length_filter_le (RecipeQueries.inCategory c) (recipes st)).
    lia. }
  split; [apply slice0_inOrder|]. split; [|split; [|split]].
  - eapply inOrder_trans; [apply slice0_inOrder|apply inOrder_filter].
  - eapply inOrder_Forall; [apply slice0_inOrder|].
    apply Forall_forall. intros r Hr. apply filter_In in Hr.
    apply inCategory_spec. tauto.
  - cbn [Z.eqb]. rewrite Hall. eexists. split; [reflexivity|].
    intro r. apply inCategory_spec.
  - cbn [Z.eqb]. rewrite Hall.
    assert (Hany : forall r, RecipeQueries.inCategory [] r = true).
    { intro r. apply inCategory_spec. left. apply contains_nil. }
    clear Hall.
    induction (recipes st) as [|r rs IH]; [reflexivity|].
    cbn [filter]. now rewrite Hany, IH.
Qed.

(* ------------------------------------------------------------------ *)
(** ** Term suggestions *)
(* ------------------------------------------------------------------ *)

Section Suggestions.
Import Notions RecipeQueries.

Lemma existsb_strEq x set : existsb (strEq x) set = true <-> In x set.
Proof.
  rewrite existsb_exists. split.
  - intros (y & Hy & E). apply strEq_spec in E. now subst.
  - intro H. exists x. split; [exact H|apply strEq_refl].
Qed.

Lemma setAdd_In x set t : In t (setAdd x set) <-> In t set \/ t = x.
Proof.
  unfold setAdd. destruct (existsb (strEq x) set) eqn:E.
  - apply existsb_strEq in E. split; [auto|]. intros [H| ->]; assumption.
  - rewrite in_app_iff. simpl. intuition.
Qed.

Lemma setAdd_NoDup x set : NoDup set -> NoDup (setAdd x set).
Proof.
  intro H. unfold setAdd. destruct (existsb (strEq x) set) eqn:E; [exact H|].
  assert (N : ~ In x set).
  { intro K. apply existsb_strEq in K. congruence. }
  apply NoDup_rev in H. rewrite <- (rev_involutive (set ++ [x])).
  apply NoDup_rev. rewrite rev_app_distr. simpl.
  constructor; [now rewrite <- in_rev|exact H].
Qed.

Lemma addAll_spec terms : forall set,
  NoDup set ->
  NoDup (fold_left (fun acc term => setAdd term acc) terms set) /\
  forall t, In t (fold_left (fun acc term => setAdd term acc) terms set) <->
            In t set \/ In t terms.
Proof.
  induction terms as [|x terms IH]; intros set H; simpl.
  - split; [exact H|]. intuition.
  - destruct (IH (setAdd x set) (setAdd_NoDup x H)) as [Hn Hin].
    split; [exact Hn|]. intro t. rewrite Hin, setAdd_In. intuition.
Qed.

Lemma allTerms_spec rs :
  NoDup (allTerms rs) /\
  forall t, In t (allTerms rs) <-> In t (flat_map termsOfRecipe rs).
Proof.
  unfold allTerms.
  destruct (addAll_spec (flat_map termsOfRecipe rs) (NoDup_nil str))
    as [Hn Hin].
  split; [exact Hn|]. intro t. rewrite Hin. simpl. intuition.
Qed.

End Suggestions.

(** X12.  [findSimilarTerms(query)] returns at most 5 distinct terms.
    Each is a term of the vocabulary (a lower-cased word of more than 3
    characters from a recipe name or ingredient part, or a lower-cased
    keyword) whose edit distance to the lower-cased query is at most
    [min(2, floor(0.3 * length))], and the terms come closest first, as
    a best slice of all vocabulary terms within their threshold. *)
Theorem X12_similar_terms :
  forall (query : str) (rs : list Recipe),
    length (RecipeQueries.findSimilarTerms query rs) <= 5 /\
    NoDup (RecipeQueries.findSimilarTerms query rs) /\
    Forall (fun term =>
              In term (flat_map RecipeQueries.termsOfRecipe rs) /\
              getLevenshteinDistance term (toLowerCase query) <=
                RecipeQueries.similarityThreshold term)
           (RecipeQueries.findSimilarTerms query rs) /\
    Notions.bestSlice (Notions.closerTo (toLowerCase query))
      (filter (fun term =>
                 getLevenshteinDistance term (toLowerCase query) <=?
                 RecipeQueries.similarityThreshold term)
              (RecipeQueries.allTerms rs))
      (RecipeQueries.findSimilarTerms query rs).
Proof.
  intros query rs. unfold RecipeQueries.findSimilarTerms. cbv zeta.
  destruct (allTerms_spec rs) as [Hn Hin].
  set (ql := toLowerCase query).
  set (similar := filter _ (RecipeQueries.allTerms rs)).
  split; [apply (@slice0_length _ 5); lia|]. split; [|split].
  - eapply inOrder_NoDup; [apply slice0_inOrder|].
    eapply Permutation_NoDup; [symmetry; apply sortBy_perm|].
    apply NoDup_filter. exact Hn.
  - eapply inOrder_Forall; [apply slice0_inOrder|].
    eapply Permutation_Forall; [symmetry; apply sortBy_perm|].
    apply Forall_forall. intros term Ht. apply filter_In in Ht.
    destruct Ht as [Ht Hd]. split; [now apply Hin|now apply Nat.leb_le].
  - apply slice0_bestSlice; [apply sortBy_byDistance|apply sortBy_perm].
Qed.

Example similar_terms_ex :
  RecipeQueries.findSimilarTerms (lit "Choclate")
    [Reference.plainRecipe 1 (lit "Chocolate Cake");
     Reference.plainRecipe 2 (lit "Chocolates and tea")] =
  [lit "chocolate"; lit "chocolates"].
Proof. vm_compute. reflexivity. Qed.

(* ------------------------------------------------------------------ *)
(** ** More on recipe creation *)
(* ------------------------------------------------------------------ *)

Section CreationMore.
Import Reference Notions RecipeQueries CreateRecipePage.

Lemma newId_fresh rs data isoNow :
  safeIds rs ->
  Forall (fun r => (RecipeId r < RecipeId (newRecipe rs data isoNow))%Z) rs.
Proof.
  intro Hsafe. rewrite newId_exact by assumption.
  destruct rs as [|r rs]; [constructor|].
  destruct (maxId_greatest r rs) as [_ Hall].
  rewrite Forall_map in Hall.
  eapply Forall_impl; [|exact Hall]. simpl. intros; lia.
Qed.

Lemma In_trimStart c x : In c (trimStart x) -> In c x.
Proof.
  induction x as [|d x IH]; simpl; [auto|].
  destruct (isWhitespace d); simpl; auto.
Qed.

Lemma In_trim c x : In c (trim x) -> In c x.
Proof.
  unfold trim, trimEnd. intro H.
  apply In_trimStart. apply in_rev. apply In_trimStart.
  now apply in_rev.
Qed.

Lemma splitChar_cons sep x : exists w ws, splitChar sep x = w :: ws.
Proof.
  induction x as [|c x (w & ws & E)]; simpl; [eauto|].
  destruct (Ascii.eqb c sep); [eauto|]. rewrite E. eauto.
Qed.

Lemma splitChar_pieces sep x :
  Forall (fun w => ~ In sep w) (splitChar sep x).
Proof.
  induction x as [|c x IH]; simpl.
  - constructor; [auto|constructor].
  - destruct (Ascii.eqb_spec c sep) as [E|E].
    + constructor; [auto|exact IH].
    + destruct (splitChar sep x) as [|w ws]; [repeat constructor; simpl; intuition|].
      inversion IH; subst. constructor; [|assumption].
      simpl. intuition.
Qed.

Lemma splitChar_no_sep sep x : ~ In sep x -> splitChar sep x = [x].
Proof.
  induction x as [|c x IH]; simpl; intro H; [reflexivity|].
  destruct (Ascii.eqb_spec c sep) as [E|E]; [intuition|].
  rewrite IH by intuition. reflexivity.
Qed.

Lemma splitChar_app sep x rest :
  ~ In sep x -> splitChar sep (x ++ sep :: rest) = x :: splitChar sep rest.
Proof.
  induction x as [|c x IH]; simpl; intro H.
  - now rewrite Ascii.eqb_refl.
  - destruct (Ascii.eqb_spec c sep) as [E|E]; [intuition|].
    rewrite IH by intuition. reflexivity.
Qed.

Lemma splitChar_joinLines lines :
  lines <> [] -> Forall (fun l => ~ In "010"%char l) lines ->
  splitChar "010"%char (joinLines lines) = lines.
Proof.
  intros Hne H. induction H as [|l rest Hl Hrest IH]; [congruence|].
  destruct rest as [|l' rest'].
  - simpl. now apply splitChar_no_sep.
  - change (joinLines (l :: l' :: rest'))
      with (l ++ "010"%char :: joinLines (l' :: rest')).
    rewrite splitChar_app by assumption.
    rewrite IH by discriminate. reflexivity.
Qed.

Lemma cleanPieces_after_split sep x :
  Forall (cleanPiece sep)
    (filter nonEmpty (map trim (splitChar sep x))).
Proof.
  apply Forall_forall. intros w Hw. apply filter_In in Hw.
  destruct Hw as [Hin Hne]. apply in_map_iff in Hin.
  destruct Hin as (p & <- & Hp).
  split; [|split].
  - intro E. rewrite E in Hne. discriminate.
  - apply trim_idempotent.
  - intro K. apply In_trim in K.
    pose proof (splitChar_pieces sep x) as HF.
    rewrite Forall_forall in HF. exact (HF p Hp K).
Qed.

Lemma nonEmpty_length (x : str) : (0 <? length x) = nonEmpty x.
Proof. destruct x; reflexivity. Qed.

Lemma instructionSteps_eq text :
  filter (fun l : str => 0 <? length l)
         (map trim (splitChar "010"%char text)) =
  filter nonEmpty (map trim (splitChar "010"%char text)).
Proof. apply filter_ext. intro l. apply nonEmpty_length. Qed.

Lemma instructionsList_clean insts :
  Forall (fun l => nonEmpty l = true /\ trim l = l) (instructionsList insts).
Proof.
  unfold instructionsList. apply Forall_forall. intros l Hl.
  apply in_map_iff in Hl. destruct Hl as (inst & <- & Hi).
  apply filter_In in Hi. destruct Hi as [_ Hne].
  split; [exact Hne|apply trim_idempotent].
Qed.

Lemma filter_all {A} (f : A -> bool) l :
  Forall (fun x => f x = true) l -> filter f l = l.
Proof.
  induction 1 as [|x l Hx _ IH]; [reflexivity|].
  simpl. now rewrite Hx, IH.
Qed.

Lemma map_fixed {A} (f : A -> A) l :
  Forall (fun x => f x = x) l -> map f l = l.
Proof.
  induction 1 as [|x l Hx _ IH]; [reflexivity|].
  simpl. now rewrite Hx, IH.
Qed.

End CreationMore.

(** X13.  After [addRecipe] on a collection whose RecipeIds are safe
    integers (below 2^53 in magnitude) the new recipe is found under the
    id that was returned, it is the most recent recipe, it starts with
    no reviews and rating 0, and looking up any recipe that was already
    in the collection gives what it gave before. *)
Theorem X13_addRecipe_lookup :
  forall (data : RecipeInput) (isoNow : str) (st : RecipeContext.State),
    Reference.safeIds (recipes st) ->
    let st' := fst (addRecipe data isoNow st) in
    let newId := snd (addRecipe data isoNow st) in
    RecipeQueries.getRecipeById newId st' =
      Some (newRecipe (recipes st) data isoNow) /\
    RecipeQueries.getRecentRecipes 1 st' =
      [newRecipe (recipes st) data isoNow] /\
    ReviewCount (newRecipe (recipes st) data isoNow) = 0%Z /\
    AggregatedRating (newRecipe (recipes st) data isoNow) = 0%Q /\
    Forall (fun r => RecipeQueries.getRecipeById (RecipeId r) st' =
                     RecipeQueries.getRecipeById (RecipeId r) st)
           (recipes st).
Proof.
  intros data isoNow st Hsafe. cbv zeta.
  unfold RecipeQueries.getRecipeById, addRecipe. cbn [fst snd recipes find].
  rewrite Z.eqb_refl.
  split; [reflexivity|]. split; [reflexivity|].
  split; [reflexivity|]. split; [reflexivity|].
  pose proof (newId_fresh data isoNow Hsafe) as Hf.
  eapply Forall_impl; [|exact Hf]. cbv beta. intros r Hr.
  destruct (Z.eqb_spec (RecipeId (newRecipe (recipes st) data isoNow))
                       (RecipeId r)); [lia|reflexivity].
Qed.

Lemma X13_addRecipe_lookup_witness :
  RecipeQueries.getRecipeById
    (snd (addRecipe (mkInput (lit "Soup") [] [] [] [] [] 5 10 2 None None
                             None [] [])
            (lit "t")
            (RecipeContext.mkState [Reference.plainRecipe 7 (lit "Bread")] [])))
    (fst (addRecipe (mkInput (lit "Soup") [] [] [] [] [] 5 10 2 None None
                             None [] [])
            (lit "t")
            (RecipeContext.mkState [Reference.plainRecipe 7 (lit "Bread")] [])))
  = Some (newRecipe
            (recipes (RecipeContext.mkState
                        [Reference.plainRecipe 7 (lit "Bread")] []))
            (mkInput (lit "Soup") [] [] [] [] [] 5 10 2 None None None [] [])
            (lit "t")) /\
  RecipeQueries.getRecentRecipes 1
    (fst (addRecipe (mkInput (lit "Soup") [] [] [] [] [] 5 10 2 None None
                             None [] [])
            (lit "t")
            (RecipeContext.mkState [Reference.plainRecipe 7 (lit "Bread")] [])))
  = [newRecipe
       (recipes (RecipeContext.mkState
                   [Reference.plainRecipe 7 (lit "Bread")] []))
       (mkInput (lit "Soup") [] [] [] [] [] 5 10 2 None None None [] [])
       (lit "t")] /\
  ReviewCount
    (newRecipe
       (recipes (RecipeContext.mkState
                   [Reference.plainRecipe 7 (lit "Bread")] []))
       (mkInput (lit "Soup") [] [] [] [] [] 5 10 2 None None None [] [])
       (lit "t")) = 0%Z /\
  AggregatedRating
    (newRecipe
       (recipes (RecipeContext.mkState
                   [Reference.plainRecipe 7 (lit "Bread")] []))
       (mkInput (lit "Soup") [] [] [] [] [] 5 10 2 None None None [] [])
       (lit "t")) = 0%Q /\
  Forall (fun r =>
            RecipeQueries.getRecipeById (RecipeId r)
              (fst (addRecipe (mkInput (lit "Soup") [] [] [] [] [] 5 10 2 None
                                       None None [] [])
                      (lit "t")
                      (RecipeContext.mkState
                         [Reference.plainRecipe 7 (lit "Bread")] []))) =
            RecipeQueries.getRecipeById (RecipeId r)
              (RecipeContext.mkState
                 [Reference.plainRecipe 7 (lit "Bread")] []))
         (recipes (RecipeContext.mkState
                     [Reference.plainRecipe 7 (lit "Bread")] [])).
Proof.
  apply (@X13_addRecipe_lookup
           (mkInput (lit "Soup") [] [] [] [] [] 5 10 2 None None None [] [])
           (lit "t")
           (RecipeContext.mkState [Reference.plainRecipe 7 (lit "Bread")] [])).
  repeat constructor; vm_compute; reflexivity.
Defined.

(** X14.  [addRecipe] keeps RecipeIds unique on a collection whose
    RecipeIds are safe integers (below 2^53 in magnitude): if no two
    recipes share an id, none do afterwards. *)
Theorem X14_addRecipe_keeps_ids_unique :
  forall (data : RecipeInput) (isoNow : str) (st : RecipeContext.State),
    Reference.safeIds (recipes st) ->
    NoDup (map RecipeId (recipes st)) ->
    NoDup (map RecipeId (recipes (fst (addRecipe data isoNow st)))).
Proof.
  intros data isoNow st Hsafe H. unfold addRecipe. cbn [fst recipes map].
  constructor; [|exact H].
  intro Hin. apply in_map_iff in Hin. destruct Hin as (r & E & Hr).
  pose proof (newId_fresh data isoNow Hsafe) as Hf.
  rewrite Forall_forall in Hf. specialize (Hf r Hr). lia.
Qed.

Lemma X14_addRecipe_keeps_ids_unique_witness :
  NoDup (map RecipeId
           (recipes
              (fst (addRecipe
                      (mkInput (lit "Soup") [] [] [] [] [] 5 10 2 None None
                               None [] [])
                      (lit "t")
                      (RecipeContext.mkState
                         [Reference.plainRecipe 7 (lit "Bread")] []))))).
Proof.
  apply X14_addRecipe_keeps_ids_unique.
  - repeat constructor; vm_compute; reflexivity.
  - repeat constructor. simpl. intuition.
Defined.

(** At an id of 2^53 the sum [maxId + 1] rounds back to 2^53: the new
    recipe takes the id of an existing one, which [getRecipeById] then
    no longer finds. *)
Example addRecipe_beyond_safe_ids :
  RecipeQueries.getRecipeById twoTo53
    (fst (addRecipe (mkInput (lit "Soup") [] [] [] [] [] 5 10 2 None None
                             None [] [])
            (lit "t")
            (RecipeContext.mkState
               [Reference.plainRecipe twoTo53 (lit "Bread")] []))) =
  Some (newRecipe [Reference.plainRecipe twoTo53 (lit "Bread")]
          (mkInput (lit "Soup") [] [] [] [] [] 5 10 2 None None None [] [])
          (lit "t")) /\
  map RecipeId
    (recipes
       (fst (addRecipe (mkInput (lit "Soup") [] [] [] [] [] 5 10 2 None None
                                None [] [])
               (lit "t")
               (RecipeContext.mkState
                  [Reference.plainRecipe twoTo53 (lit "Bread")] [])))) =
  [twoTo53; twoTo53].
Proof. split; vm_compute; reflexivity. Qed.

(** X15.  The instruction steps survive the trip from the create-recipe
    form into the stored recipe: the form joins its trimmed non-empty
    steps with newlines, [addRecipe] splits them again, and when no step
    contains a newline of its own the stored RecipeInstructions are
    exactly the form's steps. *)
Theorem X15_instructions_round_trip :
  forall (insts : list CreateRecipePage.Instruction) (rs : list Recipe)
         (data : RecipeInput) (isoNow : str),
    instructions data =
      CreateRecipePage.joinLines (CreateRecipePage.instructionsList insts) ->
    Forall (fun inst => ~ In "010"%char (trim (CreateRecipePage.value inst)))
           insts ->
    RecipeInstructions (newRecipe rs data isoNow) =
      CreateRecipePage.instructionsList insts.
Proof.
  intros insts rs data isoNow Hdata Hnl.
  cbn [newRecipe RecipeInstructions]. rewrite Hdata.
  pose proof (instructionsList_clean insts) as Hclean.
  assert (Hfree : Forall (fun l => ~ In "010"%char l)
                    (CreateRecipePage.instructionsList insts)).
  { unfold CreateRecipePage.instructionsList.
    apply Forall_forall. intros l Hl. apply in_map_iff in Hl.
    destruct Hl as (inst & <- & Hi). apply filter_In in Hi.
    rewrite Forall_forall in Hnl. apply Hnl. tauto. }
  destruct (CreateRecipePage.instructionsList insts) as [|l ls] eqn:E.
  - reflexivity.
  - rewrite splitChar_joinLines by (assumption || discriminate).
    rewrite map_fixed.
    + apply filter_all. eapply Forall_impl; [|exact Hclean].
      intros x [Hx _]. now rewrite nonEmpty_length.
    + eapply Forall_impl; [|exact Hclean]. intros x [_ Hx]. exact Hx.
Qed.

Lemma X15_instructions_round_trip_witness :
  RecipeInstructions
    (newRecipe []
       (mkInput (lit "Soup") [] (lit "Boil water" ++ "010"%char :: lit "Add salt")
                [] [] [] 5 10 2 None None None [] [])
       (lit "t")) =
  CreateRecipePage.instructionsList
    [CreateRecipePage.mkInstruction (lit "1") (lit " Boil water ");
     CreateRecipePage.mkInstruction (lit "2") (lit "  ");
     CreateRecipePage.mkInstruction (lit "3") (lit "Add salt")].
Proof.
  apply X15_instructions_round_trip.
  - vm_compute. reflexivity.
  - repeat constructor; vm_compute; intuition discriminate.
Defined.

(** X16.  A created recipe never stores an empty or untrimmed piece:
    every keyword is non-empty, trimmed and free of commas, every
    instruction step is non-empty, trimmed and free of newlines; and
    without keyword text there are no keywords. *)
Theorem X16_created_fields_are_clean :
  forall (rs : list Recipe) (data : RecipeInput) (isoNow : str),
    Forall (Notions.cleanPiece ","%char)
           (Keywords (newRecipe rs data isoNow)) /\
    Forall (Notions.cleanPiece "010"%char)
           (RecipeInstructions (newRecipe rs data isoNow)) /\
    match keywords data with
    | None | Some [] => Keywords (newRecipe rs data isoNow) = []
    | Some (_ :: _) => True
    end.
Proof.
  intros rs data isoNow. cbn [newRecipe Keywords RecipeInstructions].
  split; [|split].
  - destruct (keywords data) as [[|c k]|]; try constructor.
    cbn [falsy]. apply cleanPieces_after_split.
  - rewrite instructionSteps_eq. apply cleanPieces_after_split.
  - destruct (keywords data) as [[|c k]|]; auto.
Qed.

(** The form's two ingredient lists stay parallel: quantities and
    parts have the same length, position by position they come from the
    same ingredient row, and every part is non-empty and trimmed (rows
    without a part are dropped from both lists). *)
Lemma ingredient_lists_parallel :
  forall ingredients : list CreateRecipePage.Ingredient,
    length (CreateRecipePage.ingredientQuantities ingredients) =
      length (CreateRecipePage.ingredientParts ingredients) /\
    (exists rows,
        Notions.inOrder rows ingredients /\
        CreateRecipePage.ingredientQuantities ingredients =
          map (fun ing => trim (CreateRecipePage.quantity ing)) rows /\
        CreateRecipePage.ingredientParts ingredients =
          map (fun ing => trim (CreateRecipePage.part ing)) rows) /\
    Forall (fun p => p <> [] /\ trim p = p)
           (CreateRecipePage.ingredientParts ingredients).
Proof.
  intro ingredients.
  unfold CreateRecipePage.ingredientQuantities, CreateRecipePage.ingredientParts.
  split; [now rewrite !length_map|]. split.
  - exists (filter CreateRecipePage.hasPart ingredients).
    split; [apply inOrder_filter|]. split; reflexivity.
  - apply Forall_forall. intros p Hp. apply in_map_iff in Hp.
    destruct Hp as (ing & <- & Hi). apply filter_In in Hi.
    destruct Hi as [_ Hne]. unfold CreateRecipePage.hasPart in Hne.
    split; [|apply trim_idempotent].
    intro E. rewrite E in Hne. discriminate.
Qed.

(* ------------------------------------------------------------------ *)
(** ** More on reviews *)
(* ------------------------------------------------------------------ *)

Section Ledger.
Import RecipeQueries.

Lemma getReviews_addReview d now isoNow st id :
  getReviewsForRecipe id (addReview d now isoNow st) =
  if Z.eqb (Review.d_RecipeId d) id
  then newReview d now isoNow :: getReviewsForRecipe id st
  else getReviewsForRecipe id st.
Proof. reflexivity. Qed.

End Ledger.

(** X17.  The ledger is most-recent-first: after any sequence of
    [addReview] calls, the reviews of a recipe are the reviews those
    calls added for it, latest call first, followed by the reviews it
    had before. *)
Theorem X17_reviews_most_recent_first :
  forall (calls : list ReviewCall) (st : RecipeContext.State) (id : Z),
    RecipeQueries.getReviewsForRecipe id (addReviews calls st) =
    rev (map (fun c => newReview (callData c) (callNow c) (callIso c))
             (filter (fun c => Z.eqb (Review.d_RecipeId (callData c)) id)
                     calls))
    ++ RecipeQueries.getReviewsForRecipe id st.
Proof.
  intros calls st id. unfold addReviews. revert st.
  induction calls as [|c calls IH]; intro st; [reflexivity|].
  cbn [fold_left filter]. rewrite IH, getReviews_addReview.
  destruct (Z.eqb (Review.d_RecipeId (callData c)) id); [|reflexivity].
  cbn [map rev]. now rewrite <- app_assoc.
Qed.

(** X18.  [addReview] touches nothing but the aggregates of the reviewed
    recipe: the collection keeps its length and order, a recipe with
    another RecipeId is left exactly as it was, and a recipe with the
    reviewed RecipeId changes in AggregatedRating and ReviewCount
    only. *)
Theorem X18_addReview_frame :
  forall (d : Review.data) (now : Z) (isoNow : str)
         (st : RecipeContext.State),
    Forall2 (fun before after =>
               Notions.sameButAggregates before after /\
               (RecipeId before = Review.d_RecipeId d \/ after = before))
            (recipes st) (recipes (addReview d now isoNow st)).
Proof.
  intros d now isoNow st. unfold addReview. cbv zeta. cbn [recipes].
  induction (recipes st) as [|r rs IH]; simpl; constructor; [|exact IH].
  unfold Notions.sameButAggregates.
  destruct (Z.eqb_spec (RecipeId r) (Review.d_RecipeId d)).
  - split; [reflexivity|now left].
  - split; [now destruct r|now right].
Qed.

(* ------------------------------------------------------------------ *)
(** ** Ingestion *)
(* ------------------------------------------------------------------ *)

Section Sanitizing.
Import Notions Ingestion.

Lemma kept_plain c :
  isKept c = true -> isWhitespace c = false -> plainChar c.
Proof.
  unfold plainChar.
  destruct c as [[] [] [] [] [] [] [] []]; intros H1 H2;
    first [discriminate H1 | discriminate H2
          | left; reflexivity
          | right; left; reflexivity
          | right; right; left; reflexivity
          | right; right; right; left; reflexivity
          | right; right; right; right; reflexivity].
Qed.

Lemma space_plain : plainChar " "%char.
Proof. right. now left. Qed.

Lemma collapse_chars x c :
  In c (collapseWhitespace x) ->
  c = " "%char \/ (In c x /\ isWhitespace c = false).
Proof.
  induction x as [|d x IH]; simpl; [intros []|].
  destruct (isWhitespace d) eqn:E.
  - destruct x as [|d' x'].
    + simpl. intros [<-|[]]. now left.
    + destruct (isWhitespace d') eqn:E'.
      * intro H. destruct (IH H) as [K|[K1 K2]]; auto.
      * intros [<-|H]; [now left|].
        destruct (IH H) as [K|[K1 K2]]; auto.
  - intros [<-|H]; [right; auto|].
    destruct (IH H) as [K|[K1 K2]]; auto.
Qed.

Lemma collapse_head c x :
  isWhitespace c = false ->
  collapseWhitespace (c :: x) = c :: collapseWhitespace x.
Proof. intro H. simpl. now rewrite H. Qed.

Lemma collapse_singleSpaced x : singleSpaced (collapseWhitespace x).
Proof.
  induction x as [|c x IH]; [exact I|].
  cbn [collapseWhitespace].
  destruct (isWhitespace c) eqn:E.
  - destruct x as [|d x']; [exact I|].
    destruct (isWhitespace d) eqn:E'; [exact IH|].
    rewrite collapse_head in IH |- * by assumption.
    split; [|exact IH]. intros [_ K]. congruence.
  - destruct (collapseWhitespace x) as [|d y] eqn:Ey; [exact I|].
    split; [|exact IH]. intros [K _]. congruence.
Qed.

Lemma collapse_length x : length (collapseWhitespace x) <= length x.
Proof.
  induction x as [|c x IH]; [reflexivity|].
  cbn [collapseWhitespace].
  destruct (isWhitespace c).
  - destruct x as [|d x']; [simpl; lia|].
    destruct (isWhitespace d); simpl in *; lia.
  - simpl. lia.
Qed.

Lemma trimStart_length x : length (trimStart x) <= length x.
Proof.
  induction x as [|c x IH]; [reflexivity|].
  simpl. destruct (isWhitespace c); simpl; lia.
Qed.

Lemma trim_length x : length (trim x) <= length x.
Proof.
  unfold trim, trimEnd. rewrite length_rev.
  pose proof (trimStart_length (rev (trimStart x))).
  pose proof (trimStart_length x).
  rewrite length_rev in *. lia.
Qed.

End Sanitizing.

(** X19.  [sanitizeText] returns text made of letters, digits,
    underscores, plain spaces, commas, full stops and hyphens only, with
    no two spaces in a row, and never longer than its input. *)
Theorem X19_sanitizeText_output :
  forall text : str,
    Forall Notions.plainChar (Ingestion.sanitizeText text) /\
    Notions.singleSpaced (Ingestion.sanitizeText text) /\
    length (Ingestion.sanitizeText text) <= length text.
Proof.
  intro text. unfold Ingestion.sanitizeText.
  destruct (falsy text).
  { split; [constructor|]. split; [exact I|simpl; lia]. }
  split; [|split].
  - apply Forall_forall. intros c Hc.
    destruct (collapse_chars _ _ Hc) as [->|[Hin Hws]];
      [apply space_plain|].
    unfold Ingestion.replaceOthers in Hin. apply in_map_iff in Hin.
    destruct Hin as (d & E & _).
    destruct (Ingestion.isKept d) eqn:K.
    + subst d. now apply kept_plain.
    + subst c. apply space_plain.
  - apply collapse_singleSpaced.
  - pose proof (collapse_length (Ingestion.replaceOthers (trim text))) as H1.
    assert (H2 : length (Ingestion.replaceOthers (trim text)) =
                 length (trim text)) by apply length_map.
    pose proof (trim_length text). lia.
Qed.

Example sanitizeText_ex :
  Ingestion.sanitizeText (lit "  Mom's   (best) pie!  ") =
  lit "Mom s best pie ".
Proof. vm_compute. reflexivity. Qed.

(* ------------------------------------------------------------------ *)
(** ** More on the bookmark store *)
(* ------------------------------------------------------------------ *)

Section StoreMore.
Import Reference Notions BookmarkButton.

Lemma find_map_stable {A} (f : A -> bool) (g : A -> A) l :
  (forall x, f (g x) = f x) -> find f (map g l) = option_map g (find f l).
Proof.
  intro H. induction l as [|x l IH]; [reflexivity|].
  simpl. rewrite H. destruct (f x); [reflexivity|exact IH].
Qed.

Lemma find_app {A} (f : A -> bool) l l' :
  find f (l ++ l') =
  match find f l with Some x => Some x | None => find f l' end.
Proof.
  induction l as [|x l IH]; [reflexivity|].
  simpl. destruct (f x); [reflexivity|exact IH].
Qed.

Lemma find_of_filter_nil {A} (f : A -> bool) l :
  filter f l = [] -> find f l = None.
Proof.
  induction l as [|x l IH]; [reflexivity|].
  simpl. destruct (f x); [discriminate|exact IH].
Qed.

Lemma filter_comm {A} (f g : A -> bool) l :
  filter f (filter g l) = filter g (filter f l).
Proof.
  induction l as [|x l IH]; [reflexivity|].
  simpl. destruct (g x) eqn:G; destruct (f x) eqn:F; simpl;
    rewrite ?G, ?F, IH; reflexivity.
Qed.

Lemma lookup_isFor u r st :
  getBookmarkByRecipeId (Some u) r st =
  find (isFor (User.id u) r) (bookmarks st).
Proof.
  unfold getBookmarkByRecipeId. apply find_ext. intro; apply lookup_test.
Qed.

Lemma addBookmark_cases u now isoNow r folderId rating st :
  addBookmark (Some u) now isoNow r folderId rating st =
  match find (isFor (User.id u) r) (bookmarks st) with
  | Some existing =>
      mkState (folders st)
        (map (patched (Bookmark.id existing)
                (Bookmark.mkPatch (Some folderId) (Some rating)))
             (bookmarks st))
  | None =>
      mkState (folders st)
        (bookmarks st ++
         [Bookmark.mk (lit "bookmark_" ++ showZ now) r (User.id u)
                      folderId rating isoNow])
  end.
Proof.
  unfold addBookmark.
  rewrite (find_ext _ (isFor (User.id u) r))
    by (intro; apply addBookmark_test).
  destruct (find _ _); reflexivity.
Qed.

Lemma lookup_after_update u r st existing folderId rating :
  find (isFor (User.id u) r) (bookmarks st) = Some existing ->
  find (isFor (User.id u) r)
    (map (patched (Bookmark.id existing)
            (Bookmark.mkPatch (Some folderId) (Some rating)))
         (bookmarks st)) =
  Some (moved existing folderId rating).
Proof.
  intro H. rewrite find_map_stable by (intro; apply isFor_patched).
  rewrite H. simpl. unfold patched. now rewrite strEq_refl.
Qed.

Lemma lookup_after_remove u r st existing :
  atMostOne (User.id u) r (bookmarks st) ->
  find (isFor (User.id u) r) (bookmarks st) = Some existing ->
  find (isFor (User.id u) r)
    (filter (fun b => negb (strEq (Bookmark.id b) (Bookmark.id existing)))
            (bookmarks st)) = None.
Proof.
  intros Hone H. apply find_of_filter_nil. rewrite filter_comm.
  destruct (find_filter_head _ _ H) as (rest & E).
  unfold atMostOne, bookmarksOf in Hone. rewrite E in Hone |- *.
  destruct rest; [|simpl in Hone; lia].
  simpl. now rewrite strEq_refl.
Qed.

Lemma map_unchanged {A} (f : A -> A) l :
  Forall (fun x => f x = x) l -> map f l = l.
Proof.
  induction 1 as [|x l Hx _ IH]; [reflexivity|].
  simpl. now rewrite Hx, IH.
Qed.

End StoreMore.

(** Signed out, the store is inert: no call changes the folders
    or the bookmarks, and the listing reads and the recommendations come
    back empty. *)
Lemma signed_out_is_inert :
  forall (st : FolderContext.State) (now : Z) (isoNow : str) (call : Call)
         (r : Z) (f : str) (rs : list Recipe),
    step st (mkEvent None now isoNow call) = st /\
    getUserFolders None st = [] /\
    getBookmarksByFolder None f st = [] /\
    getBookmarkByRecipeId None r st = None /\
    FolderQueries.getRecommendationsForFolder None rs f st = [] /\
    FolderQueries.getRecommendationsForUser None rs st = [].
Proof.
  intros st now isoNow call r f rs.
  split; [destruct call; reflexivity|]. repeat split; reflexivity.
Qed.

(** X21.  The listing reads are scoped to the signed-in user:
    [getUserFolders] returns only folders the user owns,
    [getBookmarksByFolder(f)] only the user's bookmarks filed in [f],
    and [getBookmarkByRecipeId(r)] returns a stored bookmark of the user
    for recipe [r], or nothing exactly when the user has none. *)
Theorem X21_reads_are_scoped :
  forall (u : User.t) (f : str) (r : Z) (st : FolderContext.State),
    Forall (fun folder => Folder.userId folder = User.id u)
           (getUserFolders (Some u) st) /\
    Forall (fun b => Bookmark.userId b = User.id u /\
                     Bookmark.folderId b = f)
           (getBookmarksByFolder (Some u) f st) /\
    match getBookmarkByRecipeId (Some u) r st with
    | Some b => In b (bookmarks st) /\
                Bookmark.userId b = User.id u /\ Bookmark.recipeId b = r
    | None => Reference.bookmarksOf (User.id u) r (bookmarks st) = []
    end.
Proof.
  intros u f r st. split; [|split].
  - apply Forall_forall. intros folder H. apply filter_In in H.
    now apply strEq_spec.
  - apply Forall_forall. intros b H. apply filter_In in H.
    destruct H as [_ H]. apply andb_true_iff in H.
    now rewrite !strEq_spec in H.
  - rewrite lookup_isFor.
    destruct (find _ _) as [b|] eqn:E.
    + apply find_some in E. destruct E as [Hin Hb].
      apply isFor_spec in Hb. tauto.
    + now apply find_filter_none.
Qed.

Lemma addBookmark_lookup (u : User.t) (now : Z) (isoNow : str) (r : Z)
  (f : str) (rating : Z) (st : FolderContext.State) :
  exists b,
    getBookmarkByRecipeId (Some u) r
      (addBookmark (Some u) now isoNow r f rating st) = Some b /\
    Bookmark.userId b = User.id u /\ Bookmark.recipeId b = r /\
    Bookmark.folderId b = f /\ Bookmark.rating b = rating.
Proof.
  rewrite lookup_isFor, addBookmark_cases.
  destruct (find _ (bookmarks st)) as [existing|] eqn:E; cbn [bookmarks].
  - rewrite lookup_after_update by exact E.
    apply find_some in E. destruct E as [_ E]. apply isFor_spec in E.
    eexists. split; [reflexivity|]. simpl. tauto.
  - rewrite find_app, E. cbn [find].
    match goal with |- context [Reference.isFor ?a ?b ?c] =>
      assert (K : Reference.isFor a b c = true)
        by (apply isFor_spec; split; reflexivity)
    end.
    rewrite K. eexists. split; [reflexivity|]. simpl. tauto.
Qed.

(** X22.  What [addBookmark] stores can be read back: right after
    [addBookmark(r, f, rating)], [getBookmarkByRecipeId(r)] returns a
    bookmark of the user for recipe [r] with folder [f] and that rating,
    whether or not the recipe was bookmarked before. *)
Theorem X22_addBookmark_then_lookup :
  forall (u : User.t) (now : Z) (isoNow : str) (r : Z) (f : str)
         (rating : Z) (st : FolderContext.State),
    exists b,
      getBookmarkByRecipeId (Some u) r
        (addBookmark (Some u) now isoNow r f rating st) = Some b /\
      Bookmark.userId b = User.id u /\ Bookmark.recipeId b = r /\
      Bookmark.folderId b = f /\ Bookmark.rating b = rating.
Proof.
  intros u now isoNow r f rating st.
  rewrite lookup_isFor, addBookmark_cases.
  destruct (find _ (bookmarks st)) as [existing|] eqn:E; cbn [bookmarks].
  - rewrite lookup_after_update by exact E.
    apply find_some in E. destruct E as [_ E]. apply isFor_spec in E.
    eexists. split; [reflexivity|]. simpl. tauto.
  - rewrite find_app, E. cbn [find].
    match goal with |- context [Reference.isFor ?a ?b ?c] =>
      assert (K : Reference.isFor a b c = true)
        by (apply isFor_spec; split; reflexivity)
    end.
    rewrite K. eexists. split; [reflexivity|]. simpl. tauto.
Qed.

(** X23.  When the user has at most one bookmark for a recipe, removing
    the bookmark that [getBookmarkByRecipeId] returns leaves the recipe
    unbookmarked; and after [removeBookmark(id)] no stored bookmark has
    that id. *)
Theorem X23_removeBookmark_then_lookup :
  forall (u : User.t) (r : Z) (st : FolderContext.State) (b : Bookmark.t),
    Reference.atMostOne (User.id u) r (bookmarks st) ->
    getBookmarkByRecipeId (Some u) r st = Some b ->
    getBookmarkByRecipeId (Some u) r
      (removeBookmark (Some u) (Bookmark.id b) st) = None /\
    Forall (fun b' => Bookmark.id b' <> Bookmark.id b)
      (bookmarks (removeBookmark (Some u) (Bookmark.id b) st)).
Proof.
  intros u r st b Hone H. rewrite lookup_isFor in *.
  cbn [removeBookmark bookmarks]. split.
  - now apply lookup_after_remove.
  - eapply Forall_impl;
      [|apply (Forall_filter_negb
                 (fun x => strEq (Bookmark.id x) (Bookmark.id b)))].
    intros x. apply strEq_false.
Qed.

Lemma X23_removeBookmark_then_lookup_witness :
  getBookmarkByRecipeId (Some Reference.alice) 5
    (removeBookmark (Some Reference.alice)
       (Bookmark.id Reference.aliceBookmark) Reference.aliceStore) = None /\
  Forall (fun b' => Bookmark.id b' <> Bookmark.id Reference.aliceBookmark)
    (bookmarks (removeBookmark (Some Reference.alice)
                  (Bookmark.id Reference.aliceBookmark) Reference.aliceStore)).
Proof.
  apply (@X23_removeBookmark_then_lookup Reference.alice 5
           Reference.aliceStore Reference.aliceBookmark).
  - unfold Reference.atMostOne. vm_compute. lia.
  - reflexivity.
Defined.

Section StoreFrames.
Import Reference Notions.

Lemma state_eta (st : FolderContext.State) :
  mkState (folders st) (bookmarks st) = st.
Proof. now destruct st. Qed.

Lemma filter_filter_implied {A} (f g : A -> bool) l :
  (forall x, f x = true -> g x = true) ->
  filter f (filter g l) = filter f l.
Proof.
  intro H. induction l as [|x l IH]; [reflexivity|].
  simpl. destruct (g x) eqn:G; simpl.
  - destruct (f x); now rewrite IH.
  - destruct (f x) eqn:F; [|exact IH].
    apply H in F. congruence.
Qed.

Lemma find_filter_implied {A} (f g : A -> bool) l :
  (forall x, f x = true -> g x = true) ->
  find f (filter g l) = find f l.
Proof.
  intro H. induction l as [|x l IH]; [reflexivity|].
  simpl. destruct (g x) eqn:G; simpl.
  - destruct (f x); [reflexivity|exact IH].
  - destruct (f x) eqn:F; [|exact IH].
    apply H in F. congruence.
Qed.

Lemma find_none_all {A} (f : A -> bool) l :
  Forall (fun x => f x = false) l -> find f l = None.
Proof.
  induction 1 as [|x l Hx _ IH]; [reflexivity|].
  simpl. now rewrite Hx.
Qed.

Lemma filter_none_all {A} (f : A -> bool) l :
  Forall (fun x => f x = false) l -> filter f l = [].
Proof.
  induction 1 as [|x l Hx _ IH]; [reflexivity|].
  simpl. now rewrite Hx.
Qed.

Lemma includesId_spec ids id :
  FolderQueries.includesId ids id = true <-> In id ids.
Proof.
  unfold FolderQueries.includesId. rewrite existsb_exists. split.
  - intros (x & Hx & E). apply Z.eqb_eq in E. now subst.
  - intro H. exists id. split; [exact H|apply Z.eqb_refl].
Qed.

Lemma recipeWithId_spec rs id r0 :
  FolderQueries.recipeWithId rs id = Some r0 ->
  In r0 rs /\ RecipeId r0 = id.
Proof.
  unfold FolderQueries.recipeWithId. intro H. apply find_some in H.
  now rewrite Z.eqb_eq in H.
Qed.

Lemma sameCategory_resembles k rs r b :
  FolderQueries.sameCategory rs r b = true -> resembles k rs r b.
Proof.
  unfold FolderQueries.sameCategory.
  destruct (FolderQueries.recipeWithId rs (Bookmark.recipeId b)) as [r0|] eqn:E;
    [|discriminate].
  intro H. apply strEq_spec in H. apply recipeWithId_spec in E.
  exists r0. tauto.
Qed.

Lemma sharesKeyword_resembles rs r b :
  FolderQueries.sharesKeyword rs r b = true -> resembles true rs r b.
Proof.
  unfold FolderQueries.sharesKeyword. cbv zeta.
  destruct (FolderQueries.recipeWithId rs (Bookmark.recipeId b)) as [r0|] eqn:E.
  - intro H. apply existsb_exists in H. destruct H as (kw & Hkw & H).
    apply existsb_strEq in H. apply recipeWithId_spec in E.
    exists r0. split; [tauto|]. split; [tauto|].
    right. split; [reflexivity|]. exists kw. tauto.
  - intro H. apply existsb_exists in H. destruct H as (kw & _ & H).
    discriminate.
Qed.

End StoreFrames.

(** X24.  The bookmark button, for a user with at most one bookmark of
    the recipe: choosing the folder the recipe is already in removes the
    bookmark, choosing another folder moves the existing bookmark there
    with the chosen rating, and choosing a folder for an unbookmarked
    recipe bookmarks it there; afterwards the user still has at most one
    bookmark of the recipe. *)
Theorem X24_bookmark_button :
  forall (u : User.t) (now : Z) (isoNow : str) (r rating : Z) (f : str)
         (st : FolderContext.State),
    Reference.atMostOne (User.id u) r (bookmarks st) ->
    let st' := BookmarkButton.handleBookmark (Some u) now isoNow r rating f st in
    Reference.atMostOne (User.id u) r (bookmarks st') /\
    match getBookmarkByRecipeId (Some u) r st with
    | Some b =>
        if Reference.str_eq_dec (Bookmark.folderId b) f
        then getBookmarkByRecipeId (Some u) r st' = None
        else getBookmarkByRecipeId (Some u) r st' =
             Some (Reference.moved b f rating)
    | None =>
        exists b',
          getBookmarkByRecipeId (Some u) r st' = Some b' /\
          Bookmark.folderId b' = f /\ Bookmark.rating b' = rating
    end.
Proof.
  intros u now isoNow r rating f st Hone. cbv zeta.
  unfold BookmarkButton.handleBookmark.
  destruct (getBookmarkByRecipeId (Some u) r st) as [b|] eqn:E.
  - destruct (Reference.str_eq_dec (Bookmark.folderId b) f) as [Ef|Ef].
    + rewrite (proj2 (strEq_spec _ _) Ef). split.
      * change (removeBookmark (Some u) (Bookmark.id b) st)
          with (step st (mkEvent (Some u) now isoNow
                           (RemoveBookmark (Bookmark.id b)))).
        now apply atMostOne_step.
      * rewrite lookup_isFor in *. cbn [removeBookmark bookmarks].
        now apply lookup_after_remove.
    + rewrite (strEq_neq Ef). split.
      * now apply atMostOne_updateBookmark.
      * rewrite lookup_isFor in *. rewrite updateBookmark_bookmarks.
        now apply lookup_after_update.
  - split; [now apply atMostOne_addBookmark|].
    destruct (addBookmark_lookup u now isoNow r f rating st)
      as (b' & H1 & _ & _ & H2 & H3).
    exists b'. tauto.
Qed.

Lemma X24_bookmark_button_witness :
  Reference.atMostOne (User.id Reference.alice) 5
    (bookmarks
       (BookmarkButton.handleBookmark (Some Reference.alice) 99 (lit "t") 5 3
          (lit "folder_1") Reference.aliceStore)) /\
  match getBookmarkByRecipeId (Some Reference.alice) 5 Reference.aliceStore with
  | Some b =>
      if Reference.str_eq_dec (Bookmark.folderId b) (lit "folder_1")
      then getBookmarkByRecipeId (Some Reference.alice) 5
             (BookmarkButton.handleBookmark (Some Reference.alice) 99 (lit "t")
                5 3 (lit "folder_1") Reference.aliceStore) = None
      else getBookmarkByRecipeId (Some Reference.alice) 5
             (BookmarkButton.handleBookmark (Some Reference.alice) 99 (lit "t")
                5 3 (lit "folder_1") Reference.aliceStore) =
           Some (Reference.moved b (lit "folder_1") 3)
  | None =>
      exists b',
        getBookmarkByRecipeId (Some Reference.alice) 5
          (BookmarkButton.handleBookmark (Some Reference.alice) 99 (lit "t")
             5 3 (lit "folder_1") Reference.aliceStore) = Some b' /\
        Bookmark.folderId b' = lit "folder_1" /\ Bookmark.rating b' = 3%Z
  end.
Proof.
  apply (@X24_bookmark_button Reference.alice 99 (lit "t") 5 3
           (lit "folder_1") Reference.aliceStore).
  unfold Reference.atMostOne. vm_compute. lia.
Defined.

(** X25.  [createFolder] adds one folder, owned by the signed-in user,
    at the end of that user's folder list; other users' folder lists and
    all bookmarks are as before.  Without a colour or icon the folder
    gets ["#ff9f7f"] and ["bookmark"]. *)
Theorem X25_createFolder_appends :
  forall (u u' : User.t) (now : Z) (isoNow name : str)
         (color icon : option str) (st : FolderContext.State),
    let st' := createFolder (Some u) now isoNow name color icon st in
    getUserFolders (Some u') st' =
      getUserFolders (Some u') st ++
      (if Reference.str_eq_dec (User.id u) (User.id u')
       then [Notions.createdFolder u now isoNow name color icon] else []) /\
    bookmarks st' = bookmarks st /\
    Folder.userId (Notions.createdFolder u now isoNow name color icon) =
      User.id u /\
    Folder.color (Notions.createdFolder u now isoNow name None icon) =
      lit "#ff9f7f" /\
    Folder.icon (Notions.createdFolder u now isoNow name color None) =
      lit "bookmark".
Proof.
  intros u u' now isoNow name color icon st. cbv zeta.
  split; [|repeat split; reflexivity].
  unfold getUserFolders, createFolder. cbn [folders].
  rewrite filter_app. f_equal. cbn [filter Folder.userId].
  destruct (Reference.str_eq_dec (User.id u) (User.id u')) as [E|E].
  - now rewrite (proj2 (strEq_spec _ _) E).
  - now rewrite (strEq_neq E).
Qed.

(** X26.  An id the store does not know changes nothing: when no folder
    and no bookmark has id [x] and no bookmark is filed under [x], then
    [updateFolder], [deleteFolder], [updateBookmark] and
    [removeBookmark] called with [x] leave the store as it is, and
    [getFolderById(x)] and [getBookmarksByFolder(x)] find nothing. *)
Theorem X26_unknown_id_is_ignored :
  forall (u : User.t) (x : str) (fdata : Folder.patch)
         (bdata : Bookmark.patch) (st : FolderContext.State),
    Notions.unknownId x st ->
    updateFolder (Some u) x fdata st = st /\
    deleteFolder (Some u) x st = st /\
    updateBookmark (Some u) x bdata st = st /\
    removeBookmark (Some u) x st = st /\
    getFolderById x st = None /\
    getBookmarksByFolder (Some u) x st = [].
Proof.
  intros u x fdata bdata st [Hf Hb].
  assert (Hf' : Forall (fun folder => strEq (Folder.id folder) x = false)
                       (folders st)).
  { eapply Forall_impl; [|exact Hf]. intros a. apply strEq_neq. }
  assert (Hb1 : Forall (fun b => strEq (Bookmark.id b) x = false)
                       (bookmarks st)).
  { eapply Forall_impl; [|exact Hb]. intros a [H _]. now apply strEq_neq. }
  assert (Hb2 : Forall (fun b => strEq (Bookmark.folderId b) x = false)
                       (bookmarks st)).
  { eapply Forall_impl; [|exact Hb]. intros a [_ H]. now apply strEq_neq. }
  unfold updateFolder, deleteFolder, updateBookmark, removeBookmark,
    getFolderById, getBookmarksByFolder.
  repeat split.
  - rewrite map_unchanged; [apply state_eta|].
    eapply Forall_impl; [|exact Hf']. intros a Ha. now rewrite Ha.
  - rewrite !filter_all; [apply state_eta| |].
    + eapply Forall_impl; [|exact Hb2]. intros a Ha. now rewrite Ha.
    + eapply Forall_impl; [|exact Hf']. intros a Ha. now rewrite Ha.
  - rewrite map_unchanged; [apply state_eta|].
    eapply Forall_impl; [|exact Hb1]. intros a Ha. now rewrite Ha.
  - rewrite filter_all; [apply state_eta|].
    eapply Forall_impl; [|exact Hb1]. intros a Ha. now rewrite Ha.
  - now apply find_none_all.
  - apply filter_none_all.
    eapply Forall_impl; [|exact Hb2]. intros a Ha.
    now rewrite Ha, andb_false_r.
Qed.

Lemma X26_unknown_id_is_ignored_witness :
  updateFolder (Some Reference.bob) (lit "folder_9")
    (Folder.mkPatch (Some (lit "Mine")) None None) Reference.aliceStore =
    Reference.aliceStore /\
  deleteFolder (Some Reference.bob) (lit "folder_9") Reference.aliceStore =
    Reference.aliceStore /\
  updateBookmark (Some Reference.bob) (lit "folder_9")
    (Bookmark.mkPatch None (Some 1%Z)) Reference.aliceStore =
    Reference.aliceStore /\
  removeBookmark (Some Reference.bob) (lit "folder_9") Reference.aliceStore =
    Reference.aliceStore /\
  getFolderById (lit "folder_9") Reference.aliceStore = None /\
  getBookmarksByFolder (Some Reference.bob) (lit "folder_9")
    Reference.aliceStore = [].
Proof.
  apply X26_unknown_id_is_ignored.
  split; repeat constructor; vm_compute; discriminate.
Defined.

(** X27.  [deleteFolder(f)] leaves every other folder alone: for a
    folder id [g] other than [f], [getFolderById(g)] and every user's
    [getBookmarksByFolder(g)] give what they gave before; and deleting
    [f] a second time changes nothing more. *)
Theorem X27_deleteFolder_frame :
  forall (u u' : User.t) (f g : str) (st : FolderContext.State),
    g <> f ->
    getFolderById g (deleteFolder (Some u) f st) = getFolderById g st /\
    getBookmarksByFolder (Some u') g (deleteFolder (Some u) f st) =
      getBookmarksByFolder (Some u') g st /\
    deleteFolder (Some u) f (deleteFolder (Some u) f st) =
      deleteFolder (Some u) f st.
Proof.
  intros u u' f g st Hgf.
  unfold getFolderById, getBookmarksByFolder, deleteFolder.
  cbn [folders bookmarks]. split; [|split].
  - apply find_filter_implied. intros x Hx.
    apply strEq_spec in Hx. rewrite Hx. now rewrite (strEq_neq Hgf).
  - apply filter_filter_implied. intros x Hx.
    apply andb_true_iff in Hx. destruct Hx as [_ Hx].
    apply strEq_spec in Hx. rewrite Hx. now rewrite (strEq_neq Hgf).
  - f_equal; apply filter_filter_implied; auto.
Qed.

Lemma X27_deleteFolder_frame_witness :
  getFolderById (lit "folder_1")
    (deleteFolder (Some Reference.alice) (lit "folder_2") Reference.aliceStore)
    = getFolderById (lit "folder_1") Reference.aliceStore /\
  getBookmarksByFolder (Some Reference.alice) (lit "folder_1")
    (deleteFolder (Some Reference.alice) (lit "folder_2") Reference.aliceStore)
    = getBookmarksByFolder (Some Reference.alice) (lit "folder_1")
        Reference.aliceStore /\
  deleteFolder (Some Reference.alice) (lit "folder_2")
    (deleteFolder (Some Reference.alice) (lit "folder_2") Reference.aliceStore)
    = deleteFolder (Some Reference.alice) (lit "folder_2") Reference.aliceStore.
Proof.
  apply X27_deleteFolder_frame. vm_compute. discriminate.
Defined.

(** X28.  Recommendations never repeat what is bookmarked.
    [getRecommendationsForFolder(f)] returns at most 5 recipes of the
    collection, in collection order, none of them bookmarked by the user
    in folder [f], each with the category of, or a keyword in common
    with, a recipe bookmarked there.  [getRecommendationsForUser]
    returns at most 5 recipes of the collection, none of them bookmarked
    by any user of the store, each with the category of some bookmarked
    recipe. *)
Theorem X28_recommendations :
  forall (u : User.t) (rs : list Recipe) (f : str)
         (st : FolderContext.State),
    (length (FolderQueries.getRecommendationsForFolder (Some u) rs f st) <= 5 /\
     Notions.inOrder
       (FolderQueries.getRecommendationsForFolder (Some u) rs f st) rs /\
     Forall (fun r =>
               ~ In (RecipeId r)
                    (map Bookmark.recipeId (getBookmarksByFolder (Some u) f st)) /\
               Exists (Notions.resembles true rs r)
                      (getBookmarksByFolder (Some u) f st))
            (FolderQueries.getRecommendationsForFolder (Some u) rs f st)) /\
    (length (FolderQueries.getRecommendationsForUser (Some u) rs st) <= 5 /\
     Notions.inOrder (FolderQueries.getRecommendationsForUser (Some u) rs st) rs /\
     Forall (fun r =>
               ~ In (RecipeId r) (map Bookmark.recipeId (bookmarks st)) /\
               Exists (Notions.resembles false rs r) (bookmarks st))
            (FolderQueries.getRecommendationsForUser (Some u) rs st)).
Proof.
  intros u rs f st.
  unfold FolderQueries.getRecommendationsForFolder,
    FolderQueries.getRecommendationsForUser.
  destruct rs as [|r0 rs0].
  { repeat split; simpl; try lia; constructor. }
  set (rs := r0 :: rs0). cbv zeta. split.
  - split; [apply firstn_le_length|]. split.
    + eapply inOrder_trans; [apply inOrder_firstn|apply inOrder_filter].
    + eapply inOrder_Forall; [apply inOrder_firstn|].
      apply Forall_forall. intros r Hr. apply filter_In in Hr.
      destruct Hr as [_ Hr]. apply andb_true_iff in Hr.
      destruct Hr as [Hno Hsome]. split.
      * intro K. apply includesId_spec in K. rewrite K in Hno. discriminate.
      * apply existsb_exists in Hsome. destruct Hsome as (b & Hb & H).
        apply Exists_exists. exists b. split; [exact Hb|].
        apply orb_true_iff in H. destruct H as [H|H].
        -- now apply sameCategory_resembles.
        -- now apply sharesKeyword_resembles.
  - split; [apply firstn_le_length|]. split.
    + eapply inOrder_trans; [apply inOrder_firstn|apply inOrder_filter].
    + eapply inOrder_Forall; [apply inOrder_firstn|].
      apply Forall_forall. intros r Hr. apply filter_In in Hr.
      destruct Hr as [_ Hr]. apply andb_true_iff in Hr.
      destruct Hr as [Hno Hsome]. split.
      * intro K. apply includesId_spec in K. rewrite K in Hno. discriminate.
      * apply existsb_exists in Hsome. destruct Hsome as (b & Hb & H).
        apply Exists_exists. exists b. split; [exact Hb|].
        now apply sameCategory_resembles.
Qed.

(* ------------------------------------------------------------------ *)
(** ** The cooking-time filter of the search page *)
(* ------------------------------------------------------------------ *)

Section CookingTime.
Import Notions SearchPage.

Lemma digitsOf_digits d : Forall (fun c => isDigit c = true) (digitsOf d).
Proof.
  unfold digitsOf. induction d; simpl; constructor; auto.
Qed.

Lemma parse_acc d : forall acc : positive,
  fold_left (fun a c => (a * 10 + Z.of_N (code c - 48))%Z) (digitsOf d)
            (Zpos acc) =
  Zpos (Pos.of_uint_acc d acc).
Proof.
  unfold digitsOf.
  induction d; intro acc; cbn [NilEmpty.string_of_uint list_ascii_of_string
                               fold_left Pos.of_uint_acc];
    [reflexivity|..];
    rewrite <- IHd; f_equal;
    match goal with
    | |- context [Z.of_N ?n] =>
        let v := eval vm_compute in (Z.of_N n) in change (Z.of_N n) with v
    end; lia.
Qed.

Lemma parseDigits_digitsOf d :
  parseDigits (digitsOf d) = Z.of_N (Pos.of_uint d).
Proof.
  unfold parseDigits. induction d; [reflexivity|..];
    unfold digitsOf;
    cbn [NilEmpty.string_of_uint list_ascii_of_string];
    fold (digitsOf d); cbn [fold_left Pos.of_uint Z.of_N];
    match goal with
    | |- fold_left _ _ ?a = _ =>
        let v := eval vm_compute in a in change a with v
    end;
    first [exact IHd | apply parse_acc].
Qed.

Lemma decimal_nonneg z :
  (0 <= z)%Z ->
  exists d, decimal z = digitsOf d /\ Z.of_N (Pos.of_uint d) = z /\
            digitsOf d <> [].
Proof.
  intro Hz. destruct z as [|p|p]; [| |lia].
  - exists (Decimal.D0 Decimal.Nil). repeat split. discriminate.
  - exists (Pos.to_uint p). unfold decimal. cbn [Z.to_int].
    assert (E : Pos.of_uint (Pos.to_uint p) = Npos p)
      by apply DecimalPos.Unsigned.of_to.
    split; [|split].
    + unfold digitsOf. cbn [NilZero.string_of_int].
      unfold NilZero.string_of_uint.
      destruct (Pos.to_uint p); [discriminate E|..]; reflexivity.
    + now rewrite E.
    + intro K. pose proof (parseDigits_digitsOf (Pos.to_uint p)) as P.
      rewrite K, E in P. discriminate.
Qed.

Lemma showZ_small z : (Z.abs z < twoTo53)%Z -> showZ z = decimal z.
Proof.
  intro H. unfold showZ. apply Z.ltb_lt in H. now rewrite H.
Qed.

Lemma plus_small a b :
  (Z.abs (a + b) < twoTo53)%Z -> plus a b = Finite (a + b).
Proof.
  intro H. unfold plus, toNumber. cbv zeta.
  rewrite roundToDouble_exact by lia.
  assert (B : (twoTo53 < 2 ^ 1024)%Z) by (vm_compute; reflexivity).
  assert (L : (Z.abs (a + b) < 2 ^ 1024)%Z)
    by (eapply Z.lt_trans; eassumption).
  apply Z.ltb_lt in L. now rewrite L.
Qed.

Lemma spanDigits_app ds c rest :
  Forall (fun d => isDigit d = true) ds -> isDigit c = false ->
  spanDigits (ds ++ c :: rest) = (ds, c :: rest).
Proof.
  intros H Hc. induction H as [|d ds Hd _ IH]; simpl.
  - now rewrite Hc.
  - now rewrite Hd, IH.
Qed.

Lemma match_other ds c letter :
  Forall (fun d => isDigit d = true) ds -> isDigit c = false ->
  Ascii.eqb c letter = false ->
  matchDigitsThen letter (ds ++ [c]) = None.
Proof.
  intros H Hc Hl. induction H as [|d ds Hd Hds IH].
  - simpl. now rewrite Hc.
  - change ((d :: ds) ++ [c]) with (d :: (ds ++ [c])).
    cbn [matchDigitsThen]. rewrite Hd.
    change (d :: (ds ++ [c])) with ((d :: ds) ++ [c]).
    rewrite spanDigits_app by (assumption || now constructor).
    now rewrite Hl.
Qed.

Lemma match_this ds c :
  Forall (fun d => isDigit d = true) ds -> ds <> [] -> isDigit c = false ->
  matchDigitsThen c (ds ++ [c]) = Some ds.
Proof.
  intros H Hne Hc. destruct H as [|d ds Hd Hds]; [congruence|].
  change ((d :: ds) ++ [c]) with (d :: (ds ++ [c])).
  cbn [matchDigitsThen]. rewrite Hd.
  change (d :: (ds ++ [c])) with ((d :: ds) ++ [c]).
  rewrite spanDigits_app by (assumption || now constructor).
  now rewrite Ascii.eqb_refl.
Qed.

Lemma match_skip letter c x :
  isDigit c = false ->
  matchDigitsThen letter (c :: x) = matchDigitsThen letter x.
Proof. intro H. cbn [matchDigitsThen]. now rewrite H. Qed.

Lemma totalMinutes_pt z :
  (0 <= z < twoTo53)%Z -> totalMinutes (pt z) = z.
Proof.
  intro Hz. destruct (@decimal_nonneg z) as (d & Es & Ev & Hne); [lia|].
  unfold totalMinutes, pt. rewrite showZ_small by lia. rewrite Es.
  change (lit "PT" ++ digitsOf d ++ lit "M")
    with ("P"%char :: "T"%char :: (digitsOf d ++ ["M"%char])).
  rewrite !(@match_skip _ "P"%char) by reflexivity.
  rewrite !(@match_skip _ "T"%char) by reflexivity.
  rewrite match_other by (apply digitsOf_digits || reflexivity).
  rewrite match_this by (apply digitsOf_digits || assumption || reflexivity).
  rewrite parseDigits_digitsOf, Ev. lia.
Qed.

Lemma ptSum_small a b :
  (Z.abs (a + b) < twoTo53)%Z -> ptSum a b = pt (a + b).
Proof. intro H. unfold ptSum, pt. now rewrite plus_small. Qed.

Lemma selected_quick :
  selected [lit "quick"] (lit "quick") = true /\
  selected [lit "quick"] (lit "medium") = false /\
  selected [lit "quick"] (lit "long") = false.
Proof. repeat split. Qed.

Lemma selected_medium :
  selected [lit "medium"] (lit "quick") = false /\
  selected [lit "medium"] (lit "medium") = true /\
  selected [lit "medium"] (lit "long") = false.
Proof. repeat split. Qed.

Lemma selected_long :
  selected [lit "long"] (lit "quick") = false /\
  selected [lit "long"] (lit "medium") = false /\
  selected [lit "long"] (lit "long") = true.
Proof. repeat split. Qed.

End CookingTime.

(** X29.  The total time written by [addRecipe] is read back by the
    search page's cooking-time filter: for a recipe created with
    [prepTime + cookTime] a non-negative safe integer (below 2^53), the
    minutes the filter extracts from its TotalTime are
    [prepTime + cookTime]. *)
Theorem X29_total_time_round_trip :
  forall (rs : list Recipe) (data : RecipeInput) (isoNow : str),
    (0 <= prepTime data + cookTime data < twoTo53)%Z ->
    SearchPage.totalMinutes (TotalTime (newRecipe rs data isoNow)) =
    (prepTime data + cookTime data)%Z.
Proof.
  intros rs data isoNow H. cbn [newRecipe TotalTime].
  rewrite ptSum_small by lia. now apply totalMinutes_pt.
Qed.

Lemma X29_total_time_round_trip_witness :
  SearchPage.totalMinutes
    (TotalTime
       (newRecipe []
          (mkInput (lit "Soup") [] [] [] [] [] 15 30 2 None None None [] [])
          (lit "t"))) = (15 + 30)%Z.
Proof.
  apply (@X29_total_time_round_trip []
           (mkInput (lit "Soup") [] [] [] [] [] 15 30 2 None None None [] [])
           (lit "t")).
  split; vm_compute; congruence.
Defined.

(** From 1e21 on the template literal prints the exponent form, and the
    filter then reads the exponent as the minutes. *)
Example total_time_exponent_form :
  TotalTime
    (newRecipe []
       (mkInput (lit "Soup") [] [] [] [] [] (10 ^ 21) 0 2 None None None [] [])
       (lit "t")) = lit "PT1e+21M" /\
  SearchPage.totalMinutes (lit "PT1e+21M") = 21%Z.
Proof. split; vm_compute; reflexivity. Qed.

(** X30.  The three cooking-time buckets split the recipes without gap
    or overlap: every recipe passes exactly one of the filters "quick"
    (under 30 minutes), "medium" (30 to 60) and "long" (over 60); with
    all three selected every recipe passes, and with none selected the
    results are not filtered. *)
Theorem X30_time_buckets_partition :
  forall (recipe : Recipe) (results : list Recipe),
    (SearchPage.passesTime [lit "quick"] recipe = true /\
     SearchPage.passesTime [lit "medium"] recipe = false /\
     SearchPage.passesTime [lit "long"] recipe = false \/
     SearchPage.passesTime [lit "quick"] recipe = false /\
     SearchPage.passesTime [lit "medium"] recipe = true /\
     SearchPage.passesTime [lit "long"] recipe = false \/
     SearchPage.passesTime [lit "quick"] recipe = false /\
     SearchPage.passesTime [lit "medium"] recipe = false /\
     SearchPage.passesTime [lit "long"] recipe = true) /\
    SearchPage.passesTime [lit "quick"; lit "medium"; lit "long"] recipe = true /\
    SearchPage.filterByTime [] results = results.
Proof.
  intros recipe results.
  assert (Hall : SearchPage.selected [lit "quick"; lit "medium"; lit "long"]
                   (lit "quick") = true /\
                 SearchPage.selected [lit "quick"; lit "medium"; lit "long"]
                   (lit "medium") = true /\
                 SearchPage.selected [lit "quick"; lit "medium"; lit "long"]
                   (lit "long") = true) by (repeat split).
  destruct Hall as (A1 & A2 & A3).
  destruct selected_quick as (Q1 & Q2 & Q3).
  destruct selected_medium as (M1 & M2 & M3).
  destruct selected_long as (L1 & L2 & L3).
  unfold SearchPage.passesTime. cbv zeta.
  rewrite A1, A2, A3, Q1, Q2, Q3, M1, M2, M3, L1, L2, L3.
  set (total := SearchPage.totalMinutes (TotalTime recipe)).
  split; [|split; [|reflexivity]];
    destruct (Z.ltb_spec total 30); destruct (Z.leb_spec 30 total);
    destruct (Z.leb_spec total 60); destruct (Z.ltb_spec 60 total);
    cbn [andb]; try lia; auto.
Qed.

Example totalMinutes_ex :
  SearchPage.totalMinutes (lit "PT1H30M") = 90%Z /\
  SearchPage.totalMinutes (lit "PT45M") = 45%Z /\
  SearchPage.totalMinutes [] = 0%Z.
Proof. repeat split. Qed.

(** Numbers as the template literal prints them. *)
Example showZ_ex :
  showZ 45 = lit "45" /\
  showZ (-7) = lit "-7" /\
  showZ twoTo53 = lit "9007199254740992" /\
  showZ (2 ^ 60) = lit "1152921504606847000" /\
  showZ (10 ^ 20) = lit "100000000000000000000" /\
  showZ (10 ^ 21) = lit "1e+21" /\
  showZ (15 * 10 ^ 20) = lit "1.5e+21" /\
  showZ (2 ^ 70) = lit "1.1805916207174113e+21" /\
  showNumber (plus (2 ^ 1023) (2 ^ 1023)) = lit "Infinity".
Proof. repeat split; vm_compute; reflexivity. Qed.

(** Additions on doubles beyond 2^53. *)
Example plusOne_ex :
  plusOne 7 = 8%Z /\
  plusOne twoTo53 = twoTo53 /\
  plusOne (twoTo53 + 2) = (twoTo53 + 4)%Z /\
  plusOne (- twoTo53) = (- twoTo53 + 1)%Z.
Proof. repeat split; vm_compute; reflexivity. Qed.
